(** * Prothom Alo scraper: the date-window / pagination / checkpoint core

    A shallow embedding of [scraper.py], [requester.py], [config.py],
    [processor.py], [models.py], [saver.py] and [utils.py], followed by the
    properties of the harvest loop.

    Conventions of the embedding.
    - A Python value coming out of [json.load] / [response.json()] is a
      [pyval].  JSON floats are not represented.
    - A Python [str] is a Rocq [string]; one [ascii] stands for one
      character.  Only emptiness, equality and the characters
      [<], [>], [&], [;] and newline are ever inspected by the program.
    - A Python exception is a value of [exn]; code that can raise returns a
      [res] (pure code) or runs in the monad [M] (code with effects).
    - Everything the program reaches outside its own source (the HTTP
      endpoint, the file system, the clock, the [logging] call of
      [Requester.wait], the [str] and [int] builtins on inputs the
      embedding does not spell out) is a field of [World]. *)

From Stdlib Require Import ZArith List String Ascii Bool Lia.
Import ListNotations.

Local Open Scope Z_scope.
Set Warnings "-register-all".

(* ================================================================= *)
(** ** Python values and exceptions *)

Inductive pyval : Type :=
| PNone
| PBool (b : bool)
| PInt (z : Z)
| PStr (s : string)
| PList (l : list pyval)
| PDict (kv : list (string * pyval)).

(** The exception classes the program can meet.  All of them derive from
    [Exception], so the [except Exception] clauses catch every one. *)
Inductive exn : Type :=
| KeyError
| TypeError
| ValueError
| AttributeError
| UnboundLocalError
| OSError
| OverflowError
| AssertionError
| UnicodeEncodeError
| AllAttemptsFailed.   (* Exception("All request attempts failed.") *)

Inductive res (A : Type) : Type :=
| Ok (a : A)
| Raise (e : exn).
Arguments Ok {A} a.
Arguments Raise {A} e.

Definition res_bind {A B} (r : res A) (k : A -> res B) : res B :=
  match r with
  | Ok a => k a
  | Raise e => Raise e
  end.

Declare Scope res_scope.
Delimit Scope res_scope with res.
Notation "'let?' x ':=' r 'in' k" := (res_bind r (fun x => k))
  (at level 10, x name, r at level 100, k at level 200) : res_scope.
Local Open Scope res_scope.

(** [[f(x) for x in xs]] for an [f] that may raise: left to right, the
    first exception wins. *)
Fixpoint res_map {A B} (f : A -> res B) (xs : list A) : res (list B) :=
  match xs with
  | [] => Ok []
  | x :: xs' =>
      let? y := f x in
      let? ys := res_map f xs' in
      Ok (y :: ys)
  end.

(* ================================================================= *)
(** ** The world outside the source *)

(** How [open(path, "w")] followed by [json.dump] can end. *)
Inductive dump_outcome : Type :=
| DumpOk          (* the file now holds the dumped document *)
| OpenFails       (* [open] raised: the file is untouched *)
| DumpFails.      (* [open] truncated the file, the write raised *)

(** How [DataFrame.to_csv(path, mode="a")] can end.  The lines are
    written one after the other, so a call that raises may leave some of
    them behind. *)
Inductive csv_outcome : Type :=
| CsvOk                                    (* every line is in the file *)
| CsvFails (e : exn) (written : option nat).
    (* raised [e]; [None]: the file could not be opened and is as it was,
       [Some k]: the file was opened (and created when it was not there)
       and the first [k] of the lines to append are in it *)

(** A date in the format [%d-%m-%Y], kept as the ordinal of the day it
    names: what [strptime] reads from the text and [strftime] writes into
    it.  The spelling of the text (padding of the day and the month) is
    not represented. *)
Inductive date_string : Type := DMY (ordinal : Z).

(** What the process did to the outside, one entry per effect.  Of the
    log lines only the two that [Scraper.begin] writes around a window are
    kept. *)
Inductive event : Type :=
| EvGet (date_start date_end : Z) (offset limit : Z)  (* one requests.get *)
| EvSleep (seconds : Z)                                (* one time.sleep *)
| EvCsv (year : Z) (rows : list (list pyval))          (* one to_csv(mode="a") that went through *)
| EvCsvFailed (year : Z) (lines : list (list pyval))   (* one to_csv that raised, and the lines it left *)
| EvDump (o : dump_outcome)                            (* one open(.., "w") + json.dump *)
| EvNow (t : Z)                                        (* one datetime.now() *)
| EvWorking (string_start string_end : date_string)    (* info: "Working date range: .. to .." *)
| EvNoArticles (string_start string_end : date_string). (* warning: "No artciles in .. to .." *)

Record World : Type := {
  (** [requests.get(url).json()] for the query (start, end, offset, limit),
      given what happened so far; [None] when the call raises. *)
  requests_get_json : list event -> Z -> Z -> Z -> Z -> option pyval;
  (** [self.logger.log(<one string>)] as evaluated in [Requester.wait]:
      [None] when the call returns, [Some e] when it raises [e]. *)
  logger_log : option exn;
  (** how [DataFrame.to_csv] of these rows to the file of that year ends *)
  to_csv : list event -> Z -> list (list pyval) -> csv_outcome;
  json_dump : list event -> dump_outcome;
  datetime_now : list event -> Z;
  (** [os.path.exists] and [os.path.isdir] *)
  os_path_exists : string -> bool;
  os_path_isdir : string -> bool;
  (** the builtin [str] *)
  builtin_str : pyval -> string;
  (** the builtin [int] on a string that is not a plain run of digits *)
  builtin_int : string -> option Z;
  (** [int(n / 1000)] for an [int] [n] of 2^53 or more in absolute value,
      where the rounding of the float quotient shows; [None] when the
      division raises [OverflowError] *)
  int_of_quotient : Z -> option Z
}.

(** [logging.Logger.log] is declared [log(self, level, msg, *args, **kwargs)]:
    called with a single positional argument it raises [TypeError] before
    anything is logged. *)
Definition stdlib_logger_log : option exn := Some TypeError.

(* ================================================================= *)
(** ** Builtins used by the source *)

Fixpoint assoc (k : string) (kv : list (string * pyval)) : option pyval :=
  match kv with
  | [] => None
  | (k', v) :: kv' => if String.eqb k k' then Some v else assoc k kv'
  end.

(** [d.get(k, default)] *)
Definition py_get (d : pyval) (k : string) (default : pyval) : res pyval :=
  match d with
  | PDict kv => Ok (match assoc k kv with Some v => v | None => default end)
  | _ => Raise AttributeError
  end.

(** [d[k]] with a string key *)
Definition py_getitem (d : pyval) (k : string) : res pyval :=
  match d with
  | PDict kv => match assoc k kv with Some v => Ok v | None => Raise KeyError end
  | _ => Raise TypeError
  end.

(** [k in d.keys()] *)
Definition py_in_keys (k : string) (d : pyval) : res bool :=
  match d with
  | PDict kv => Ok (match assoc k kv with Some _ => true | None => false end)
  | _ => Raise AttributeError
  end.

(** [len(v)] *)
Definition py_len (v : pyval) : res Z :=
  match v with
  | PStr s => Ok (Z.of_nat (String.length s))
  | PList l => Ok (Z.of_nat (List.length l))
  | PDict kv => Ok (Z.of_nat (List.length kv))
  | _ => Raise TypeError
  end.

Fixpoint chars (s : string) : list pyval :=
  match s with
  | EmptyString => []
  | String c r => PStr (String c EmptyString) :: chars r
  end.

(** the elements a [for] loop or a comprehension draws from [v] *)
Definition py_iter (v : pyval) : res (list pyval) :=
  match v with
  | PList l => Ok l
  | PStr s => Ok (chars s)
  | PDict kv => Ok (map (fun p => PStr (fst p)) kv)
  | _ => Raise TypeError
  end.

Definition digit_of (c : ascii) : option Z :=
  let n := Z.of_nat (nat_of_ascii c) in
  if (48 <=? n) && (n <=? 57) then Some (n - 48) else None.

Fixpoint decimal_value (acc : Z) (s : string) : option Z :=
  match s with
  | EmptyString => Some acc
  | String c r =>
      match digit_of c with
      | Some d => decimal_value (10 * acc + d) r
      | None => None
      end
  end.

(** [int(s)] for a string: a non-empty run of digits is read in base ten,
    any other string is left to the builtin. *)
Definition int_of_str (w : World) (s : string) : option Z :=
  match s with
  | EmptyString => None
  | _ => match decimal_value 0 s with
         | Some z => Some z
         | None => builtin_int w s
         end
  end.

(** [int(v)] *)
Definition py_int (w : World) (v : pyval) : res Z :=
  match v with
  | PInt z => Ok z
  | PBool b => Ok (if b then 1 else 0)
  | PStr s => match int_of_str w s with Some z => Ok z | None => Raise ValueError end
  | _ => Raise TypeError
  end.

(** truth value of an object in an [if] *)
Definition py_truthy (v : pyval) : bool :=
  match v with
  | PNone => false
  | PBool b => b
  | PInt z => negb (z =? 0)
  | PStr s => negb (String.eqb s "")
  | PList l => match l with [] => false | _ => true end
  | PDict kv => match kv with [] => false | _ => true end
  end.

Definition is_none (v : pyval) : bool :=
  match v with PNone => true | _ => false end.

(** [v == s] for a string literal [s] *)
Definition py_eq_str (v : pyval) (s : string) : bool :=
  match v with PStr s' => String.eqb s' s | _ => false end.

(** [sep.join(parts)]: every part must be a [str] *)
Fixpoint py_join_strs (parts : list pyval) : res (list string) :=
  match parts with
  | [] => Ok []
  | PStr s :: r => let? ss := py_join_strs r in Ok (s :: ss)
  | _ :: _ => Raise TypeError
  end.

Definition py_join (sep : string) (parts : list pyval) : res string :=
  let? ss := py_join_strs parts in Ok (String.concat sep ss).

(** [s.split(sep)] for a separator of one character: the pieces between
    the separators, the empty ones included; never an empty list. *)
Fixpoint py_split (sep : ascii) (s : string) : list string :=
  match s with
  | EmptyString => [EmptyString]
  | String c r =>
      if Ascii.eqb c sep then EmptyString :: py_split sep r
      else match py_split sep r with
           | piece :: pieces => String c piece :: pieces
           | [] => [String c EmptyString]
           end
  end.

(** [c.lower()] on one character: the letters A to Z move to a to z, the
    rest stays. *)
Definition lower_char (c : ascii) : ascii :=
  let n := nat_of_ascii c in
  if (65 <=? n)%nat && (n <=? 90)%nat then ascii_of_nat (n + 32) else c.

(** [s.lower()] *)
Fixpoint py_lower (s : string) : string :=
  match s with
  | EmptyString => EmptyString
  | String c r => String (lower_char c) (py_lower r)
  end.

(* ================================================================= *)
(** ** models.py *)

Module ItemModel.

(** The dataclass: every field defaults to [None]; the annotations are
    not enforced, so a field holds whatever [parse_data] put there. *)
Record t : Type := ItemModel {
  headline : pyval;
  subheadline : pyval;
  content : pyval;
  tags : pyval;
  published_at : pyval;
  created_at : pyval;
  updated_at : pyval;
  last_published_at : pyval;
  first_published_at : pyval;
  content_updated_at : pyval;
  seo_description : pyval;
  seo_tags : pyval;
  main_author : pyval;
  authors : pyval;
  url : pyval;
  read_time : pyval;
  summary : pyval;
  sections : pyval;
  id : pyval;
  word_count : pyval
}.

Definition to_list (self : t) : list pyval :=
  [ id self; headline self; subheadline self; summary self; content self;
    main_author self; authors self; url self; read_time self;
    seo_description self; seo_tags self; tags self; sections self;
    word_count self; published_at self; first_published_at self;
    last_published_at self; created_at self; updated_at self;
    content_updated_at self ].

End ItemModel.

Module ItemsModel.

Definition COLUMN_NAMES : list string :=
  [ "text_id"; "text_headline"; "text_subheadline"; "text_summary";
    "text_content"; "text_main_author"; "text_authors"; "text_url";
    "int_read_time"; "text_seo_description"; "text_seo_tags"; "text_tags";
    "text_sections"; "int_word_count"; "date_published";
    "date_first_published_at"; "date_last_published_at";
    "date_created_at"; "date_updated_at"; "date_content_updated_at" ]%string.

Record t : Type := ItemsModel { items : list ItemModel.t }.

(** [ItemsModel()] *)
Definition init : t := ItemsModel [].

(** [len(item.headline) and len(item.content)] when both are not [None],
    [False] otherwise.  [a and b] is [a] when [a] is falsy, so the length
    of the content is only taken when the headline is not empty. *)
Definition is_acceptable (item : ItemModel.t) : res pyval :=
  if negb (is_none (ItemModel.headline item))
     && negb (is_none (ItemModel.content item))
  then
    let? lh := py_len (ItemModel.headline item) in
    if py_truthy (PInt lh) then
      let? lc := py_len (ItemModel.content item) in Ok (PInt lc)
    else Ok (PInt lh)
  else Ok (PBool false).

Definition add (self : t) (item : ItemModel.t) : res t :=
  let? ok := is_acceptable item in
  if py_truthy ok then Ok (ItemsModel (items self ++ [item]))
  else Ok self.

(** [__len__] *)
Definition len (self : t) : Z := Z.of_nat (List.length (items self)).

Definition to_list (self : t) : list (list pyval) :=
  map ItemModel.to_list (items self).

End ItemsModel.

(* ================================================================= *)
(** ** processor.py *)

Module Processor.

Definition newline : ascii := ascii_of_nat 10.

(** Length of the shortest text matched by [.*?>] at the head of [s]:
    up to and including the first [>], which must come before any
    newline ([.] matches every character but a newline). *)
Fixpoint lazy_until_gt (s : string) : option nat :=
  match s with
  | EmptyString => None
  | String c r =>
      if Ascii.eqb c ">" then Some 1%nat
      else if Ascii.eqb c newline then None
      else option_map S (lazy_until_gt r)
  end.

(** Length of the longest text matched by [.*;] at the head of [s]: up
    to and including the last [;] of the current line. *)
Fixpoint greedy_until_semi (s : string) : option nat :=
  match s with
  | EmptyString => None
  | String c r =>
      if Ascii.eqb c newline then None
      else match greedy_until_semi r with
           | Some n => Some (S n)
           | None => if Ascii.eqb c ";" then Some 1%nat else None
           end
  end.

(** [re.sub("<.*?>|&.*;", "", s)], scanning left to right; [skip] counts
    the characters of the current match still to be dropped. *)
Fixpoint re_sub_cleaner (skip : nat) (s : string) : string :=
  match s with
  | EmptyString => EmptyString
  | String c r =>
      match skip with
      | S k => re_sub_cleaner k r
      | O =>
          if Ascii.eqb c "<" then
            match lazy_until_gt r with
            | Some n => re_sub_cleaner n r
            | None => String c (re_sub_cleaner 0 r)
            end
          else if Ascii.eqb c "&" then
            match greedy_until_semi r with
            | Some n => re_sub_cleaner n r
            | None => String c (re_sub_cleaner 0 r)
            end
          else String c (re_sub_cleaner 0 r)
      end
  end.

(** [re.sub] wants a string. *)
Definition clean_text (text : pyval) : res string :=
  match text with
  | PStr s => Ok (re_sub_cleaner 0 s)
  | _ => Raise TypeError
  end.

(** [int(int(timestamp_string) / 1000)]: the true division goes through
    a float and [int] truncates toward zero.  Below 2^53 in absolute
    value that is the truncated quotient; from there on the result is the
    float's. *)
Definition to_unix_timestamp (w : World) (timestamp_string : pyval)
  : res pyval :=
  let? z := py_int w timestamp_string in
  if Z.abs z <? 2 ^ 53 then Ok (PInt (Z.quot z 1000))
  else
    match int_of_quotient w z with
    | Some q => Ok (PInt q)
    | None => Raise OverflowError
    end.

Definition construct_authors_text (w : World) (item : pyval) : res pyval :=
  let? authors := py_get item "authors" PNone in
  if negb (is_none authors) then
    let? l := py_iter authors in
    let? names :=
      res_map (fun author =>
                 let? n := py_get author "name" (PStr "") in
                 Ok (builtin_str w n)) l in
    Ok (PStr (String.concat "," names))
  else Ok authors.

Definition parse_seo_data (item : pyval) : res (pyval * pyval) :=
  let? has_seo := py_in_keys "seo" item in
  if has_seo then
    let? description := py_get item "meta-description" PNone in
    let? tags := py_get item "meta-keywords" PNone in
    Ok (description, tags)
  else Ok (PNone, PNone).

(** The elements of one card that are kept, cleaned. *)
Definition card_texts (card : pyval) : res (list string) :=
  let? elements := py_getitem card "story-elements" in
  let? l := py_iter elements in
  let? kept :=
    res_map (fun element =>
               let? ty := py_getitem element "type" in
               if py_eq_str ty "text" then
                 let? raw := py_getitem element "text" in
                 let? txt := clean_text raw in
                 Ok [txt]
               else Ok []) l in
  Ok (List.concat kept).

Definition construct_content_text (item : pyval) : res pyval :=
  let? cards := py_getitem item "cards" in
  let? l := py_iter cards in
  let? texts := res_map card_texts l in
  Ok (PStr (String.concat "" (List.concat texts))).

Definition construct_tags_text (item : pyval) : res pyval :=
  let? tags := py_get item "tags" PNone in
  if negb (is_none tags) then
    let? l := py_iter tags in
    let? names := res_map (fun tag => py_get tag "name" PNone) l in
    let? joined := py_join "," (filter (fun tag => negb (is_none tag)) names) in
    Ok (PStr joined)
  else Ok tags.

(** The result is read from the local [tags], which is only bound inside
    the [if]: without a [sections] entry the [return] raises. *)
Definition construct_sections_text (item : pyval) : res pyval :=
  let? sections := py_get item "sections" PNone in
  if negb (is_none sections) then
    let? l := py_iter sections in
    let? names := res_map (fun section => py_get section "name" PNone) l in
    let? tags :=
      py_join "," (filter (fun section => negb (is_none section)) names) in
    Ok (PStr tags)
  else Raise UnboundLocalError.

Definition parse_data (w : World) (item : pyval) : res ItemModel.t :=
  let? headline := py_get item "headline" PNone in
  let? main_author := py_get item "author-name" PNone in
  let? summary := py_get item "summary" PNone in
  let? subheadline := py_get item "subheadline" PNone in
  let? url := py_get item "url" PNone in
  let? rt := py_get item "read-time" (PStr "0") in
  let? read_time := py_int w rt in
  let? word_count := py_get item "word-count" (PInt 0) in
  let? id := py_get item "id" PNone in
  let? tags := construct_tags_text item in
  let? content := construct_content_text item in
  let? v := py_get item "created-at" (PInt 0) in
  let? created_at := to_unix_timestamp w v in
  let? v := py_get item "published-at" (PInt 0) in
  let? published_at := to_unix_timestamp w v in
  let? v := py_get item "updated-at" (PInt 0) in
  let? updated_at := to_unix_timestamp w v in
  let? v := py_get item "last-published-at" (PInt 0) in
  let? last_published_at := to_unix_timestamp w v in
  let? v := py_get item "first-published-at" (PInt 0) in
  let? first_published_at := to_unix_timestamp w v in
  let? v := py_get item "content-updated-at" (PInt 0) in
  let? content_updated_at := to_unix_timestamp w v in
  let? seo := parse_seo_data item in
  let? authors := construct_authors_text w item in
  let? sections := construct_sections_text item in
  Ok {| ItemModel.headline := headline;
        ItemModel.subheadline := subheadline;
        ItemModel.content := content;
        ItemModel.tags := tags;
        ItemModel.published_at := published_at;
        ItemModel.url := url;
        ItemModel.seo_description := fst seo;
        ItemModel.seo_tags := snd seo;
        ItemModel.main_author := main_author;
        ItemModel.authors := authors;
        ItemModel.summary := summary;
        ItemModel.read_time := PInt read_time;
        ItemModel.id := id;
        ItemModel.sections := sections;
        ItemModel.word_count := word_count;
        ItemModel.created_at := created_at;
        ItemModel.updated_at := updated_at;
        ItemModel.first_published_at := first_published_at;
        ItemModel.last_published_at := last_published_at;
        ItemModel.content_updated_at := content_updated_at |}.

(** The loop of [__call__]: [items_out.add(self.parse_data(raw_item))]
    for each raw item in turn. *)
Fixpoint add_all (w : World) (items_out : ItemsModel.t)
         (raw_items : list pyval) : res ItemsModel.t :=
  match raw_items with
  | [] => Ok items_out
  | raw_item :: rest =>
      let? item := parse_data w raw_item in
      let? items_out' := ItemsModel.add items_out item in
      add_all w items_out' rest
  end.

(** [__call__]; the debug line formats [len(items_in)] first. *)
Definition call (w : World) (items_in : pyval) : res ItemsModel.t :=
  let? _n := py_len items_in in
  let? raw_items := py_iter items_in in
  add_all w ItemsModel.init raw_items.

End Processor.

(* ================================================================= *)
(** ** utils.py: dates *)

(** A naive [datetime] is the number of microseconds since the midnight
    that starts day 0 of the proleptic Gregorian calendar: the day a value
    falls in is its [toordinal()].  [<] on datetimes is [<] on these
    numbers. *)
Definition datetime : Type := Z.

Definition us_per_day : Z := 86400000000.

(** [timedelta(days=n)] *)
Definition timedelta_days (n : Z) : Z := n * us_per_day.

Definition toordinal (d : datetime) : Z := d / us_per_day.

(** [date.max.toordinal()]: 31-12-9999.  [date.min.toordinal()] is 1. *)
Definition max_ordinal : Z := 3652059.

(** The datetimes there are: from 01-01-0001 to the end of 31-12-9999. *)
Definition in_range (d : datetime) : bool :=
  (1 <=? toordinal d) && (toordinal d <=? max_ordinal).

(** [d + delta] for a datetime and a timedelta: [OverflowError] when the
    sum is not a datetime.  ([timedelta(days=n)] raises [OverflowError]
    itself beyond 999999999 days; where the program builds one it adds it
    to a datetime at once, and the sum is then out of range as well.) *)
Definition datetime_add (d : datetime) (delta : Z) : res datetime :=
  if in_range (d + delta) then Ok (d + delta) else Raise OverflowError.

(** [datetime.strptime(date_str, "%d-%m-%Y")]: midnight of that day *)
Definition string_to_date (date_str : date_string) : datetime :=
  match date_str with DMY n => n * us_per_day end.

(** [date.strftime("%d-%m-%Y")]: the time of day is dropped *)
Definition date_to_string (date : datetime) : date_string :=
  DMY (toordinal date).

(** [date.strftime("%Y")] as a number: the year of an ordinal in the
    proleptic Gregorian calendar (400-, 100-, 4- and 1-year cycles of
    146097, 36524, 1461 and 365 days). *)
Definition year_of (date : datetime) : Z :=
  let n := toordinal date - 1 in
  let n400 := n / 146097 in
  let n := n mod 146097 in
  let n100 := n / 36524 in
  let n := n mod 36524 in
  let n4 := n / 1461 in
  let n := n mod 1461 in
  let n1 := n / 365 in
  let year := n400 * 400 + 1 + n100 * 100 + n4 * 4 + n1 in
  if (n1 =? 4) || (n100 =? 4) then year - 1 else year.

(* ================================================================= *)
(** ** The state of the process and of the disk *)

(** The document of [config.json], which is also the attribute
    [Config.configs]: the [value] of each entry the harvest reads.  The
    entries for logging play no part in the loop and are left out. *)
Record configs : Type := {
  last_scraped_date_value : option date_string;   (* null until the first update *)
  start_date_value : date_string;
  threshold_value : Z;
  limit_value : Z;
  total_value : Z;
  max_attempts_value : Z;
  min_sleep_time_value : Z;
  max_sleep_time_value : Z;
  output_directory_value : string
}.

Record State : Type := {
  config : configs;                 (* [self.config.configs], in memory *)
  config_file : option configs;     (* the file at [config_file_path]; [None]: no JSON document *)
  csv_files : list (Z * list (list pyval));  (* <year>.csv on disk, header first *)
  trace : list event                (* the effects so far, newest first *)
}.

Definition set_config (c : configs) (st : State) : State :=
  {| config := c; config_file := config_file st;
     csv_files := csv_files st; trace := trace st |}.

Definition set_config_file (f : option configs) (st : State) : State :=
  {| config := config st; config_file := f;
     csv_files := csv_files st; trace := trace st |}.

Definition set_csv_files (fs : list (Z * list (list pyval))) (st : State) : State :=
  {| config := config st; config_file := config_file st;
     csv_files := fs; trace := trace st |}.

Definition log_event (e : event) (st : State) : State :=
  {| config := config st; config_file := config_file st;
     csv_files := csv_files st; trace := e :: trace st |}.

(** The effects in the order they happened. *)
Definition history (st : State) : list event := rev (trace st).

(* ================================================================= *)
(** ** The monad of effectful code *)

(** A call returns, raises, or is cut off by the fuel that bounds the
    loops of the embedding.  A raised exception rolls nothing back: the
    state reached is kept. *)
Inductive outcome (A : Type) : Type :=
| Done (a : A)
| Raised (e : exn)
| OutOfFuel.
Arguments Done {A} a.
Arguments Raised {A} e.
Arguments OutOfFuel {A}.

Definition M (A : Type) : Type := State -> outcome A * State.

Definition ret {A} (a : A) : M A := fun st => (Done a, st).

Definition bind {A B} (m : M A) (k : A -> M B) : M B :=
  fun st =>
    match m st with
    | (Done a, st') => k a st'
    | (Raised e, st') => (Raised e, st')
    | (OutOfFuel, st') => (OutOfFuel, st')
    end.

Definition raise {A} (e : exn) : M A := fun st => (Raised e, st).

Definition out_of_fuel {A} : M A := fun st => (OutOfFuel, st).

Definition lift {A} (r : res A) : M A :=
  match r with
  | Ok a => ret a
  | Raise e => raise e
  end.

(** [try: m  except Exception: handler] *)
Definition try_except {A} (m : M A) (handler : exn -> M A) : M A :=
  fun st =>
    match m st with
    | (Raised e, st') => handler e st'
    | r => r
    end.

Definition get_config : M configs := fun st => (Done (config st), st).

Declare Scope m_scope.
Delimit Scope m_scope with m.
Notation "x <- m ;; k" := (bind m (fun x => k))
  (at level 61, m at next level, right associativity) : m_scope.
Notation "m ;;; k" := (bind m (fun _ => k))
  (at level 61, right associativity) : m_scope.
Local Open Scope m_scope.

(** [range(lo, hi)] *)
Definition py_range (lo hi : Z) : list Z :=
  map (fun i => lo + Z.of_nat i) (seq 0 (Z.to_nat (hi - lo))).

(* ================================================================= *)
(** ** config.py *)

Module Config.

(** [is_json_file]: [path.split(".")[-1].lower() == "json"] *)
Definition is_json_file (path : string) : bool :=
  String.eqb (py_lower (last (py_split "." path) EmptyString)) "json".

Definition output_dir (c : configs) : string := output_directory_value c.

(** [__init__]: a process starts from the document on disk.  The four
    [assert]s raise [AssertionError]; [json.load] raises a [ValueError]
    when the file holds no JSON document. *)
Definition init (w : World) (config_file_path : string) (st : State)
  : res State :=
  if negb (os_path_exists w config_file_path) then Raise AssertionError
  else if negb (is_json_file config_file_path) then Raise AssertionError
  else
    match config_file st with
    | None => Raise ValueError
    | Some c =>
        if negb (os_path_exists w (output_dir c)) then Raise AssertionError
        else if negb (os_path_isdir w (output_dir c)) then Raise AssertionError
        else Ok (set_config c st)
    end.

Definition last_scraped_date (c : configs) : datetime :=
  match last_scraped_date_value c with
  | Some s => string_to_date s
  | None => string_to_date (start_date_value c)
  end.

Definition time_delta (c : configs) : Z := timedelta_days (threshold_value c).

Definition limit (c : configs) : Z := limit_value c.

Definition total (c : configs) : Z := total_value c.

Definition max_attempts (c : configs) : Z := max_attempts_value c.

(** The two assignments of [update] on the in-memory document. *)
Definition updated (c : configs) (newly_added : Z)
           (last_scrapped_date : datetime) : configs :=
  {| last_scraped_date_value := Some (date_to_string last_scrapped_date);
     start_date_value := start_date_value c;
     threshold_value := threshold_value c;
     limit_value := limit_value c;
     total_value := total_value c + newly_added;
     max_attempts_value := max_attempts_value c;
     min_sleep_time_value := min_sleep_time_value c;
     max_sleep_time_value := max_sleep_time_value c;
     output_directory_value := output_directory_value c |}.

(** [update]: the document in memory is changed first, then the file is
    reopened for writing and the document dumped into it. *)
Definition update (w : World) (newly_added : Z)
           (last_scrapped_date : datetime) : M unit :=
  fun st =>
    let c := updated (config st) newly_added last_scrapped_date in
    let o := json_dump w (trace st) in
    let st1 := log_event (EvDump o) (set_config c st) in
    match o with
    | DumpOk => (Done tt, set_config_file (Some c) st1)
    | OpenFails => (Raised OSError, st1)
    | DumpFails => (Raised OSError, set_config_file None st1)
    end.

End Config.

(* ================================================================= *)
(** ** saver.py *)

Module Saver.

Fixpoint lookup_file (year : Z) (fs : list (Z * list (list pyval)))
  : option (list (list pyval)) :=
  match fs with
  | [] => None
  | (y, rows) :: fs' => if y =? year then Some rows else lookup_file year fs'
  end.

Fixpoint store_file (year : Z) (rows : list (list pyval))
         (fs : list (Z * list (list pyval))) : list (Z * list (list pyval)) :=
  match fs with
  | [] => [(year, rows)]
  | (y, old) :: fs' =>
      if y =? year then (y, rows) :: fs' else (y, old) :: store_file year rows fs'
  end.

(** The file name is the year of the date: [<YEAR>.csv]. *)
Definition construct_output_filepath (current_date : datetime) : Z :=
  year_of current_date.

(** [__call__]: append the rows to the file of the year; the header is
    written only when the file does not exist yet.  A [to_csv] that
    raises leaves in the file the lines it had written. *)
Definition call (w : World) (items_in : ItemsModel.t)
           (current_date : datetime) : M unit :=
  fun st =>
    let rows := ItemsModel.to_list items_in in
    let output_file_path := construct_output_filepath current_date in
    let old := lookup_file output_file_path (csv_files st) in
    let lines :=
      match old with
      | Some _ => rows
      | None => map PStr ItemsModel.COLUMN_NAMES :: rows
      end in
    let appended (written : list (list pyval)) :=
      store_file output_file_path
        (match old with Some o => o ++ written | None => written end)
        (csv_files st) in
    match to_csv w (trace st) output_file_path rows with
    | CsvOk =>
        (Done tt,
         log_event (EvCsv output_file_path rows)
           (set_csv_files (appended lines) st))
    | CsvFails e None =>
        (Raised e, log_event (EvCsvFailed output_file_path []) st)
    | CsvFails e (Some k) =>
        (Raised e,
         log_event (EvCsvFailed output_file_path (firstn k lines))
           (set_csv_files (appended (firstn k lines)) st))
    end.

End Saver.

(* ================================================================= *)
(** ** requester.py *)

Module Requester.

(** [time.sleep(seconds)] *)
Definition sleep (seconds : Z) : M unit :=
  fun st => (Done tt, log_event (EvSleep seconds) st).

(** [wait]: the sleep time is 30 seconds times the attempt number; the
    [logger.log] call comes before the sleep. *)
Definition wait (w : World) (attempt : Z) : M unit :=
  let sleep_time := 30 * attempt in
  match logger_log w with
  | Some e => raise e
  | None => sleep sleep_time
  end.

(** The body of the [try]: build the URL from the query and the
    configured limit, [requests.get] it and decode the JSON.  [None]
    stands for any exception raised on the way. *)
Definition get_json (w : World) (date_start date_end : datetime)
           (offset : Z) : M (option pyval) :=
  fun st =>
    let limit := Config.limit (config st) in
    (Done (requests_get_json w (trace st) date_start date_end offset limit),
     log_event (EvGet date_start date_end offset limit) st).

(** The [for attempt in ...] loop and the [raise] after it. *)
Fixpoint attempts (w : World) (date_start date_end : datetime)
         (offset : Z) (todo : list Z) : M pyval :=
  match todo with
  | [] => raise AllAttemptsFailed
  | attempt :: rest =>
      r <- get_json w date_start date_end offset ;;
      match r with
      | Some json => ret json
      | None =>
          wait w attempt ;;;
          attempts w date_start date_end offset rest
      end
  end.

(** [__call__] *)
Definition call (w : World) (date_start date_end : datetime)
           (offset : Z) : M pyval :=
  c <- get_config ;;
  attempts w date_start date_end offset
           (py_range 1 (Config.max_attempts c + 1)).

End Requester.

(* ================================================================= *)
(** ** scraper.py *)

Module Scraper.

(** A generator between two [next] calls: not started yet, or suspended
    at its [yield] with the value of its local variable. *)
Inductive gen : Type :=
| Fresh
| Suspended (local : Z).

(** One [next] of [offset_iterable]: the value yielded.  The generator
    never ends. *)
Definition offset_iterable (c : configs) (g : gen) : Z :=
  match g with
  | Fresh => 0
  | Suspended offset => offset + Config.limit c
  end.

(** [datetime.now()] *)
Definition now (w : World) : M datetime :=
  fun st =>
    let t := datetime_now w (trace st) in
    (Done t, log_event (EvNow t) st).

(** [next] on [date_iterable], up to its loop test: the value of
    [current_date] the test is about to read.  A generator that was
    suspended at its [yield] first runs [current_date += time_delta]. *)
Definition date_iterable_current (c : configs) (g : gen) : res datetime :=
  match g with
  | Fresh => Ok (Config.last_scraped_date c)
  | Suspended current_date => datetime_add current_date (Config.time_delta c)
  end.

(** One [next] of [date_iterable]: the date yielded, or [None] when the
    generator ends.  The clock is read by the loop test. *)
Definition date_iterable (w : World) (g : gen) : M (option datetime) :=
  c <- get_config ;;
  current_date <- lift (date_iterable_current c g) ;;
  t <- now w ;;
  if current_date <? t then ret (Some current_date) else ret None.

(** The test that ends the page loop:
    [int(response["total"]) is 0 or len(response["items"]) is 0].
    The right operand is only evaluated when the left one is false. *)
Definition exhausted (w : World) (response : pyval) : res bool :=
  let? t := py_getitem response "total" in
  let? total := py_int w t in
  if total =? 0 then Ok true
  else
    let? items := py_getitem response "items" in
    let? n := py_len items in
    Ok (n =? 0).

(** One turn of the [for] loop of [fetch_articles_in_date_range]: [next]
    on the offset generator, then the body.  The result is the state of
    the generator, or [None] when the loop is left by [break]. *)
Definition page (w : World) (date_start date_end : datetime) (g : gen)
  : M (option gen) :=
  c <- get_config ;;
  let offset := offset_iterable c g in
  response <- Requester.call w date_start date_end offset ;;
  stop <- lift (exhausted w response) ;;
  if (stop : bool) then ret None
  else
    items <- lift (py_getitem response "items") ;;
    processed_items <- lift (Processor.call w items) ;;
    Saver.call w processed_items date_start ;;;
    Config.update w (ItemsModel.len processed_items) date_end ;;;
    ret (Some (Suspended offset)).

(** The [for] loop of [fetch_articles_in_date_range], entered with the
    state [g] of the offset generator; it has no end of its own. *)
Fixpoint pages (w : World) (fuel : nat) (date_start date_end : datetime)
         (g : gen) : M unit :=
  match fuel with
  | O => out_of_fuel
  | S fuel' =>
      r <- page w date_start date_end g ;;
      match r with
      | None => ret tt
      | Some g' => pages w fuel' date_start date_end g'
      end
  end.

Definition fetch_articles_in_date_range (w : World) (fuel : nat)
           (date_start date_end : datetime) : M unit :=
  pages w fuel date_start date_end Fresh.

Definition construct_date_range_string (date_start date_end : datetime)
  : date_string * date_string :=
  (date_to_string date_start, date_to_string date_end).

Definition logger_info_working (r : date_string * date_string) : M unit :=
  fun st => (Done tt, log_event (EvWorking (fst r) (snd r)) st).

Definition logger_warning_no_articles (r : date_string * date_string)
  : M unit :=
  fun st => (Done tt, log_event (EvNoArticles (fst r) (snd r)) st).

(** One turn of the [for] loop of [begin]: [next] on the date generator,
    then the body.  Whatever is raised inside the [try] is caught and
    logged; the two additions of dates are outside it.  The result is
    the state of the generator, or [None] when it has ended. *)
Definition window (w : World) (fuel : nat) (g : gen) : M (option gen) :=
  r <- date_iterable w g ;;
  match r with
  | None => ret None
  | Some date_start =>
      c <- get_config ;;
      date_end <- lift (datetime_add date_start (Config.time_delta c)) ;;
      let date_range_string :=
        construct_date_range_string date_start date_end in
      try_except
        (logger_info_working date_range_string ;;;
         fetch_articles_in_date_range w fuel date_start date_end)
        (fun _ => logger_warning_no_articles date_range_string) ;;;
      ret (Some (Suspended date_start))
  end.

(** The [for] loop of [begin], entered with the state [g] of the date
    generator. *)
Fixpoint windows (w : World) (fuel : nat) (g : gen) : M unit :=
  match fuel with
  | O => out_of_fuel
  | S fuel' =>
      r <- window w fuel' g ;;
      match r with
      | None => ret tt
      | Some g' => windows w fuel' g'
      end
  end.

Definition begin (w : World) (fuel : nat) : M unit :=
  windows w fuel Fresh.

End Scraper.

(* ================================================================= *)
(** ** Reading a history *)

(** The offsets of the [requests.get] calls, in order. *)
Fixpoint gets (evs : list event) : list Z :=
  match evs with
  | [] => []
  | EvGet _ _ offset _ :: r => offset :: gets r
  | _ :: r => gets r
  end.

(** The durations slept, in order. *)
Fixpoint sleeps (evs : list event) : list Z :=
  match evs with
  | [] => []
  | EvSleep s :: r => s :: sleeps r
  | _ :: r => sleeps r
  end.

(** The outcomes of the dumps of the configuration, in order. *)
Fixpoint dumps (evs : list event) : list dump_outcome :=
  match evs with
  | [] => []
  | EvDump o :: r => o :: dumps r
  | _ :: r => dumps r
  end.

(** The rows handed to the sink, one list per call. *)
Fixpoint csv_rows (evs : list event) : list (list (list pyval)) :=
  match evs with
  | [] => []
  | EvCsv _ rows :: r => rows :: csv_rows r
  | _ :: r => csv_rows r
  end.

(** The number of rows handed to the sink. *)
Definition accepted_rows (evs : list event) : Z :=
  fold_right (fun rows n => Z.of_nat (List.length rows) + n) 0 (csv_rows evs).

(** The clock readings, in order. *)
Fixpoint nows (evs : list event) : list Z :=
  match evs with
  | [] => []
  | EvNow t :: r => t :: nows r
  | _ :: r => nows r
  end.

(** The windows announced by [begin], in order. *)
Fixpoint workings (evs : list event) : list (date_string * date_string) :=
  match evs with
  | [] => []
  | EvWorking s e :: r => (s, e) :: workings r
  | _ :: r => workings r
  end.

(** The windows given up with a warning, in order. *)
Fixpoint warnings (evs : list event) : list (date_string * date_string) :=
  match evs with
  | [] => []
  | EvNoArticles s e :: r => (s, e) :: warnings r
  | _ :: r => warnings r
  end.

(** Events a fetch can add: requests and sleeps only. *)
Definition fetch_event (e : event) : Prop :=
  match e with
  | EvGet _ _ _ _ | EvSleep _ => True
  | _ => False
  end.

(** The endpoint is down for a query: every attempt raises. *)
Definition down_for (w : World) (ds de off : Z) : Prop :=
  forall h limit, requests_get_json w h ds de off limit = None.

(** One page through the sink and the commit: [saver(...)] followed by
    [config.update(...)], from the state [st] in which the page was
    fetched. *)
Definition commit_page (w : World) (processed : ItemsModel.t)
           (date_start date_end : datetime) (st : State) : State :=
  snd (Config.update w (ItemsModel.len processed) date_end
         (snd (Saver.call w processed date_start st))).

(** Events the page loop can add. *)
Definition page_event (e : event) : Prop :=
  match e with
  | EvGet _ _ _ _ | EvSleep _ | EvCsv _ _ | EvCsvFailed _ _ | EvDump _ => True
  | _ => False
  end.

Definition is_ok (o : dump_outcome) : bool :=
  match o with DumpOk => true | _ => false end.

(** Some dump of the configuration failed. *)
Definition commit_failed (evs : list event) : bool :=
  existsb (fun o => negb (is_ok o)) (dumps evs).

(** The endpoint answers every request for the window from a table of
    pages by offset, the sink and the state file always accept. *)
Definition served_by (w : World) (ds de : Z) (api : Z -> pyval) : Prop :=
  (forall h offset limit,
      requests_get_json w h ds de offset limit = Some (api offset)) /\
  (forall h y rows, to_csv w h y rows = CsvOk) /\
  (forall h, json_dump w h = DumpOk).

(** The page is not the last one and its records can be transformed. *)
Definition page_with_records (w : World) (response : pyval) : Prop :=
  Scraper.exhausted w response = Ok false /\
  exists items processed,
    py_getitem response "items" = Ok items /\
    Processor.call w items = Ok processed.

(** The date the date generator tests next: the Cursor when it has not
    started, one window width after the last date it yielded otherwise. *)
Definition candidate (c : configs) (g : Scraper.gen) : datetime :=
  match g with
  | Scraper.Fresh => Config.last_scraped_date c
  | Scraper.Suspended current_date => current_date + Config.time_delta c
  end.

(** The [i]-th window after the generator state [g], as [begin] announces
    it: start and end, a window width apart. *)
Definition nth_window (c : configs) (g : Scraper.gen) (i : nat)
  : date_string * date_string :=
  Scraper.construct_date_range_string
    (candidate c g + Z.of_nat i * Config.time_delta c)
    (candidate c g + Z.of_nat i * Config.time_delta c + Config.time_delta c).

(** [n] turns of the loop of [begin] in a row, each of them a window that
    was walked to its end without an exception and committed at least one
    page. *)
Inductive committed_turns (w : World)
  : nat -> Scraper.gen -> State -> Scraper.gen -> State -> Prop :=
| committed_none g st : committed_turns w 0 g st g st
| committed_next n fuel g st g1 st1 evs g2 st2 :
    Scraper.window w fuel g st = (Done (Some g1), st1) ->
    history st1 = history st ++ evs ->
    warnings evs = [] ->
    dumps evs <> [] ->
    committed_turns w n g1 st1 g2 st2 ->
    committed_turns w (S n) g st g2 st2.

(** The ways one turn of the page loop can go. *)
Inductive page_turn (w : World) (f : nat) (ds de : datetime) (g : Scraper.gen)
          (st : State) (r : outcome unit) (st' : State) : Prop :=
| turn_fetch_failed e st1 :
    Requester.call w ds de (Scraper.offset_iterable (config st) g) st
      = (Raised e, st1) ->
    r = Raised e -> st' = st1 ->
    page_turn w f ds de g st r st'
| turn_exhausted response st1 :
    Requester.call w ds de (Scraper.offset_iterable (config st) g) st
      = (Done response, st1) ->
    Scraper.exhausted w response = Ok true ->
    r = Done tt -> st' = st1 ->
    page_turn w f ds de g st r st'
| turn_page_raised response st1 e :
    Requester.call w ds de (Scraper.offset_iterable (config st) g) st
      = (Done response, st1) ->
    Scraper.exhausted w response <> Ok true ->
    r = Raised e -> st' = st1 ->
    page_turn w f ds de g st r st'
| turn_commit_failed response st1 items processed :
    Requester.call w ds de (Scraper.offset_iterable (config st) g) st
      = (Done response, st1) ->
    Scraper.exhausted w response = Ok false ->
    py_getitem response "items" = Ok items ->
    Processor.call w items = Ok processed ->
    to_csv w (trace st1) (year_of ds) (ItemsModel.to_list processed) = CsvOk ->
    json_dump w (EvCsv (year_of ds) (ItemsModel.to_list processed) :: trace st1)
      <> DumpOk ->
    r = Raised OSError -> st' = commit_page w processed ds de st1 ->
    page_turn w f ds de g st r st'
| turn_next response st1 items processed :
    Requester.call w ds de (Scraper.offset_iterable (config st) g) st
      = (Done response, st1) ->
    Scraper.exhausted w response = Ok false ->
    py_getitem response "items" = Ok items ->
    Processor.call w items = Ok processed ->
    to_csv w (trace st1) (year_of ds) (ItemsModel.to_list processed) = CsvOk ->
    json_dump w (EvCsv (year_of ds) (ItemsModel.to_list processed) :: trace st1)
      = DumpOk ->
    Scraper.pages w f ds de
      (Scraper.Suspended (Scraper.offset_iterable (config st) g))
      (commit_page w processed ds de st1) = (r, st') ->
    page_turn w f ds de g st r st'
| turn_save_failed response st1 items processed e written :
    Requester.call w ds de (Scraper.offset_iterable (config st) g) st
      = (Done response, st1) ->
    Scraper.exhausted w response = Ok false ->
    py_getitem response "items" = Ok items ->
    Processor.call w items = Ok processed ->
    to_csv w (trace st1) (year_of ds) (ItemsModel.to_list processed)
      = CsvFails e written ->
    r = Raised e -> st' = snd (Saver.call w processed ds st1) ->
    page_turn w f ds de g st r st'.

(** The ways one turn of the window loop can go. *)
Inductive window_turn (w : World) (f : nat) (g : Scraper.gen) (st : State)
          (r : outcome (option Scraper.gen)) (st' : State) : Prop :=
| turn_end :
    datetime_now w (trace st) <= candidate (config st) g ->
    r = Done None ->
    st' = log_event (EvNow (datetime_now w (trace st))) st ->
    Scraper.date_iterable_current (config st) g = Ok (candidate (config st) g) ->
    window_turn w f g st r st'
| turn_window rf st1 :
    let ds := candidate (config st) g in
    let de := ds + Config.time_delta (config st) in
    ds < datetime_now w (trace st) ->
    Scraper.pages w f ds de Scraper.Fresh
      (log_event (EvWorking (date_to_string ds) (date_to_string de))
         (log_event (EvNow (datetime_now w (trace st))) st)) = (rf, st1) ->
    match rf with
    | Done _ => r = Done (Some (Scraper.Suspended ds)) /\ st' = st1
    | Raised _ =>
        r = Done (Some (Scraper.Suspended ds)) /\
        st' = log_event (EvNoArticles (date_to_string ds) (date_to_string de)) st1
    | OutOfFuel => r = OutOfFuel /\ st' = st1
    end ->
    in_range de = true ->
    Scraper.date_iterable_current (config st) g = Ok ds ->
    window_turn w f g st r st'
| turn_start_overflow :
    (* [current_date += time_delta] left the range of datetimes *)
    Scraper.date_iterable_current (config st) g = Raise OverflowError ->
    r = Raised OverflowError -> st' = st ->
    window_turn w f g st r st'
| turn_end_overflow :
    (* [date_start + time_delta] left the range of datetimes *)
    candidate (config st) g < datetime_now w (trace st) ->
    in_range (candidate (config st) g + Config.time_delta (config st)) = false ->
    r = Raised OverflowError ->
    st' = log_event (EvNow (datetime_now w (trace st))) st ->
    window_turn w f g st r st'.

(** Every page loop entered with a page size of at least one comes to an
    end, whatever the window and the state. *)
Definition page_loops_end (w : World) : Prop :=
  forall ds de st,
    0 < limit_value (config st) ->
    exists f, fst (Scraper.pages w f ds de Scraper.Fresh st) <> OutOfFuel.

(** A value that is there and not empty: [len] is defined on it and
    positive (so it is not [None]). *)
Definition filled (v : pyval) : Prop :=
  exists n, py_len v = Ok n /\ 0 < n.

(** An article with a headline and a body. *)
Definition complete (item : ItemModel.t) : Prop :=
  filled (ItemModel.headline item) /\ filled (ItemModel.content item).

(** A row of the output with its headline and content columns filled. *)
Definition complete_row (row : list pyval) : Prop :=
  filled (nth 1 row PNone) /\ filled (nth 4 row PNone).

(** A datetime at midnight, i.e. a calendar date. *)
Definition midnight (d : datetime) : Prop := d mod us_per_day = 0.

(* ================================================================= *)
(** ** Sample data for the examples *)

Module Sample.

Local Open Scope string_scope.

(** 01-01-2020 is day 737425. *)
Definition jan_1_2020 : date_string := DMY 737425.

Definition day (n : Z) : datetime := string_to_date (DMY n).

Definition configs0 : configs :=
  {| last_scraped_date_value := None;
     start_date_value := jan_1_2020;
     threshold_value := 1;
     limit_value := 5;
     total_value := 0;
     max_attempts_value := 3;
     min_sleep_time_value := 1;
     max_sleep_time_value := 3;
     output_directory_value := "data" |}.

Definition state0 : State :=
  {| config := configs0; config_file := Some configs0;
     csv_files := []; trace := [] |}.

(** A raw record as the API sends it, cut down to the entries that
    decide whether it gets through. *)
Definition article (headline body : string) : pyval :=
  PDict [ ("headline", PStr headline);
          ("cards",
           PList [ PDict [ ("story-elements",
                            PList [ PDict [ ("type", PStr "text");
                                            ("text", PStr body) ] ]) ] ]);
          ("sections", PList [ PDict [ ("name", PStr "bangladesh") ] ]) ].

(** The same record without its [sections] entry. *)
Definition article_without_sections (headline body : string) : pyval :=
  PDict [ ("headline", PStr headline);
          ("cards",
           PList [ PDict [ ("story-elements",
                            PList [ PDict [ ("type", PStr "text");
                                            ("text", PStr body) ] ]) ] ]) ].

(** The same record without its [cards] entry. *)
Definition article_without_cards (headline : string) : pyval :=
  PDict [ ("headline", PStr headline);
          ("sections", PList [ PDict [ ("name", PStr "bangladesh") ] ]) ].

Definition page (total : Z) (items : list pyval) : pyval :=
  PDict [ ("total", PInt total); ("items", PList items) ].

Definition str_of_scalar (v : pyval) : string :=
  match v with
  | PStr s => s
  | PNone => "None"
  | PBool true => "True"
  | PBool false => "False"
  | _ => "?"
  end.

(** A world given by its endpoint, its logging call, its dumps and its
    clock; the sink always accepts and every path is a directory. *)
Definition world (api : list event -> Z -> Z -> Z -> Z -> option pyval)
           (lg : option exn) (dump : list event -> dump_outcome)
           (clock : list event -> Z) : World :=
  {| requests_get_json := api;
     logger_log := lg;
     to_csv := fun _ _ _ => CsvOk;
     json_dump := dump;
     datetime_now := clock;
     os_path_exists := fun _ => true;
     os_path_isdir := fun _ => true;
     builtin_str := str_of_scalar;
     builtin_int := fun _ => None;
     int_of_quotient := fun _ => None |}.

(** The same world with another sink. *)
Definition with_sink (w : World)
           (sink : list event -> Z -> list (list pyval) -> csv_outcome) : World :=
  {| requests_get_json := requests_get_json w;
     logger_log := logger_log w;
     to_csv := sink;
     json_dump := json_dump w;
     datetime_now := datetime_now w;
     os_path_exists := os_path_exists w;
     os_path_isdir := os_path_isdir w;
     builtin_str := builtin_str w;
     builtin_int := builtin_int w;
     int_of_quotient := int_of_quotient w |}.

(** A processed article with that headline. *)
Definition item (headline : string) : ItemModel.t :=
  {| ItemModel.headline := PStr headline;
     ItemModel.subheadline := PNone;
     ItemModel.content := PStr "body";
     ItemModel.tags := PNone;
     ItemModel.published_at := PInt 0;
     ItemModel.url := PNone;
     ItemModel.seo_description := PNone;
     ItemModel.seo_tags := PNone;
     ItemModel.main_author := PNone;
     ItemModel.authors := PNone;
     ItemModel.summary := PNone;
     ItemModel.read_time := PInt 0;
     ItemModel.id := PNone;
     ItemModel.sections := PStr "bangladesh";
     ItemModel.word_count := PInt 0;
     ItemModel.created_at := PInt 0;
     ItemModel.updated_at := PInt 0;
     ItemModel.first_published_at := PInt 0;
     ItemModel.last_published_at := PInt 0;
     ItemModel.content_updated_at := PInt 0 |}.

(** An endpoint that is down. *)
Definition api_down : list event -> Z -> Z -> Z -> Z -> option pyval :=
  fun _ _ _ _ _ => None.

(** An endpoint that answers from a table of pages by offset. *)
Definition api_of (pages_ : Z -> option pyval)
  : list event -> Z -> Z -> Z -> Z -> option pyval :=
  fun _ _ _ offset _ => pages_ offset.

Definition always_ok : list event -> dump_outcome := fun _ => DumpOk.

(** A clock stopped at the start of day [n]. *)
Definition clock_at (n : Z) : list event -> Z := fun _ => day n.

(** An endpoint that serves one page of one article at offset 0 and is
    down for every other offset. *)
Definition first_page_only : Z -> option pyval :=
  fun offset =>
    if (offset =? 0)%Z then Some (page 1 [article "headline" "body"]) else None.

(** An endpoint that serves [n] articles at offset 0 and an empty page
    everywhere else. *)
Definition one_page_of (items : list pyval) : Z -> pyval :=
  fun offset =>
    if (offset =? 0)%Z then page (Z.of_nat (List.length items)) items
    else page (Z.of_nat (List.length items)) [].

(** An endpoint that always answers, from a table of pages by offset. *)
Definition serve (pages_ : Z -> pyval)
  : list event -> Z -> Z -> Z -> Z -> option pyval :=
  fun _ _ _ offset _ => Some (pages_ offset).

Definition seven_articles : list pyval :=
  [ article "one" "body"; article "two" "body"; article "three" "body";
    article "four" "body"; article "five" "body"; article "six" "body";
    article "seven" "body" ].

(** Dumps that fail with [o] until one has been attempted, and go
    through afterwards. *)
Definition first_dump_fails (o : dump_outcome) : list event -> dump_outcome :=
  fun h => match dumps h with [] => o | _ => DumpOk end.

(** The sample state with other settings: attempts, window width in
    days, page size. *)
Definition state_with (max_attempts threshold limit : Z) : State :=
  {| config :=
       {| last_scraped_date_value := None;
          start_date_value := jan_1_2020;
          threshold_value := threshold;
          limit_value := limit;
          total_value := 0;
          max_attempts_value := max_attempts;
          min_sleep_time_value := 1;
          max_sleep_time_value := 3;
          output_directory_value := "data" |};
     config_file := Some configs0; csv_files := []; trace := [] |}.

(** The sample state with another start date and window width. *)
Definition state_from (start : date_string) (threshold : Z) : State :=
  {| config :=
       {| last_scraped_date_value := None;
          start_date_value := start;
          threshold_value := threshold;
          limit_value := 5;
          total_value := 0;
          max_attempts_value := 3;
          min_sleep_time_value := 1;
          max_sleep_time_value := 3;
          output_directory_value := "data" |};
     config_file := Some configs0; csv_files := []; trace := [] |}.

(** An endpoint that is down for the window starting at [bad] and serves
    the table of pages for every other window. *)
Definition api_down_for (bad : Z) (pages_ : Z -> pyval)
  : list event -> Z -> Z -> Z -> Z -> option pyval :=
  fun _ date_start _ offset _ =>
    if (date_start =? bad)%Z then None else Some (pages_ offset).

End Sample.

(* ================================================================= *)
(** ** Notions used by the further properties *)

(** Does [c] occur in [s] before the end of its first line? *)
Fixpoint line_has (c : ascii) (s : string) : bool :=
  match s with
  | EmptyString => false
  | String x r =>
      if Ascii.eqb x c then true
      else if Ascii.eqb x Processor.newline then false
      else line_has c r
  end.

(** The first [k] characters of [s] hold no newline. *)
Fixpoint no_newline (k : nat) (s : string) : bool :=
  match k, s with
  | O, _ => true
  | S _, EmptyString => true
  | S k', String x r => negb (Ascii.eqb x Processor.newline) && no_newline k' r
  end.

(** The pattern of [clean_text] matches nowhere in [s]: no [<] is
    followed by a [>] on its line, no [&] by a [;]. *)
Fixpoint tag_free (s : string) : bool :=
  match s with
  | EmptyString => true
  | String x r =>
      negb (Ascii.eqb x "<" && line_has ">" r)
      && negb (Ascii.eqb x "&" && line_has ";" r)
      && tag_free r
  end.

(** Neither [<] nor [&] occurs in [s]. *)
Fixpoint plain (s : string) : bool :=
  match s with
  | EmptyString => true
  | String x r => negb (Ascii.eqb x "<") && negb (Ascii.eqb x "&") && plain r
  end.

(** [add] would store the item. *)
Definition acceptable (item : ItemModel.t) : bool :=
  match ItemsModel.is_acceptable item with
  | Ok ok => py_truthy ok
  | Raise _ => false
  end.

(** Every file of the sink begins with the header row. *)
Definition headed (fs : list (Z * list (list pyval))) : Prop :=
  forall year lines,
    Saver.lookup_file year fs = Some lines ->
    hd_error lines = Some (map PStr ItemsModel.COLUMN_NAMES).

(** Whatever the endpoint serves shows exhaustion: there are no articles
    anywhere. *)
Definition always_exhausted (w : World) : Prop :=
  forall h ds de offset limit response,
    requests_get_json w h ds de offset limit = Some response ->
    Scraper.exhausted w response = Ok true.

(** The outcome of the last dump of the configuration in a history, if
    there was one. *)
Definition last_dump (evs : list event) : option dump_outcome :=
  last (map Some (dumps evs)) None.

(** The names of a list of tag (or section) objects: the [name] entries
    that are strings, in order. *)
Definition names_of (objects : list (list (string * pyval))) : list string :=
  flat_map (fun kv => match assoc "name" kv with
                      | Some (PStr s) => [s]
                      | _ => []
                      end) objects.

(** Every [name] entry is a string or [None]. *)
Definition names_are_strings (objects : list (list (string * pyval))) : Prop :=
  forall kv v, In kv objects -> assoc "name" kv = Some v ->
               v = PNone \/ exists s, v = PStr s.

(* ================================================================= *)
(** * Properties *)

Local Open Scope Z_scope.

Ltac res_step H :=
  match type of H with
  | res_bind ?r _ = Ok _ =>
      let E := fresh "E" in
      destruct r eqn:E; cbn [res_bind] in H; [|discriminate H]
  end.


(** ** Histories *)

Lemma history_log_event e st : history (log_event e st) = history st ++ [e].
Proof. reflexivity. Qed.

Lemma gets_app a b : gets (a ++ b) = gets a ++ gets b.
Proof. induction a as [|[] a IH]; simpl; congruence. Qed.

Lemma sleeps_app a b : sleeps (a ++ b) = sleeps a ++ sleeps b.
Proof. induction a as [|[] a IH]; simpl; congruence. Qed.

Lemma dumps_app a b : dumps (a ++ b) = dumps a ++ dumps b.
Proof. induction a as [|[] a IH]; simpl; congruence. Qed.

Lemma csv_rows_app a b : csv_rows (a ++ b) = csv_rows a ++ csv_rows b.
Proof. induction a as [|[] a IH]; simpl; congruence. Qed.

Lemma nows_app a b : nows (a ++ b) = nows a ++ nows b.
Proof. induction a as [|[] a IH]; simpl; congruence. Qed.

Lemma workings_app a b : workings (a ++ b) = workings a ++ workings b.
Proof. induction a as [|[] a IH]; simpl; congruence. Qed.

Lemma warnings_app a b : warnings (a ++ b) = warnings a ++ warnings b.
Proof. induction a as [|[] a IH]; simpl; congruence. Qed.

Lemma accepted_rows_app a b :
  accepted_rows (a ++ b) = accepted_rows a + accepted_rows b.
Proof.
  unfold accepted_rows. rewrite csv_rows_app.
  induction (csv_rows a) as [|x l IH]; simpl; lia.
Qed.

(** ** The Fetcher: [Requester] *)

Lemma fetch_events_silent evs :
  Forall fetch_event evs ->
  dumps evs = [] /\ csv_rows evs = [] /\ nows evs = [] /\
  workings evs = [] /\ warnings evs = [].
Proof.
  induction 1 as [|e l He _ IH]; [easy|].
  destruct e; simpl in *; try contradiction; exact IH.
Qed.

Lemma fetch_event_get ds de off limit : fetch_event (EvGet ds de off limit).
Proof. exact I. Qed.

Lemma fetch_event_sleep s : fetch_event (EvSleep s).
Proof. exact I. Qed.

#[local] Hint Resolve fetch_event_get fetch_event_sleep : core.

Lemma attempts_frame w ds de off todo : forall st r st',
  Requester.attempts w ds de off todo st = (r, st') ->
  config st' = config st /\ config_file st' = config_file st /\
  csv_files st' = csv_files st /\ r <> OutOfFuel /\
  exists evs, history st' = history st ++ evs /\ Forall fetch_event evs /\
              (List.length (gets evs) <= List.length todo)%nat.
Proof.
  induction todo as [|a rest IH]; intros st r st' H; simpl in H.
  - inversion H; subst. repeat split; try easy.
    exists []. rewrite app_nil_r. repeat split; auto.
  - unfold bind, Requester.get_json in H.
    destruct (requests_get_json w (trace st) ds de off (Config.limit (config st))).
    + inversion H; subst. repeat split; try easy.
      exists [EvGet ds de off (Config.limit (config st))].
      rewrite history_log_event. split; [reflexivity|]. split; auto.
      simpl. lia.
    + unfold Requester.wait in H. destruct (logger_log w).
      * inversion H; subst. repeat split; try easy.
        exists [EvGet ds de off (Config.limit (config st))].
        rewrite history_log_event. split; [reflexivity|]. split; auto.
        simpl; lia.
      * unfold Requester.sleep in H.
        apply IH in H. destruct H as (Hc & Hf & Hv & Hr & evs & Hh & Hev & Hn).
        repeat split; try easy.
        exists (EvGet ds de off (Config.limit (config st)) :: EvSleep (30 * a) :: evs).
        rewrite Hh, !history_log_event, <- !app_assoc. simpl.
        split; [reflexivity|]. split; auto. lia.
Qed.

Lemma call_frame w ds de off st r st' :
  Requester.call w ds de off st = (r, st') ->
  config st' = config st /\ config_file st' = config_file st /\
  csv_files st' = csv_files st /\ r <> OutOfFuel /\
  exists evs, history st' = history st ++ evs /\ Forall fetch_event evs.
Proof.
  unfold Requester.call, bind, get_config. intros H.
  apply attempts_frame in H. destruct H as (Hc & Hf & Hv & Hr & evs & Hh & Hev & _).
  repeat split; auto. exists evs; auto.
Qed.

Lemma attempts_log_raises w ds de off todo st e :
  logger_log w = Some e ->
  Requester.attempts w ds de off todo st =
    match todo with
    | [] => (Raised AllAttemptsFailed, st)
    | _ :: _ =>
        (match requests_get_json w (trace st) ds de off
                 (Config.limit (config st)) with
         | Some response => Done response
         | None => Raised e
         end,
         log_event (EvGet ds de off (Config.limit (config st))) st)
    end.
Proof.
  intros Hlog. destruct todo as [|a rest]; [reflexivity|].
  cbn [Requester.attempts]. unfold bind, Requester.get_json.
  destruct (requests_get_json w (trace st) ds de off (Config.limit (config st)));
    [reflexivity|].
  unfold Requester.wait. rewrite Hlog. reflexivity.
Qed.

(** C3 fails on the code.  [wait] calls [self.logger.log] with a single
    argument; [logging.Logger.log] wants a level and a message, so the
    call raises [TypeError] before [time.sleep] is reached, inside the
    [except] clause of [__call__], and the exception leaves the fetch.
    Hence no fetch ever sleeps or sends a second request, and "All
    request attempts failed." is raised only when [max_attempts] is zero
    or less, before any request.  The fetch of the claim, every attempt
    failing with [max_attempts = 3], is one request, no sleep and
    [TypeError]. *)
Theorem C3_retry_ends_at_the_first_failure w ds de off st :
  logger_log w = stdlib_logger_log ->
  (exists evs,
      history (snd (Requester.call w ds de off st)) = history st ++ evs /\
      (List.length (gets evs) <= 1)%nat /\
      sleeps evs = [] /\
      (fst (Requester.call w ds de off st) = Raised AllAttemptsFailed ->
       Config.max_attempts (config st) <= 0 /\ evs = [])) /\
  (Config.max_attempts (config st) = 3 ->
   down_for w ds de off ->
   fst (Requester.call w ds de off st) = Raised TypeError /\
   history (snd (Requester.call w ds de off st))
     = history st ++ [EvGet ds de off (Config.limit (config st))]).
Proof.
  intros Hlog. unfold Requester.call, bind, get_config.
  rewrite (attempts_log_raises w ds de off _ st TypeError Hlog).
  split.
  - destruct (py_range 1 (Config.max_attempts (config st) + 1)) as [|a rest] eqn:Hr.
    + exists []. rewrite app_nil_r. cbn. repeat split; auto.
      unfold py_range in Hr.
      destruct (Z.to_nat (Config.max_attempts (config st) + 1 - 1)) eqn:Hn;
        [lia | discriminate].
    + exists [EvGet ds de off (Config.limit (config st))].
      cbn [fst snd]. rewrite history_log_event. cbn.
      split; [reflexivity|]. split; [lia|]. split; [reflexivity|].
      destruct (requests_get_json w (trace st) ds de off (Config.limit (config st)));
        discriminate.
  - intros Hmax Hdown. rewrite Hmax.
    change (py_range 1 (3 + 1)) with [1; 2; 3].
    rewrite Hdown. cbn [fst snd]. now rewrite history_log_event.
Qed.

Lemma C3_retry_witness :
  let w := Sample.world Sample.api_down stdlib_logger_log Sample.always_ok
             (Sample.clock_at 0) in
  fst (Requester.call w (Sample.day 737425) (Sample.day 737426) 0 Sample.state0)
    = Raised TypeError /\
  history (snd (Requester.call w (Sample.day 737425) (Sample.day 737426) 0
                  Sample.state0))
    = history Sample.state0 ++ [EvGet (Sample.day 737425) (Sample.day 737426) 0 5].
Proof.
  intros w.
  apply (proj2 (C3_retry_ends_at_the_first_failure w (Sample.day 737425)
                  (Sample.day 737426) 0 Sample.state0 eq_refl)).
  - reflexivity.
  - intros h limit. reflexivity.
Defined.

(** ** The Page Walker: one turn of the page loop *)

Lemma commit_page_history w processed ds de st :
  to_csv w (trace st) (year_of ds) (ItemsModel.to_list processed) = CsvOk ->
  history (commit_page w processed ds de st) =
    history st ++
      [EvCsv (year_of ds) (ItemsModel.to_list processed);
       EvDump (json_dump w (EvCsv (year_of ds) (ItemsModel.to_list processed)
                              :: trace st))].
Proof.
  intros H. unfold commit_page, Saver.call, Saver.construct_output_filepath.
  rewrite H. simpl snd. unfold Config.update.
  cbn [trace log_event set_csv_files].
  destruct (json_dump w _); simpl; unfold history; simpl;
    rewrite <- app_assoc; reflexivity.
Qed.

Lemma commit_page_config w processed ds de st :
  to_csv w (trace st) (year_of ds) (ItemsModel.to_list processed) = CsvOk ->
  config (commit_page w processed ds de st) =
    Config.updated (config st) (ItemsModel.len processed) de.
Proof.
  intros H. unfold commit_page, Saver.call, Saver.construct_output_filepath.
  rewrite H. simpl snd. unfold Config.update.
  destruct (json_dump w _); reflexivity.
Qed.

Lemma commit_page_file w processed ds de st :
  to_csv w (trace st) (year_of ds) (ItemsModel.to_list processed) = CsvOk ->
  config_file (commit_page w processed ds de st) =
    match json_dump w (EvCsv (year_of ds) (ItemsModel.to_list processed)
                         :: trace st) with
    | DumpOk => Some (Config.updated (config st) (ItemsModel.len processed) de)
    | OpenFails => config_file st
    | DumpFails => None
    end.
Proof.
  intros H. unfold commit_page, Saver.call, Saver.construct_output_filepath.
  rewrite H. simpl snd. unfold Config.update.
  cbn [trace log_event set_csv_files].
  destruct (json_dump w _); reflexivity.
Qed.

Lemma saver_call_ok w processed ds st :
  to_csv w (trace st) (year_of ds) (ItemsModel.to_list processed) = CsvOk ->
  Saver.call w processed ds st = (Done tt, snd (Saver.call w processed ds st)).
Proof.
  intros H. unfold Saver.call, Saver.construct_output_filepath.
  rewrite H. reflexivity.
Qed.

Lemma saver_call_failed w processed ds st e written :
  to_csv w (trace st) (year_of ds) (ItemsModel.to_list processed)
    = CsvFails e written ->
  Saver.call w processed ds st = (Raised e, snd (Saver.call w processed ds st)).
Proof.
  intros H. unfold Saver.call, Saver.construct_output_filepath.
  rewrite H. destruct written; reflexivity.
Qed.

Lemma saver_failed_frame w processed ds st e written :
  to_csv w (trace st) (year_of ds) (ItemsModel.to_list processed)
    = CsvFails e written ->
  config (snd (Saver.call w processed ds st)) = config st /\
  config_file (snd (Saver.call w processed ds st)) = config_file st /\
  exists lines,
    history (snd (Saver.call w processed ds st))
      = history st ++ [EvCsvFailed (year_of ds) lines].
Proof.
  intros H. unfold Saver.call, Saver.construct_output_filepath.
  rewrite H. destruct written; cbn [snd]; repeat split; eexists; reflexivity.
Qed.

Lemma saver_call_trace w processed ds st :
  to_csv w (trace st) (year_of ds) (ItemsModel.to_list processed) = CsvOk ->
  trace (snd (Saver.call w processed ds st)) =
    EvCsv (year_of ds) (ItemsModel.to_list processed) :: trace st.
Proof.
  intros H. unfold Saver.call, Saver.construct_output_filepath.
  rewrite H. reflexivity.
Qed.

Lemma update_result w n d st :
  Config.update w n d st =
    (match json_dump w (trace st) with
     | DumpOk => Done tt
     | _ => Raised OSError
     end, snd (Config.update w n d st)).
Proof. unfold Config.update. destruct (json_dump w (trace st)); reflexivity. Qed.

Lemma pages_turn w f ds de g st r st' :
  Scraper.pages w (S f) ds de g st = (r, st') ->
  page_turn w f ds de g st r st'.
Proof.
  intros H. cbn [Scraper.pages] in H.
  unfold bind at 1 in H. unfold Scraper.page in H.
  unfold bind at 1 in H. unfold get_config at 1 in H.
  unfold bind at 1 in H.
  destruct (Requester.call w ds de (Scraper.offset_iterable (config st) g) st)
    as [rq st1] eqn:Hrq.
  destruct (call_frame _ _ _ _ _ _ _ Hrq) as (_ & _ & _ & Hfuel & _).
  destruct rq as [response|e|]; [| |congruence].
  2:{ inversion H; subst. eapply turn_fetch_failed; eauto. }
  unfold bind at 1 in H.
  destruct (Scraper.exhausted w response) as [[|]|e] eqn:Hex;
    cbn [lift ret raise] in H.
  - inversion H; subst. eapply turn_exhausted; eauto.
  - unfold bind at 1 in H.
    destruct (py_getitem response "items") as [items|e] eqn:Hit;
      cbn [lift ret raise] in H.
    2:{ inversion H; subst. eapply turn_page_raised; eauto. congruence. }
    unfold bind at 1 in H.
    destruct (Processor.call w items) as [processed|e] eqn:Hpr;
      cbn [lift ret raise] in H.
    2:{ inversion H; subst. eapply turn_page_raised; eauto. congruence. }
    unfold bind at 1 in H.
    destruct (to_csv w (trace st1) (year_of ds) (ItemsModel.to_list processed))
      as [|e written] eqn:Hcsv.
    2:{ rewrite (saver_call_failed _ _ _ _ _ _ Hcsv) in H.
        inversion H; subst. eapply turn_save_failed; eauto. }
    rewrite (saver_call_ok _ _ _ _ Hcsv) in H.
    unfold bind at 1 in H. rewrite update_result in H.
    rewrite (saver_call_trace _ _ _ _ Hcsv) in H.
    fold (commit_page w processed ds de st1) in H.
    destruct (json_dump w (EvCsv (year_of ds) (ItemsModel.to_list processed)
                             :: trace st1)) eqn:Hd.
    + cbn [ret] in H. eapply turn_next; eauto.
    + inversion H; subst. eapply turn_commit_failed; eauto. congruence.
    + inversion H; subst. eapply turn_commit_failed; eauto. congruence.
  - inversion H; subst. eapply turn_page_raised; eauto. congruence.
Qed.

(** ** The acceptance filter *)

Lemma is_acceptable_truthy item ok :
  ItemsModel.is_acceptable item = Ok ok -> py_truthy ok = true ->
  complete item.
Proof.
  unfold ItemsModel.is_acceptable, complete, filled. intros H Ht.
  destruct (negb (is_none (ItemModel.headline item))
            && negb (is_none (ItemModel.content item))).
  2:{ inversion H; subst. discriminate. }
  destruct (py_len (ItemModel.headline item)) as [lh|] eqn:Hh; [|discriminate].
  cbn in H. destruct (lh =? 0) eqn:Hz; cbn in H.
  { inversion H; subst. cbn in Ht. rewrite Hz in Ht. discriminate. }
  destruct (py_len (ItemModel.content item)) as [lc|] eqn:Hc; [|discriminate].
  cbn in H. inversion H; subst. cbn in Ht.
  assert (0 <= lh /\ 0 <= lc) as [? ?].
  { split.
    - destruct (ItemModel.headline item); inversion Hh; lia.
    - destruct (ItemModel.content item); inversion Hc; lia. }
  split; eexists; (split; [reflexivity|]).
  - apply Z.eqb_neq in Hz. lia.
  - destruct (lc =? 0) eqn:Hz'; [discriminate|]. apply Z.eqb_neq in Hz'. lia.
Qed.

Lemma filled_not_none v : filled v -> is_none v = false.
Proof. intros (n & H & _). destruct v; try reflexivity. discriminate. Qed.

Lemma complete_is_acceptable item :
  complete item ->
  exists ok, ItemsModel.is_acceptable item = Ok ok /\ py_truthy ok = true.
Proof.
  intros [Hh Hc]. unfold ItemsModel.is_acceptable.
  rewrite (filled_not_none _ Hh), (filled_not_none _ Hc).
  destruct Hh as (lh & Hh & Hhp), Hc as (lc & Hc & Hcp).
  rewrite Hh. cbn.
  destruct (lh =? 0) eqn:Hz; [apply Z.eqb_eq in Hz; lia|]. cbn.
  rewrite Hc. cbn. eexists; split; [reflexivity|]. cbn.
  destruct (lc =? 0) eqn:Hz'; [apply Z.eqb_eq in Hz'; lia|]. reflexivity.
Qed.

Lemma add_cases self item self' :
  ItemsModel.add self item = Ok self' ->
  (complete item /\ ItemsModel.items self' = ItemsModel.items self ++ [item])
  \/ (~ complete item /\ self' = self).
Proof.
  unfold ItemsModel.add. intros H.
  destruct (ItemsModel.is_acceptable item) as [ok|] eqn:Hok; [|discriminate].
  cbn in H. destruct (py_truthy ok) eqn:Ht; inversion H; subst.
  - left. split; [eapply is_acceptable_truthy; eauto | reflexivity].
  - right. split; [|reflexivity]. intros Hc.
    destruct (complete_is_acceptable _ Hc) as (ok' & Hok' & Ht').
    congruence.
Qed.

Lemma add_preserves_complete self item self' :
  Forall complete (ItemsModel.items self) ->
  ItemsModel.add self item = Ok self' ->
  Forall complete (ItemsModel.items self').
Proof.
  intros Hinv H. destruct (add_cases _ _ _ H) as [[Hc Hi]|[_ ->]]; [|exact Hinv].
  rewrite Hi. apply Forall_app. split; [exact Hinv|]. constructor; auto.
Qed.

Lemma add_all_complete w raws : forall acc out,
  Forall complete (ItemsModel.items acc) ->
  Processor.add_all w acc raws = Ok out ->
  Forall complete (ItemsModel.items out).
Proof.
  induction raws as [|raw rest IH]; intros acc out Hinv H; simpl in H.
  - inversion H; subst. exact Hinv.
  - destruct (Processor.parse_data w raw) as [item|]; [|discriminate].
    cbn in H.
    destruct (ItemsModel.add acc item) as [acc'|] eqn:Hadd; [|discriminate].
    cbn in H. eapply IH; [|exact H].
    eapply add_preserves_complete; eauto.
Qed.

Lemma processor_call_complete w items out :
  Processor.call w items = Ok out ->
  Forall complete (ItemsModel.items out).
Proof.
  unfold Processor.call. intros H.
  destruct (py_len items); [|discriminate]. cbn in H.
  destruct (py_iter items); [|discriminate]. cbn in H.
  eapply add_all_complete; [|exact H]. constructor.
Qed.

Lemma complete_to_list item :
  complete item -> complete_row (ItemModel.to_list item).
Proof. intros H. exact H. Qed.

Lemma to_list_complete self :
  Forall complete (ItemsModel.items self) ->
  Forall complete_row (ItemsModel.to_list self).
Proof.
  unfold ItemsModel.to_list. intros H. apply Forall_map.
  eapply Forall_impl; [|exact H]. intros a Ha. apply complete_to_list, Ha.
Qed.

(** ** The Page Walker: what a window leaves behind *)

Lemma updated_updated c n m d :
  Config.updated (Config.updated c n d) m d = Config.updated c (n + m) d.
Proof. unfold Config.updated; simpl. f_equal. lia. Qed.

Lemma fetch_event_page_event evs :
  Forall fetch_event evs -> Forall page_event evs.
Proof.
  intros H. eapply Forall_impl; [|exact H].
  intros [] He; simpl in *; auto.
Qed.

Lemma len_to_list processed :
  Z.of_nat (List.length (ItemsModel.to_list processed)) = ItemsModel.len processed.
Proof. unfold ItemsModel.to_list, ItemsModel.len. now rewrite length_map. Qed.

Lemma accepted_rows_commit y rows o :
  accepted_rows [EvCsv y rows; EvDump o] = Z.of_nat (List.length rows).
Proof. unfold accepted_rows. simpl. lia. Qed.

Lemma accepted_rows_silent evs : csv_rows evs = [] -> accepted_rows evs = 0.
Proof. unfold accepted_rows. now intros ->. Qed.

Lemma pages_summary w f : forall ds de g st r st',
  Scraper.pages w f ds de g st = (r, st') ->
  exists evs,
    history st' = history st ++ evs /\
    Forall page_event evs /\
    config st' = match dumps evs with
                 | [] => config st
                 | _ => Config.updated (config st) (accepted_rows evs) de
                 end /\
    (dumps evs = [] -> config_file st' = config_file st /\ csv_rows evs = []) /\
    Forall (Forall complete_row) (csv_rows evs).
Proof.
  induction f as [|f IH]; intros ds de g st r st' H.
  { inversion H; subst. exists []. rewrite app_nil_r. repeat split; auto. }
  apply pages_turn in H.
  destruct H as [e st1 Hrq -> -> | response st1 Hrq _ -> ->
                | response st1 e Hrq _ -> ->
                | response st1 items processed Hrq _ _ Hpr Hcsv Hd -> ->
                | response st1 items processed Hrq _ _ Hpr Hcsv Hd Hrest
                | response st1 items processed e written Hrq _ _ Hpr Hcsv -> ->].
  1-3: destruct (call_frame _ _ _ _ _ _ _ Hrq) as (Hc & Hf & _ & _ & evs & Hh & Hev);
       destruct (fetch_events_silent _ Hev) as (Hd & Hv & _);
       exists evs; rewrite Hd, Hv;
       repeat split; auto using fetch_event_page_event.
  3:{ destruct (call_frame _ _ _ _ _ _ _ Hrq) as (Hc & Hf & _ & _ & evs & Hh & Hev).
      destruct (fetch_events_silent _ Hev) as (Hds & Hv & _).
      destruct (saver_failed_frame _ _ _ _ _ _ Hcsv) as (Hc2 & Hf2 & lines & Hh2).
      exists (evs ++ [EvCsvFailed (year_of ds) lines]).
      rewrite Hh2, Hh, <- app_assoc. split; [reflexivity|].
      rewrite dumps_app, csv_rows_app, Hds, Hv. cbn.
      split; [|split; [congruence|split; [intros _; split; [congruence|reflexivity]|]]].
      - apply Forall_app. split; [auto using fetch_event_page_event|].
        repeat constructor.
      - constructor. }
  - destruct (call_frame _ _ _ _ _ _ _ Hrq) as (Hc & Hf & _ & _ & evs & Hh & Hev).
    destruct (fetch_events_silent _ Hev) as (Hds & Hv & _).
    eexists (evs ++ [EvCsv _ _; EvDump _]).
    rewrite (commit_page_history _ _ _ _ _ Hcsv), Hh, <- app_assoc.
    split; [reflexivity|].
    rewrite dumps_app, csv_rows_app, accepted_rows_app, Hds, Hv.
    rewrite (accepted_rows_silent _ Hv), accepted_rows_commit, len_to_list.
    simpl.
    split; [|split; [|split]].
    + apply Forall_app. split; [auto using fetch_event_page_event|].
      repeat constructor.
    + rewrite (commit_page_config _ _ _ _ _ Hcsv), Hc.
      reflexivity.
    + discriminate.
    + repeat constructor.
      eapply to_list_complete, processor_call_complete, Hpr.
  - destruct (call_frame _ _ _ _ _ _ _ Hrq) as (Hc & Hf & _ & _ & evs & Hh & Hev).
    destruct (fetch_events_silent _ Hev) as (Hds & Hv & _).
    apply IH in Hrest.
    destruct Hrest as (evs2 & Hh2 & Hev2 & Hc2 & Hf2 & Hrows2).
    eexists (evs ++ [EvCsv _ _; EvDump _] ++ evs2).
    rewrite Hh2, (commit_page_history _ _ _ _ _ Hcsv), Hh, <- !app_assoc.
    split; [reflexivity|].
    rewrite !dumps_app, !csv_rows_app, !accepted_rows_app, Hds, Hv.
    rewrite (accepted_rows_silent _ Hv), accepted_rows_commit, len_to_list.
    simpl.
    split; [|split; [|split]].
    + apply Forall_app. split; [auto using fetch_event_page_event|].
      repeat constructor. exact Hev2.
    + rewrite Hc2, (commit_page_config _ _ _ _ _ Hcsv), Hc.
      destruct (dumps evs2) eqn:Hd2.
      * destruct (Hf2 eq_refl) as [_ Hnil].
        rewrite (accepted_rows_silent _ Hnil). f_equal. lia.
      * rewrite updated_updated. reflexivity.
    + discriminate.
    + constructor; [|exact Hrows2].
      eapply to_list_complete, processor_call_complete, Hpr.
Qed.

(** ** C1: a window that fails *)

Lemma attempts_down_raises w ds de off todo : forall st,
  down_for w ds de off ->
  exists e, fst (Requester.attempts w ds de off todo st) = Raised e.
Proof.
  induction todo as [|a rest IH]; intros st Hdown; simpl.
  - eexists; reflexivity.
  - unfold bind, Requester.get_json. rewrite Hdown.
    unfold Requester.wait. destruct (logger_log w).
    + eexists; reflexivity.
    + unfold Requester.sleep. apply IH, Hdown.
Qed.

Lemma call_down_raises w ds de off st :
  down_for w ds de off ->
  exists e, fst (Requester.call w ds de off st) = Raised e.
Proof.
  intros Hdown. unfold Requester.call, bind, get_config.
  apply attempts_down_raises, Hdown.
Qed.

Lemma commit_failed_app a b :
  commit_failed (a ++ b) = commit_failed a || commit_failed b.
Proof. unfold commit_failed. now rewrite dumps_app, existsb_app. Qed.

Lemma commit_failed_silent evs : dumps evs = [] -> commit_failed evs = false.
Proof. unfold commit_failed. now intros ->. Qed.

Lemma commit_failed_last pre y rows o :
  commit_failed (pre ++ [EvCsv y rows; EvDump o])
  = commit_failed pre || negb (is_ok o).
Proof. rewrite commit_failed_app. unfold commit_failed at 2. cbn. now rewrite orb_false_r. Qed.

Lemma not_ok o : o <> DumpOk -> negb (is_ok o) = true.
Proof. destruct o; [congruence | reflexivity | reflexivity]. Qed.

(** The state file after a page loop, whatever its outcome: the Cursor of
    the last dump that went through, or what was there before when none
    did; nothing when the last dump failed after truncating the file. *)
Lemma pages_disk w f : forall ds de g st r st' evs,
  Scraper.pages w f ds de g st = (r, st') ->
  history st' = history st ++ evs ->
  (commit_failed evs = false ->
   config_file st' = match dumps evs with
                     | [] => config_file st
                     | _ => Some (config st')
                     end) /\
  (commit_failed evs = true ->
   r = Raised OSError /\
   exists pre y rows o,
     evs = pre ++ [EvCsv y rows; EvDump o] /\ o <> DumpOk /\
     commit_failed pre = false /\
     (dumps pre = [] -> csv_rows pre = []) /\
     config_file st' =
       match o with
       | OpenFails =>
           match dumps pre with
           | [] => config_file st
           | _ => Some (Config.updated (config st) (accepted_rows pre) de)
           end
       | _ => None
       end).
Proof.
  induction f as [|f IH]; intros ds de g st r st' evs H Hh.
  { inversion H; subst.
    rewrite <- (app_nil_r (history st')) in Hh at 1.
    apply app_inv_head in Hh. subst evs. split; [reflexivity | discriminate]. }
  apply pages_turn in H.
  destruct H as [e st1 Hrq -> -> | response st1 Hrq _ -> ->
                | response st1 e Hrq _ -> ->
                | response st1 items processed Hrq _ _ Hpr Hcsv Hd -> ->
                | response st1 items processed Hrq _ _ Hpr Hcsv Hd Hrest
                | response st1 items processed e written Hrq _ _ Hpr Hcsv -> ->].
  1-3: destruct (call_frame _ _ _ _ _ _ _ Hrq) as (_ & Hf & _ & _ & evs1 & Hh1 & Hev);
       rewrite Hh1 in Hh; apply app_inv_head in Hh; subst evs1;
       destruct (fetch_events_silent _ Hev) as (Hds & _);
       rewrite (commit_failed_silent _ Hds), Hds;
       (split; [intros _; exact Hf | discriminate]).
  - (* the dump of this page failed *)
    destruct (call_frame _ _ _ _ _ _ _ Hrq) as (_ & Hf & _ & _ & evs1 & Hh1 & Hev).
    destruct (fetch_events_silent _ Hev) as (Hds & Hv & _).
    rewrite (commit_page_history _ _ _ _ _ Hcsv), Hh1, <- app_assoc in Hh.
    apply app_inv_head in Hh. subst evs.
    rewrite commit_failed_last, (commit_failed_silent _ Hds), (not_ok _ Hd).
    split; [discriminate|]. intros _. split; [reflexivity|].
    exists evs1, (year_of ds), (ItemsModel.to_list processed). eexists.
    split; [reflexivity|]. split; [exact Hd|].
    split; [apply commit_failed_silent, Hds|]. split; [intros _; exact Hv|].
    rewrite (commit_page_file _ _ _ _ _ Hcsv), Hds, Hf.
    destruct (json_dump w _); [congruence | reflexivity | reflexivity].
  - (* the page was committed, the loop went on *)
    destruct (call_frame _ _ _ _ _ _ _ Hrq) as (Hc & Hf & _ & _ & evs1 & Hh1 & Hev).
    destruct (fetch_events_silent _ Hev) as (Hds & Hv & _).
    destruct (pages_summary _ _ _ _ _ _ _ _ Hrest)
      as (evs2 & Hh2 & _ & Hc2 & Hf2 & _).
    destruct (IH _ _ _ _ _ _ _ Hrest Hh2) as [IHok IHfail].
    rewrite Hh2, (commit_page_history _ _ _ _ _ Hcsv), Hh1, <- !app_assoc in Hh.
    apply app_inv_head in Hh. subst evs. rewrite Hd in *.
    assert (Hcp : config (commit_page w processed ds de st1)
                  = Config.updated (config st) (ItemsModel.len processed) de).
    { rewrite (commit_page_config _ _ _ _ _ Hcsv), Hc. reflexivity. }
    assert (Hfp : config_file (commit_page w processed ds de st1)
                  = Some (Config.updated (config st) (ItemsModel.len processed) de)).
    { rewrite (commit_page_file _ _ _ _ _ Hcsv), Hd, Hc. reflexivity. }
    assert (Hcf : forall l,
               commit_failed
                 (evs1 ++ [EvCsv (year_of ds) (ItemsModel.to_list processed);
                           EvDump DumpOk] ++ l) = commit_failed l).
    { intros l. rewrite app_assoc, commit_failed_app, commit_failed_last.
      now rewrite (commit_failed_silent _ Hds). }
    rewrite Hcf. split.
    + intros Hno. rewrite dumps_app, Hds. cbn.
      rewrite (IHok Hno). destruct (dumps evs2) eqn:Hd2; [|reflexivity].
      rewrite Hfp, Hc2, Hcp. reflexivity.
    + intros Hfail. destruct (IHfail Hfail)
        as (Hr & pre & y & rows & o & Hevs & Ho & Hpre & Hsil & Hfile).
      split; [exact Hr|].
      exists (evs1 ++ [EvCsv (year_of ds) (ItemsModel.to_list processed);
                       EvDump DumpOk] ++ pre), y, rows, o.
      split; [rewrite Hevs, <- !app_assoc; reflexivity|].
      split; [exact Ho|]. split; [rewrite Hcf; exact Hpre|].
      split.
      { rewrite dumps_app, Hds. cbn. discriminate. }
      rewrite Hfile. destruct o; try reflexivity.
      rewrite dumps_app, Hds, accepted_rows_app, (accepted_rows_silent _ Hv).
      rewrite (accepted_rows_app
                 [EvCsv (year_of ds) (ItemsModel.to_list processed);
                  EvDump DumpOk] pre), accepted_rows_commit, len_to_list.
      cbn [app dumps].
      destruct (dumps pre) eqn:Hdp.
      * rewrite Hfp, (accepted_rows_silent _ (Hsil eq_refl)).
        do 2 f_equal; lia.
      * rewrite Hcp, updated_updated. do 2 f_equal; lia.
  - (* the sink raised *)
    destruct (call_frame _ _ _ _ _ _ _ Hrq) as (_ & Hf & _ & _ & evs1 & Hh1 & Hev).
    destruct (fetch_events_silent _ Hev) as (Hds & _).
    destruct (saver_failed_frame _ _ _ _ _ _ Hcsv) as (_ & Hf2 & lines & Hh2).
    rewrite Hh2, Hh1, <- app_assoc in Hh. apply app_inv_head in Hh. subst evs.
    assert (Hd0 : dumps (evs1 ++ [EvCsvFailed (year_of ds) lines]) = []).
    { rewrite dumps_app, Hds. reflexivity. }
    rewrite (commit_failed_silent _ Hd0), Hd0.
    split; [intros _; congruence | discriminate].
Qed.




(** ** C4: draining a window *)

Lemma py_range_cons lo hi :
  lo < hi -> py_range lo hi = lo :: py_range (lo + 1) hi.
Proof.
  intros H. unfold py_range.
  replace (Z.to_nat (hi - lo)) with (S (Z.to_nat (hi - (lo + 1)))) by lia.
  cbn [seq map]. f_equal; [lia|].
  rewrite <- seq_shift, map_map. apply map_ext. intros i. lia.
Qed.

(** A fetch answered at the first attempt. *)
Lemma call_answered w ds de off st response :
  1 <= Config.max_attempts (config st) ->
  requests_get_json w (trace st) ds de off (Config.limit (config st))
    = Some response ->
  Requester.call w ds de off st =
    (Done response, log_event (EvGet ds de off (Config.limit (config st))) st).
Proof.
  intros Hmax Hget. unfold Requester.call, bind, get_config.
  rewrite py_range_cons by lia. cbn [Requester.attempts].
  unfold bind, Requester.get_json. rewrite Hget. reflexivity.
Qed.

(** A response handed back by a fetch was served by the endpoint. *)
Lemma attempts_served w ds de off todo : forall st response st',
  Requester.attempts w ds de off todo st = (Done response, st') ->
  exists h limit, requests_get_json w h ds de off limit = Some response.
Proof.
  induction todo as [|a rest IH]; intros st response st' H; simpl in H.
  - discriminate.
  - unfold bind, Requester.get_json in H.
    destruct (requests_get_json w (trace st) ds de off (Config.limit (config st)))
      eqn:Hget.
    + inversion H; subst. eauto.
    + unfold Requester.wait in H. destruct (logger_log w); [discriminate|].
      unfold Requester.sleep in H. eapply IH, H.
Qed.

Lemma call_served w ds de off st response st' :
  Requester.call w ds de off st = (Done response, st') ->
  exists h limit, requests_get_json w h ds de off limit = Some response.
Proof. unfold Requester.call, bind, get_config. apply attempts_served. Qed.

Lemma exhausted_spec w response :
  Scraper.exhausted w response = Ok true <->
  exists t total,
    py_getitem response "total" = Ok t /\ py_int w t = Ok total /\
    (total = 0 \/
     (total <> 0 /\
      exists items, py_getitem response "items" = Ok items /\
                    py_len items = Ok 0)).
Proof.
  unfold Scraper.exhausted. split.
  - intros H.
    destruct (py_getitem response "total") as [t|] eqn:Ht; [|discriminate].
    cbn in H.
    destruct (py_int w t) as [total|] eqn:Hi; [|discriminate]. cbn in H.
    exists t, total. split; [reflexivity|]. split; [exact Hi|].
    destruct (total =? 0) eqn:Hz.
    + left. now apply Z.eqb_eq.
    + right. split; [now apply Z.eqb_neq|].
      destruct (py_getitem response "items") as [items|] eqn:Hit;
        [|discriminate].
      cbn in H. destruct (py_len items) as [n|] eqn:Hn; [|discriminate].
      cbn in H. exists items. split; [reflexivity|].
      inversion H as [Hn0]. apply Z.eqb_eq in Hn0. now subst.
  - intros (t & total & Ht & Hi & Hcase). rewrite Ht. cbn. rewrite Hi. cbn.
    destruct Hcase as [-> | (Hnz & items & Hit & Hn)]; [reflexivity|].
    apply Z.eqb_neq in Hnz. rewrite Hnz, Hit. cbn. now rewrite Hn.
Qed.

(** A window ends normally only on a response that shows exhaustion. *)
Lemma pages_done_exhausted w f : forall ds de g st st',
  Scraper.pages w f ds de g st = (Done tt, st') ->
  exists h offset limit response,
    requests_get_json w h ds de offset limit = Some response /\
    Scraper.exhausted w response = Ok true.
Proof.
  induction f as [|f IH]; intros ds de g st st' H; [discriminate|].
  apply pages_turn in H.
  destruct H as [e st1 Hrq Hr _ | response st1 Hrq Hex _ _
                | response st1 e Hrq _ Hr _
                | response st1 items processed Hrq _ _ _ _ _ Hr _
                | response st1 items processed Hrq _ _ _ _ _ Hrest
                | response st1 items processed e written Hrq _ _ _ _ Hr _];
    try discriminate.
  - destruct (call_served _ _ _ _ _ _ _ Hrq) as (h & limit & Hget). eauto 6.
  - eapply IH, Hrest.
Qed.

Lemma limit_updated c n d : Config.limit (Config.updated c n d) = Config.limit c.
Proof. reflexivity. Qed.

Lemma max_attempts_updated c n d :
  Config.max_attempts (Config.updated c n d) = Config.max_attempts c.
Proof. reflexivity. Qed.

Lemma page_exhausted w ds de g st response st1 :
  Requester.call w ds de (Scraper.offset_iterable (config st) g) st
    = (Done response, st1) ->
  Scraper.exhausted w response = Ok true ->
  Scraper.page w ds de g st = (Done None, st1).
Proof.
  intros Hrq Hex. unfold Scraper.page.
  unfold bind at 1. unfold get_config at 1. unfold bind at 1. rewrite Hrq.
  unfold bind at 1. rewrite Hex. reflexivity.
Qed.

Lemma page_committed w ds de g st response st1 items processed :
  Requester.call w ds de (Scraper.offset_iterable (config st) g) st
    = (Done response, st1) ->
  Scraper.exhausted w response = Ok false ->
  py_getitem response "items" = Ok items ->
  Processor.call w items = Ok processed ->
  to_csv w (trace st1) (year_of ds) (ItemsModel.to_list processed) = CsvOk ->
  json_dump w (EvCsv (year_of ds) (ItemsModel.to_list processed) :: trace st1)
    = DumpOk ->
  Scraper.page w ds de g st =
    (Done (Some (Scraper.Suspended (Scraper.offset_iterable (config st) g))),
     commit_page w processed ds de st1).
Proof.
  intros Hrq Hex Hit Hpr Hcsv Hd. unfold Scraper.page.
  unfold bind at 1. unfold get_config at 1. unfold bind at 1. rewrite Hrq.
  unfold bind at 1. rewrite Hex. cbn [lift ret].
  unfold bind at 1. rewrite Hit. cbn [lift ret].
  unfold bind at 1. rewrite Hpr. cbn [lift ret].
  unfold bind at 1. rewrite (saver_call_ok _ _ _ _ Hcsv).
  unfold bind at 1. rewrite update_result.
  rewrite (saver_call_trace _ _ _ _ Hcsv), Hd. reflexivity.
Qed.

Lemma pages_drain w ds de api L :
  served_by w ds de api ->
  forall k fuel g st,
    Config.limit (config st) = L ->
    1 <= Config.max_attempts (config st) ->
    (forall i, (i < k)%nat ->
       page_with_records w
         (api (Scraper.offset_iterable (config st) g + Z.of_nat i * L))) ->
    Scraper.exhausted w
      (api (Scraper.offset_iterable (config st) g + Z.of_nat k * L)) = Ok true ->
    (k < fuel)%nat ->
    exists evs st',
      Scraper.pages w fuel ds de g st = (Done tt, st') /\
      history st' = history st ++ evs /\
      gets evs = map (fun i => Scraper.offset_iterable (config st) g
                               + Z.of_nat i * L) (seq 0 (S k)) /\
      List.length (csv_rows evs) = k /\
      dumps evs = repeat DumpOk k.
Proof.
  intros (Hapi & Hcsv & Hdump).
  induction k as [|k IH]; intros fuel g st HL Hmax Hpages Hend Hfuel;
    (destruct fuel as [|fuel]; [lia|]); cbn [Scraper.pages];
    unfold bind at 1;
    pose proof (call_answered w ds de (Scraper.offset_iterable (config st) g)
                  st _ Hmax (Hapi _ _ _)) as Hrq;
    set (off := Scraper.offset_iterable (config st) g) in *.
  - replace (off + Z.of_nat 0 * L) with off in Hend by lia.
    rewrite (page_exhausted _ _ _ _ _ _ _ Hrq Hend).
    eexists [EvGet _ _ _ _], _. split; [reflexivity|].
    rewrite history_log_event. repeat split. simpl. f_equal. lia.
  - destruct (Hpages 0%nat ltac:(lia)) as (Hex & items & processed & Hit & Hpr).
    replace (off + Z.of_nat 0 * L) with off in * by lia.
    set (st1 := log_event (EvGet ds de off (Config.limit (config st))) st) in *.
    rewrite (page_committed _ _ _ _ _ _ _ _ _ Hrq Hex Hit Hpr
               (Hcsv _ _ _) (Hdump _)).
    destruct (IH fuel (Scraper.Suspended off) (commit_page w processed ds de st1))
      as (evs & st' & Hrun & Hh & Hg & Hc & Hd).
    + rewrite commit_page_config by apply Hcsv. exact HL.
    + rewrite commit_page_config by apply Hcsv. exact Hmax.
    + intros i Hi. cbn [Scraper.offset_iterable].
      rewrite commit_page_config by apply Hcsv. rewrite limit_updated.
      change (config st1) with (config st). rewrite HL.
      specialize (Hpages (S i) ltac:(lia)).
      replace (off + L + Z.of_nat i * L) with (off + Z.of_nat (S i) * L) by lia.
      exact Hpages.
    + cbn [Scraper.offset_iterable].
      rewrite commit_page_config by apply Hcsv. rewrite limit_updated.
      change (config st1) with (config st). rewrite HL.
      replace (off + L + Z.of_nat k * L) with (off + Z.of_nat (S k) * L) by lia.
      exact Hend.
    + lia.
    + exists (EvGet ds de off (Config.limit (config st))
              :: EvCsv (year_of ds) (ItemsModel.to_list processed)
              :: EvDump (json_dump w (EvCsv (year_of ds)
                                        (ItemsModel.to_list processed)
                                        :: trace st1))
              :: evs), st'.
      split; [exact Hrun|].
      rewrite Hh, (commit_page_history _ _ _ _ _ (Hcsv _ _ _)).
      unfold st1 at 1. rewrite history_log_event, <- !app_assoc.
      split; [reflexivity|]. rewrite Hdump. cbn [gets csv_rows dumps].
      cbn [List.length]. rewrite Hg, Hc, Hd. repeat split.
      cbn [Scraper.offset_iterable].
      rewrite commit_page_config by apply Hcsv. rewrite limit_updated.
      change (config st1) with (config st). rewrite HL.
      change (seq 0 (S (S k))) with (0%nat :: seq 1 (S k)).
      rewrite <- seq_shift, map_cons, map_map.
      f_equal; [lia|]. apply map_ext. intros i. lia.
Qed.

(** C4.  The offset generator starts at 0 and adds the configured limit at
    each turn.  After a fetch the window ends normally exactly when the
    response shows exhaustion: its total is zero, or else its record count
    is zero, tested in that order; and a window that ended normally did so
    on such a response.  With an endpoint that serves pages with records
    at the offsets below K = k x limit and shows exhaustion at offset K,
    the window fetches the offsets 0, limit, ..., K in turn, hands
    K / limit pages to the sink and commits each of them, and returns
    without an exception. *)
Theorem C4_page_walker w ds de :
  (forall c offset,
      Scraper.offset_iterable c Scraper.Fresh = 0 /\
      Scraper.offset_iterable c (Scraper.Suspended offset)
        = offset + Config.limit c) /\
  (forall response,
      Scraper.exhausted w response = Ok true <->
      exists t total,
        py_getitem response "total" = Ok t /\ py_int w t = Ok total /\
        (total = 0 \/
         (total <> 0 /\
          exists items, py_getitem response "items" = Ok items /\
                        py_len items = Ok 0))) /\
  (forall fuel st,
      fst (Scraper.fetch_articles_in_date_range w fuel ds de st) = Done tt ->
      exists h offset limit response,
        requests_get_json w h ds de offset limit = Some response /\
        Scraper.exhausted w response = Ok true) /\
  (forall api st k fuel,
      0 < Config.limit (config st) ->
      1 <= Config.max_attempts (config st) ->
      served_by w ds de api ->
      (forall i, (i < k)%nat ->
         page_with_records w (api (Z.of_nat i * Config.limit (config st)))) ->
      Scraper.exhausted w (api (Z.of_nat k * Config.limit (config st)))
        = Ok true ->
      (k < fuel)%nat ->
      exists evs,
        fst (Scraper.fetch_articles_in_date_range w fuel ds de st) = Done tt /\
        history (snd (Scraper.fetch_articles_in_date_range w fuel ds de st))
          = history st ++ evs /\
        gets evs = map (fun i => Z.of_nat i * Config.limit (config st))
                       (seq 0 (S k)) /\
        Z.of_nat (List.length (csv_rows evs))
          = (Z.of_nat k * Config.limit (config st)) / Config.limit (config st) /\
        dumps evs = repeat DumpOk k).
Proof.
  split; [|split; [|split]].
  - intros c offset. split; reflexivity.
  - apply exhausted_spec.
  - intros fuel st H. unfold Scraper.fetch_articles_in_date_range in H.
    destruct (Scraper.pages w fuel ds de Scraper.Fresh st) as [r st'] eqn:Hrun.
    simpl in H. subst r. eapply pages_done_exhausted, Hrun.
  - intros api st k fuel HL Hmax Hserved Hpages Hend Hfuel.
    unfold Scraper.fetch_articles_in_date_range.
    destruct (pages_drain w ds de api (Config.limit (config st)) Hserved
                k fuel Scraper.Fresh st eq_refl Hmax)
      as (evs & st' & Hrun & Hh & Hg & Hc & Hd); auto.
    exists evs. rewrite Hrun. cbn [fst snd].
    split; [reflexivity|]. split; [exact Hh|]. split; [|split].
    + rewrite Hg. apply map_ext. intros i. cbn. lia.
    + rewrite Hc, Z.div_mul by lia. reflexivity.
    + exact Hd.
Qed.

Lemma C4_page_walker_witness :
  let w := Sample.world (Sample.serve (Sample.one_page_of Sample.seven_articles))
             stdlib_logger_log Sample.always_ok (Sample.clock_at 737427) in
  exists evs,
    fst (Scraper.fetch_articles_in_date_range w 2 (Sample.day 737425)
           (Sample.day 737426) Sample.state0) = Done tt /\
    history (snd (Scraper.fetch_articles_in_date_range w 2 (Sample.day 737425)
                    (Sample.day 737426) Sample.state0))
      = history Sample.state0 ++ evs /\
    gets evs = map (fun i => Z.of_nat i * Config.limit (config Sample.state0))
                   (seq 0 2) /\
    Z.of_nat (List.length (csv_rows evs))
      = (Z.of_nat 1 * Config.limit (config Sample.state0))
        / Config.limit (config Sample.state0) /\
    dumps evs = repeat DumpOk 1.
Proof.
  intros w.
  apply (proj2 (proj2 (proj2 (C4_page_walker w (Sample.day 737425)
                                (Sample.day 737426))))
           (Sample.one_page_of Sample.seven_articles) Sample.state0 1%nat 2%nat).
  - reflexivity.
  - discriminate.
  - repeat split.
  - intros i Hi. assert (i = 0%nat) as -> by lia.
    split; [reflexivity|]. eexists _, _. split; reflexivity.
  - reflexivity.
  - lia.
Defined.

(** The scenario of the specification: page size 5, seven valid records
    at offset 0 and none at offset 5.  Two fetches, one committed page,
    seven more articles, and the date moved to the end of the window. *)
Example end_to_end_scenario :
  let w := Sample.world (Sample.serve (Sample.one_page_of Sample.seven_articles))
             stdlib_logger_log Sample.always_ok (Sample.clock_at 737427) in
  let run := Scraper.fetch_articles_in_date_range w 2 (Sample.day 737425)
               (Sample.day 737426) Sample.state0 in
  fst run = Done tt /\
  gets (history (snd run)) = [0; 5] /\
  dumps (history (snd run)) = [DumpOk] /\
  Config.total (config (snd run)) = 7 /\
  Config.last_scraped_date (config (snd run)) = Sample.day 737426 /\
  config_file (snd run) = Some (config (snd run)).
Proof. cbv zeta. repeat split. Qed.

(** ** C9: replaying a commit *)

Lemma string_to_date_to_string d :
  midnight d -> string_to_date (date_to_string d) = d.
Proof.
  unfold midnight, string_to_date, date_to_string, toordinal, us_per_day.
  intros H. pose proof (Z.div_mod d 86400000000 ltac:(lia)). lia.
Qed.

(** C9.  Committing twice with the same count and the same calendar date
    [d] leaves [last_scraped_date] equal to [d], as it was after the first
    commit: the date is overwritten, not added to.  (The count, a delta,
    is added twice.)  This holds whether or not the dumps go through;
    when the second one does, the file shows [d] too. *)
Theorem C9_commit_replay_keeps_date w a d st :
  midnight d ->
  Config.last_scraped_date (config (snd (Config.update w a d st))) = d /\
  Config.last_scraped_date
    (config (snd (Config.update w a d (snd (Config.update w a d st))))) = d /\
  last_scraped_date_value
    (config (snd (Config.update w a d (snd (Config.update w a d st)))))
    = last_scraped_date_value (config (snd (Config.update w a d st))) /\
  Config.total
    (config (snd (Config.update w a d (snd (Config.update w a d st)))))
    = Config.total (config st) + a + a /\
  (json_dump w (trace (snd (Config.update w a d st))) = DumpOk ->
   option_map Config.last_scraped_date
     (config_file (snd (Config.update w a d (snd (Config.update w a d st)))))
     = Some d).
Proof.
  intros Hd.
  assert (H1 : forall s, config (snd (Config.update w a d s))
                         = Config.updated (config s) a d).
  { intros s. unfold Config.update. destruct (json_dump w (trace s)); reflexivity. }
  rewrite !H1. unfold Config.last_scraped_date, Config.total, Config.updated.
  cbn [last_scraped_date_value total_value].
  rewrite (string_to_date_to_string d Hd).
  split; [reflexivity|]. split; [reflexivity|]. split; [reflexivity|].
  split; [reflexivity|].
  intros Hok. unfold Config.update at 1. rewrite Hok.
  cbn [snd set_config_file config_file option_map].
  unfold Config.updated. cbn [last_scraped_date_value].
  now rewrite (string_to_date_to_string d Hd).
Qed.

Lemma C9_commit_replay_witness :
  let w := Sample.world Sample.api_down stdlib_logger_log Sample.always_ok
             (Sample.clock_at 737427) in
  let d := Sample.day 737426 in
  let st := Sample.state0 in
  Config.last_scraped_date (config (snd (Config.update w 7 d st))) = d /\
  Config.last_scraped_date
    (config (snd (Config.update w 7 d (snd (Config.update w 7 d st))))) = d /\
  last_scraped_date_value
    (config (snd (Config.update w 7 d (snd (Config.update w 7 d st)))))
    = last_scraped_date_value (config (snd (Config.update w 7 d st))) /\
  Config.total
    (config (snd (Config.update w 7 d (snd (Config.update w 7 d st)))))
    = Config.total (config st) + 7 + 7 /\
  (json_dump w (trace (snd (Config.update w 7 d st))) = DumpOk ->
   option_map Config.last_scraped_date
     (config_file (snd (Config.update w 7 d (snd (Config.update w 7 d st)))))
     = Some d).
Proof.
  intros w d st.
  apply (C9_commit_replay_keeps_date w 7 d st).
  reflexivity.
Defined.

(** ** C7: a record with a missing entry *)

(** [parse_data] returns only for a record that has its [cards] and a
    [sections] entry that is not [None]. *)
Lemma parse_data_ok_inv w item it :
  Processor.parse_data w item = Ok it ->
  (exists cards, py_getitem item "cards" = Ok cards) /\
  (exists sections, py_get item "sections" PNone = Ok sections /\
                    is_none sections = false).
Proof.
  unfold Processor.parse_data. intros H. repeat res_step H.
  split.
  - match goal with
    | E : Processor.construct_content_text item = Ok _ |- _ =>
        unfold Processor.construct_content_text in E; res_step E; eauto
    end.
  - match goal with
    | E : Processor.construct_sections_text item = Ok _ |- _ =>
        unfold Processor.construct_sections_text in E; res_step E;
        match type of E with
        | context [is_none ?s] =>
            destruct (is_none s) eqn:Hs; [discriminate E|]; eauto
        end
    end.
Qed.

(** C7 fails on the code.  A record without a [sections] entry makes
    [construct_sections_text] return a local that was never bound, a
    record without a [cards] entry makes [construct_content_text] index a
    missing key: [parse_data] raises in both cases, in any world.  The
    exception goes through [Processor.__call__], so the well-formed
    records of the same page are lost with it, and through
    [fetch_articles_in_date_range]: nothing of the page reaches the sink
    and the window ends there. *)
Theorem C7_malformed_record_aborts_the_window w :
  (forall item,
      py_get item "sections" PNone = Ok PNone \/
      py_getitem item "cards" = Raise KeyError ->
      exists e, Processor.parse_data w item = Raise e) /\
  Processor.parse_data w (Sample.article_without_sections "headline" "body")
    = Raise UnboundLocalError /\
  Processor.parse_data w (Sample.article_without_cards "headline")
    = Raise KeyError /\
  (exists item, Processor.parse_data w (Sample.article "headline" "body")
                = Ok item /\ complete item) /\
  Processor.call w
    (PList [Sample.article "headline" "body";
            Sample.article_without_sections "headline" "body"])
    = Raise UnboundLocalError /\
  (let w' := Sample.world
               (Sample.serve (Sample.one_page_of
                  [Sample.article "headline" "body";
                   Sample.article_without_sections "headline" "body"]))
               stdlib_logger_log Sample.always_ok (Sample.clock_at 737427) in
   let run := Scraper.fetch_articles_in_date_range w' 3 (Sample.day 737425)
                (Sample.day 737426) Sample.state0 in
   fst run = Raised UnboundLocalError /\
   gets (history (snd run)) = [0] /\
   csv_rows (history (snd run)) = [] /\
   config (snd run) = config Sample.state0).
Proof.
  split.
  { intros item Hbad.
    destruct (Processor.parse_data w item) as [it|e] eqn:Hp; [|eauto].
    apply parse_data_ok_inv in Hp.
    destruct Hp as ((cards & Hc) & (sections & Hs & Hn)).
    destruct Hbad as [Hbad|Hbad]; [|congruence].
    rewrite Hbad in Hs. inversion Hs; subst. discriminate. }
  split; [reflexivity|]. split; [reflexivity|]. split; [|split].
  - eexists. split; [reflexivity|].
    split; eexists; (split; [reflexivity|]); reflexivity.
  - reflexivity.
  - cbv zeta. repeat split.
Qed.

(** ** C6: the acceptance filter and the pagination *)

Lemma filled_none : ~ filled PNone.
Proof. intros (n & H & _). discriminate. Qed.

Lemma filled_str s : filled (PStr s) <-> s <> EmptyString.
Proof.
  unfold filled. cbn. split.
  - intros (n & H & Hn) ->. inversion H; subst. cbn in Hn. lia.
  - intros Hs. eexists; split; [reflexivity|].
    destruct s; [congruence|]. cbn [String.length]. lia.
Qed.

Lemma add_accepts_iff self item :
  ItemsModel.add self item
    = Ok (ItemsModel.ItemsModel (ItemsModel.items self ++ [item]))
  <-> complete item.
Proof.
  split.
  - intros H. destruct (add_cases _ _ _ H) as [[Hc _]|[_ Heq]]; [exact Hc|].
    exfalso. apply (f_equal (fun m => List.length (ItemsModel.items m))) in Heq.
    cbn in Heq. rewrite length_app in Heq. cbn in Heq. lia.
  - intros Hc. destruct (complete_is_acceptable _ Hc) as (ok & Hok & Ht).
    unfold ItemsModel.add. rewrite Hok. cbn. now rewrite Ht.
Qed.

Lemma add_empty_headline self item :
  ItemModel.headline item = PStr "" -> ItemsModel.add self item = Ok self.
Proof.
  intros Hh. unfold ItemsModel.add, ItemsModel.is_acceptable. rewrite Hh.
  cbn. destruct (is_none (ItemModel.content item)); reflexivity.
Qed.

Lemma pages_total w f ds de g st :
  exists evs,
    history (snd (Scraper.pages w f ds de g st)) = history st ++ evs /\
    Config.total (config (snd (Scraper.pages w f ds de g st)))
      = Config.total (config st) + accepted_rows evs /\
    Forall (Forall complete_row) (csv_rows evs).
Proof.
  destruct (Scraper.pages w f ds de g st) as [r st'] eqn:Hrun.
  destruct (pages_summary _ _ _ _ _ _ _ _ Hrun) as (evs & Hh & _ & Hc & Hf & Hrows).
  exists evs. cbn [snd]. split; [exact Hh|]. split; [|exact Hrows].
  rewrite Hc. destruct (dumps evs) eqn:Hd.
  - destruct (Hf eq_refl) as [_ Hnil]. rewrite (accepted_rows_silent _ Hnil). lia.
  - reflexivity.
Qed.

(** C6.  [add] stores a transformed record exactly when its headline and
    its content are both there and not empty ([None] is neither, a string
    is when it is not the empty string).  A record whose headline is the
    empty string is left out whatever its body, and the records after it
    are treated as if it had not been there.  The test that ends the page
    loop looks at the raw records only: with a total that is not zero it
    succeeds exactly when the raw list is empty.  In every window the
    total grows by the number of rows handed to the sink, and all of
    those rows have a headline and a content. *)
Theorem C6_acceptance_filter w :
  (~ filled PNone /\ forall s, filled (PStr s) <-> s <> EmptyString) /\
  (forall self item,
      ItemsModel.add self item
        = Ok (ItemsModel.ItemsModel (ItemsModel.items self ++ [item]))
      <-> complete item) /\
  (forall self item,
      ItemModel.headline item = PStr "" -> ItemsModel.add self item = Ok self) /\
  (forall acc raw rest item,
      Processor.parse_data w raw = Ok item ->
      ItemModel.headline item = PStr "" ->
      Processor.add_all w acc (raw :: rest) = Processor.add_all w acc rest) /\
  (forall response t total raws,
      py_getitem response "total" = Ok t -> py_int w t = Ok total ->
      total <> 0 ->
      py_getitem response "items" = Ok (PList raws) ->
      Scraper.exhausted w response
        = Ok (match raws with [] => true | _ :: _ => false end)) /\
  (forall fuel ds de st,
      exists evs,
        history (snd (Scraper.fetch_articles_in_date_range w fuel ds de st))
          = history st ++ evs /\
        Config.total
          (config (snd (Scraper.fetch_articles_in_date_range w fuel ds de st)))
          = Config.total (config st) + accepted_rows evs /\
        Forall (Forall complete_row) (csv_rows evs)).
Proof.
  split; [split; [apply filled_none | apply filled_str]|].
  split; [apply add_accepts_iff|].
  split; [apply add_empty_headline|].
  split; [|split].
  - intros acc raw rest item Hp Hh. cbn [Processor.add_all].
    rewrite Hp. cbn. now rewrite (add_empty_headline acc item Hh).
  - intros response t total raws Ht Hi Hnz Hit. unfold Scraper.exhausted.
    rewrite Ht. cbn. rewrite Hi. cbn.
    apply Z.eqb_neq in Hnz. rewrite Hnz, Hit. cbn.
    destruct raws; reflexivity.
  - intros fuel ds de st. apply pages_total.
Qed.

Lemma C6_acceptance_filter_witness :
  let w := Sample.world
             (Sample.serve (Sample.one_page_of [Sample.article "" "body"]))
             stdlib_logger_log Sample.always_ok (Sample.clock_at 737427) in
  Processor.add_all w ItemsModel.init
    [Sample.article "" "body"; Sample.article "headline" "body"]
  = Processor.add_all w ItemsModel.init [Sample.article "headline" "body"] /\
  Scraper.exhausted w (Sample.page 1 [Sample.article "" "body"]) = Ok false /\
  Scraper.exhausted w (Sample.page 1 []) = Ok true.
Proof.
  intros w.
  destruct (C6_acceptance_filter w) as (_ & _ & _ & Hdrop & Hraw & _).
  split; [|split].
  - eapply Hdrop; reflexivity.
  - apply (Hraw (Sample.page 1 [Sample.article "" "body"]) (PInt 1) 1
                [Sample.article "" "body"]);
      [reflexivity | reflexivity | discriminate | reflexivity].
  - apply (Hraw (Sample.page 1 []) (PInt 1) 1 []);
      [reflexivity | reflexivity | discriminate | reflexivity].
Defined.

(** A page whose only record has an empty headline: nothing is written
    and the total stays, yet the page counts as a page with records, is
    committed, and the next offset is fetched. *)
Example rejected_record_does_not_stop_the_window :
  let w := Sample.world
             (Sample.serve (Sample.one_page_of [Sample.article "" "body"]))
             stdlib_logger_log Sample.always_ok (Sample.clock_at 737427) in
  let run := Scraper.fetch_articles_in_date_range w 3 (Sample.day 737425)
               (Sample.day 737426) Sample.state0 in
  fst run = Done tt /\
  gets (history (snd run)) = [0; 5] /\
  csv_rows (history (snd run)) = [[]] /\
  dumps (history (snd run)) = [DumpOk] /\
  Config.total (config (snd run)) = 0.
Proof. cbv zeta. repeat split. Qed.

(** ** The Window Walker: one turn of the loop of [begin] *)

Lemma date_iterable_current_cases c g :
  Scraper.date_iterable_current c g = Ok (candidate c g) \/
  Scraper.date_iterable_current c g = Raise OverflowError.
Proof.
  destruct g; cbn; [now left|]. unfold datetime_add.
  destruct (in_range _); auto.
Qed.

Lemma window_inv w f g st r st' :
  Scraper.window w f g st = (r, st') -> window_turn w f g st r st'.
Proof.
  unfold Scraper.window, Scraper.date_iterable, bind, get_config, Scraper.now.
  destruct (date_iterable_current_cases (config st) g) as [Hc|Hc]; rewrite Hc;
    cbn [lift ret raise].
  2:{ unfold raise. intros H. inversion H; subst. now apply turn_start_overflow. }
  unfold ret, datetime_add.
  change (config (log_event (EvNow (datetime_now w (trace st))) st))
    with (config st).
  destruct (candidate (config st) g <? datetime_now w (trace st)) eqn:Hlt.
  - apply Z.ltb_lt in Hlt.
    change (config (log_event (EvNow (datetime_now w (trace st))) st))
      with (config st).
    destruct (in_range (candidate (config st) g + Config.time_delta (config st)))
      eqn:Hin; cbn [lift ret raise].
    + unfold try_except, Scraper.fetch_articles_in_date_range,
        Scraper.logger_info_working, Scraper.logger_warning_no_articles,
        Scraper.construct_date_range_string, ret.
      cbn [fst snd].
      destruct (Scraper.pages w f _ _ Scraper.Fresh _) as [rf st1] eqn:Hrun.
      intros H. eapply turn_window; [exact Hlt | exact Hrun | | exact Hin | exact Hc].
      destruct rf; inversion H; subst; auto.
    + unfold raise. intros H. inversion H; subst.
      now apply turn_end_overflow.
  - apply Z.ltb_ge in Hlt. intros H. inversion H; subst.
    apply turn_end; auto.
Qed.

Lemma page_events_silent evs :
  Forall page_event evs ->
  nows evs = [] /\ workings evs = [] /\ warnings evs = [].
Proof.
  induction 1 as [|e l He _ IH]; [easy|].
  destruct e; simpl in *; try contradiction; exact IH.
Qed.

Lemma pages_threshold w f ds de g st r st' :
  Scraper.pages w f ds de g st = (r, st') ->
  threshold_value (config st') = threshold_value (config st).
Proof.
  intros H. destruct (pages_summary _ _ _ _ _ _ _ _ H) as (evs & _ & _ & Hc & _).
  rewrite Hc. destruct (dumps evs); reflexivity.
Qed.

Lemma window_summary w f g st r st' :
  Scraper.window w f g st = (r, st') ->
  exists evs,
    history st' = history st ++ evs /\
    threshold_value (config st') = threshold_value (config st) /\
    Config.total (config st') = Config.total (config st) + accepted_rows evs /\
    Forall (Forall complete_row) (csv_rows evs) /\
    (forall t, In t (nows evs) -> t = datetime_now w (trace st)) /\
    match r with
    | Done None =>
        nows evs = [datetime_now w (trace st)] /\
        workings evs = [] /\
        datetime_now w (trace st) <= candidate (config st) g
    | Done (Some g1) =>
        nows evs = [datetime_now w (trace st)] /\
        g1 = Scraper.Suspended (candidate (config st) g) /\
        workings evs = [nth_window (config st) g 0] /\
        candidate (config st) g < datetime_now w (trace st) /\
        in_range (candidate (config st) g + Config.time_delta (config st)) = true
    | OutOfFuel =>
        nows evs = [datetime_now w (trace st)] /\
        workings evs = [nth_window (config st) g 0] /\
        candidate (config st) g < datetime_now w (trace st) /\
        in_range (candidate (config st) g + Config.time_delta (config st)) = true
    | Raised e =>
        e = OverflowError /\ workings evs = [] /\ config st' = config st /\
        config_file st' = config_file st /\ csv_files st' = csv_files st
    end.
Proof.
  intros H. apply window_inv in H.
  destruct H as [Hge -> -> _ | rf st1 ds de Hlt Hrun Hr Hin _
                | _ -> -> | Hlt Hin -> ->].
  - exists [EvNow (datetime_now w (trace st))].
    rewrite history_log_event. cbn.
    repeat split; auto; [unfold accepted_rows; cbn; lia | intros t [<-|[]]; auto].
  - pose proof (pages_threshold _ _ _ _ _ _ _ _ Hrun) as Hth.
    destruct (pages_summary _ _ _ _ _ _ _ _ Hrun)
      as (pevs & Hh & Hpe & Hc & Hf & Hrows).
    destruct (page_events_silent _ Hpe) as (Hn & Hw & _).
    assert (Htot : Config.total (config st1)
                   = Config.total (config st) + accepted_rows pevs).
    { rewrite Hc. destruct (dumps pevs) eqn:Hd.
      - destruct (Hf eq_refl) as [_ Hnil].
        rewrite (accepted_rows_silent _ Hnil). cbn. lia.
      - reflexivity. }
    rewrite !history_log_event, <- !app_assoc in Hh. cbn [app] in Hh.
    assert (Hnw : nth_window (config st) g 0
                  = (date_to_string ds, date_to_string de)).
    { unfold nth_window, Scraper.construct_date_range_string, ds, de.
      now rewrite Z.mul_0_l, Z.add_0_r. }
    destruct rf as [[]|e|]; destruct Hr as [-> ->].
    + exists (EvNow (datetime_now w (trace st))
              :: EvWorking (date_to_string ds) (date_to_string de) :: pevs).
      cbn [nows workings csv_rows]. rewrite Hn, Hw, Hnw.
      repeat split; auto. intros t [<-|[]]; auto.
    + exists (EvNow (datetime_now w (trace st))
              :: EvWorking (date_to_string ds) (date_to_string de)
              :: pevs ++ [EvNoArticles (date_to_string ds) (date_to_string de)]).
      rewrite history_log_event, Hh, <- !app_assoc. cbn [app].
      cbn [nows workings csv_rows].
      rewrite nows_app, workings_app, csv_rows_app, Hn, Hw, Hnw. cbn.
      rewrite app_nil_r.
      repeat split; auto.
      * rewrite csv_rows_app. cbn [csv_rows]. rewrite app_nil_r. exact Htot.
      * intros t [<-|[]]; auto.
    + exists (EvNow (datetime_now w (trace st))
              :: EvWorking (date_to_string ds) (date_to_string de) :: pevs).
      cbn [nows workings csv_rows]. rewrite Hn, Hw, Hnw.
      repeat split; auto. intros t [<-|[]]; auto.
  - exists []. rewrite app_nil_r. cbn.
    repeat split; auto; [unfold accepted_rows; cbn; lia | intros t []].
  - exists [EvNow (datetime_now w (trace st))].
    rewrite history_log_event. cbn.
    repeat split; auto; [unfold accepted_rows; cbn; lia | intros t [<-|[]]; auto].
Qed.

(** ** The Window Walker: a run of [begin] *)

Lemma time_delta_threshold c c' :
  threshold_value c' = threshold_value c ->
  Config.time_delta c' = Config.time_delta c.
Proof. unfold Config.time_delta. now intros ->. Qed.

Lemma nth_window_suspended c c' g i :
  threshold_value c' = threshold_value c ->
  nth_window c' (Scraper.Suspended (candidate c g)) i = nth_window c g (S i).
Proof.
  intros Hth. unfold nth_window. cbn [candidate].
  rewrite (time_delta_threshold _ _ Hth).
  f_equal; lia.
Qed.

Lemma windows_summary w f : forall g st r st',
  Scraper.windows w f g st = (r, st') ->
  exists evs,
    history st' = history st ++ evs /\
    threshold_value (config st') = threshold_value (config st) /\
    Config.total (config st') = Config.total (config st) + accepted_rows evs /\
    Forall (Forall complete_row) (csv_rows evs) /\
    workings evs
      = map (nth_window (config st) g) (seq 0 (List.length (workings evs))) /\
    (List.length (workings evs) <= List.length (nows evs))%nat /\
    (forall i, (i < List.length (workings evs))%nat ->
       candidate (config st) g + Z.of_nat i * Config.time_delta (config st)
       < nth i (nows evs) 0) /\
    (r = Done tt ->
     List.length (nows evs) = S (List.length (workings evs)) /\
     nth (List.length (workings evs)) (nows evs) 0
     <= candidate (config st) g
        + Z.of_nat (List.length (workings evs)) * Config.time_delta (config st)) /\
    (forall t, In t (nows evs) -> exists h, t = datetime_now w h) /\
    (forall i, (i < List.length (workings evs))%nat ->
       in_range (candidate (config st) g
                 + Z.of_nat (S i) * Config.time_delta (config st)) = true) /\
    (forall e, r = Raised e -> e = OverflowError).
Proof.
  induction f as [|f IH]; intros g st r st' H.
  { inversion H; subst. exists []. rewrite app_nil_r. cbn.
    repeat split; auto; try lia; try discriminate;
      try (now intros t []); unfold accepted_rows; cbn; lia. }
  cbn [Scraper.windows] in H. unfold bind in H.
  destruct (Scraper.window w f g st) as [rw st1] eqn:Hw.
  destruct (window_summary _ _ _ _ _ _ Hw)
    as (evs1 & Hh1 & Hth1 & Htot1 & Hrows1 & Hclk1 & Hcase).
  destruct rw as [[g1|]|e|].
  - (* a window was walked, the loop goes on *)
    destruct Hcase as (Hn1 & -> & Hw1 & Hlt & Hin).
    destruct (IH _ _ _ _ H)
      as (evs2 & Hh2 & Hth2 & Htot2 & Hrows2 & Hw2 & Hlen2 & Hlt2 & Hend2
          & Hclk2 & Hin2 & Hexn2).
    exists (evs1 ++ evs2).
    rewrite Hh2, Hh1, <- app_assoc.
    rewrite workings_app, nows_app, csv_rows_app, accepted_rows_app, Hw1, Hn1.
    cbn [app List.length].
    split; [reflexivity|]. split; [congruence|]. split; [lia|].
    split; [apply Forall_app; auto|].
    split; [|split; [|split; [|split; [|split; [|split]]]]].
    + rewrite Hw2 at 1. cbn [seq map].
      rewrite <- seq_shift, map_map. f_equal.
      apply map_ext. intros i. apply nth_window_suspended, Hth1.
    + lia.
    + intros [|i] Hi; cbn [nth].
      * lia.
      * specialize (Hlt2 i ltac:(lia)). cbn [candidate] in Hlt2.
        rewrite (time_delta_threshold _ _ Hth1) in Hlt2. lia.
    + intros Hr. destruct (Hend2 Hr) as [Hl Hle].
      split; [lia|]. cbn [nth]. cbn [candidate] in Hle.
      rewrite (time_delta_threshold _ _ Hth1) in Hle. lia.
    + intros t [<- | Hin']; [eauto | apply Hclk2, Hin'].
    + intros [|i] Hi.
      * rewrite <- Hin. f_equal. lia.
      * specialize (Hin2 i ltac:(lia)). cbn [candidate] in Hin2.
        rewrite (time_delta_threshold _ _ Hth1) in Hin2.
        rewrite <- Hin2. f_equal. lia.
    + exact Hexn2.
  - (* the generator ended *)
    destruct Hcase as (Hn1 & Hw1 & Hge). inversion H; subst.
    exists evs1. rewrite Hw1, Hn1. cbn.
    repeat split; auto; try lia; try discriminate.
    intros t [<- | []]. eauto.
  - (* a date left the range of datetimes *)
    destruct Hcase as (-> & Hw1 & _). inversion H; subst.
    exists evs1. rewrite Hw1. cbn.
    repeat split; auto; try lia; try discriminate.
    + intros t Ht. exists (trace st). now apply Hclk1.
    + intros e He. now inversion He.
  - (* out of fuel inside the window *)
    destruct Hcase as (Hn1 & Hw1 & Hlt & Hin). inversion H; subst.
    exists evs1. rewrite Hw1, Hn1. cbn.
    repeat split; auto; try lia; try discriminate.
    + intros [|i] Hi; [cbn; lia | lia].
    + intros t [<- | []]. eauto.
    + intros [|i] Hi; [|lia]. rewrite <- Hin. f_equal.
      destruct (Config.time_delta (config st)); reflexivity.
Qed.

(** ** C2: a commit that cannot be persisted *)

Lemma commit_failed_cons_silent e evs :
  dumps [e] = [] -> commit_failed (e :: evs) = commit_failed evs.
Proof.
  intros H. change (e :: evs) with ([e] ++ evs).
  now rewrite commit_failed_app, (commit_failed_silent _ H).
Qed.

Lemma window_commit_failure w f g st r st' evs :
  Scraper.window w f g st = (r, st') ->
  history st' = history st ++ evs ->
  commit_failed evs = true ->
  r = Done (Some (Scraper.Suspended (candidate (config st) g))) /\
  exists pre o,
    evs = pre ++ [EvDump o;
                  EvNoArticles
                    (date_to_string (candidate (config st) g))
                    (date_to_string (candidate (config st) g
                                     + Config.time_delta (config st)))] /\
    o <> DumpOk /\ commit_failed pre = false.
Proof.
  intros H Hh Hfail. apply window_inv in H.
  destruct H as [_ _ -> _ | rf st1 ds de _ Hrun Hr _ _ | _ _ -> | _ _ _ ->].
  - rewrite history_log_event in Hh. apply app_inv_head in Hh. subst evs.
    discriminate.
  - destruct (pages_summary _ _ _ _ _ _ _ _ Hrun) as (pevs & Hhp & _).
    destruct (pages_disk _ _ _ _ _ _ _ _ _ Hrun Hhp) as [_ Hpf].
    rewrite !history_log_event, <- !app_assoc in Hhp. cbn [app] in Hhp.
    assert (Hpevs : commit_failed pevs = true).
    { destruct rf as [[]|e|]; destruct Hr as [_ ->].
      - rewrite Hhp in Hh. apply app_inv_head in Hh. subst evs.
        now rewrite !commit_failed_cons_silent in Hfail.
      - rewrite history_log_event, Hhp, <- app_assoc in Hh.
        apply app_inv_head in Hh. subst evs.
        rewrite commit_failed_app, !commit_failed_cons_silent in Hfail
          by reflexivity.
        now rewrite orb_false_r in Hfail.
      - rewrite Hhp in Hh. apply app_inv_head in Hh. subst evs.
        now rewrite !commit_failed_cons_silent in Hfail. }
    destruct (Hpf Hpevs) as (-> & pre & y & rows & o & -> & Ho & Hpre & _).
    destruct Hr as [-> ->]. split; [reflexivity|].
    rewrite history_log_event, Hhp, <- !app_assoc in Hh.
    apply app_inv_head in Hh. subst evs.
    exists (EvNow (datetime_now w (trace st))
            :: EvWorking (date_to_string ds) (date_to_string de)
            :: pre ++ [EvCsv y rows]), o.
    split; [cbn [app]; rewrite <- !app_assoc; reflexivity|].
    split; [exact Ho|].
    rewrite !commit_failed_cons_silent, commit_failed_app, Hpre by reflexivity.
    reflexivity.
  - rewrite <- (app_nil_r (history st)) in Hh at 1.
    apply app_inv_head in Hh. subst evs. discriminate.
  - rewrite history_log_event in Hh. apply app_inv_head in Hh. subst evs.
    discriminate.
Qed.

(** C2, as amended.  When [Config.update] cannot write the state file it
    raises to its caller, with [total] and [last_scraped_date] already
    changed in memory and the file left as it was or truncated.  In the
    page loop the exception ends the window at once: the failed dump is
    the last thing the page loop does.  [Scraper.begin] catches it with
    every other exception raised inside the [try]: the warning is logged
    right after the failed dump and the turn of the loop ends normally,
    the date generator suspended at the start of this window, so that the
    loop goes on with its next turn.  A failed dump never halts the run:
    the only exception that leaves [begin] is the [OverflowError] of the
    date arithmetic outside the [try]. *)
Theorem C2_persistence_failure_is_caught w :
  (forall n d st,
      json_dump w (trace st) <> DumpOk ->
      fst (Config.update w n d st) = Raised OSError /\
      config (snd (Config.update w n d st)) = Config.updated (config st) n d /\
      (config_file (snd (Config.update w n d st)) = config_file st \/
       config_file (snd (Config.update w n d st)) = None)) /\
  (forall fuel ds de st evs,
      history (snd (Scraper.fetch_articles_in_date_range w fuel ds de st))
        = history st ++ evs ->
      commit_failed evs = true ->
      fst (Scraper.fetch_articles_in_date_range w fuel ds de st)
        = Raised OSError /\
      exists pre o, evs = pre ++ [EvDump o] /\ o <> DumpOk /\
                    commit_failed pre = false) /\
  (forall fuel g st evs,
      history (snd (Scraper.window w fuel g st)) = history st ++ evs ->
      commit_failed evs = true ->
      fst (Scraper.window w fuel g st)
        = Done (Some (Scraper.Suspended (candidate (config st) g))) /\
      (exists pre o,
          evs = pre ++ [EvDump o;
                        EvNoArticles
                          (date_to_string (candidate (config st) g))
                          (date_to_string (candidate (config st) g
                                           + Config.time_delta (config st)))] /\
          o <> DumpOk /\ commit_failed pre = false) /\
      Scraper.windows w (S fuel) g st
        = Scraper.windows w fuel
            (Scraper.Suspended (candidate (config st) g))
            (snd (Scraper.window w fuel g st))) /\
  (forall fuel st e,
      fst (Scraper.begin w fuel st) = Raised e -> e = OverflowError).
Proof.
  split; [|split; [|split]].
  - intros n d st Hd. unfold Config.update.
    destruct (json_dump w (trace st)); [congruence| |]; simpl; auto.
  - intros fuel ds de st evs Hh Hfail.
    unfold Scraper.fetch_articles_in_date_range in *.
    destruct (Scraper.pages w fuel ds de Scraper.Fresh st) as [r st'] eqn:Hrun.
    cbn [fst snd] in *.
    destruct (pages_disk _ _ _ _ _ _ _ _ _ Hrun Hh) as [_ Hpf].
    destruct (Hpf Hfail) as (-> & pre & y & rows & o & -> & Ho & Hpre & _).
    split; [reflexivity|]. exists (pre ++ [EvCsv y rows]), o.
    rewrite <- app_assoc. split; [reflexivity|]. split; [exact Ho|].
    rewrite commit_failed_app, Hpre. reflexivity.
  - intros fuel g st evs Hh Hfail.
    destruct (Scraper.window w fuel g st) as [r st'] eqn:Hrun.
    cbn [fst snd] in *.
    destruct (window_commit_failure _ _ _ _ _ _ _ Hrun Hh Hfail) as (-> & Hevs).
    split; [reflexivity|]. split; [exact Hevs|].
    cbn [Scraper.windows]. unfold bind. rewrite Hrun. reflexivity.
  - intros fuel st e. unfold Scraper.begin.
    destruct (Scraper.windows w fuel Scraper.Fresh st) as [r st'] eqn:Hrun.
    destruct (windows_summary _ _ _ _ _ _ Hrun)
      as (evs & _ & _ & _ & _ & _ & _ & _ & _ & _ & _ & Hexn).
    cbn [fst]. apply Hexn.
Qed.

(** The first dump of a run fails on [open].  [update] raises with the
    memory changed and the file as it was; the page loop of the first
    window ends on the failed dump; the turn of [begin] for that window
    ends normally, the warning logged after the failed dump, and the loop
    goes on from the generator suspended at 01-01-2020. *)
Lemma C2_persistence_failure_witness :
  let w := Sample.world (Sample.serve (Sample.one_page_of
                           [Sample.article "headline" "body"]))
             stdlib_logger_log (Sample.first_dump_fails OpenFails)
             (Sample.clock_at 737427) in
  (fst (Config.update w 1 (Sample.day 737426) Sample.state0) = Raised OSError /\
   config (snd (Config.update w 1 (Sample.day 737426) Sample.state0))
     = Config.updated (config Sample.state0) 1 (Sample.day 737426) /\
   (config_file (snd (Config.update w 1 (Sample.day 737426) Sample.state0))
      = config_file Sample.state0 \/
    config_file (snd (Config.update w 1 (Sample.day 737426) Sample.state0))
      = None)) /\
  (fst (Scraper.fetch_articles_in_date_range w 3 (Sample.day 737425)
          (Sample.day 737426) Sample.state0) = Raised OSError /\
   exists pre o,
     history (snd (Scraper.fetch_articles_in_date_range w 3 (Sample.day 737425)
                     (Sample.day 737426) Sample.state0))
       = pre ++ [EvDump o] /\ o <> DumpOk /\ commit_failed pre = false) /\
  (fst (Scraper.window w 3 Scraper.Fresh Sample.state0)
     = Done (Some (Scraper.Suspended (Sample.day 737425))) /\
   (exists pre o,
       history (snd (Scraper.window w 3 Scraper.Fresh Sample.state0))
       = pre ++ [EvDump o; EvNoArticles (DMY 737425) (DMY 737426)] /\
       o <> DumpOk /\ commit_failed pre = false) /\
   Scraper.windows w 4 Scraper.Fresh Sample.state0
     = Scraper.windows w 3 (Scraper.Suspended (Sample.day 737425))
         (snd (Scraper.window w 3 Scraper.Fresh Sample.state0))).
Proof.
  intros w.
  split; [|split].
  - apply (proj1 (C2_persistence_failure_is_caught w)).
    vm_compute. discriminate.
  - apply (proj1 (proj2 (C2_persistence_failure_is_caught w))
             3%nat (Sample.day 737425) (Sample.day 737426) Sample.state0).
    + reflexivity.
    + vm_compute. reflexivity.
  - apply (proj1 (proj2 (proj2 (C2_persistence_failure_is_caught w)))
             3%nat Scraper.Fresh Sample.state0).
    + reflexivity.
    + vm_compute. reflexivity.
Defined.

(** C2 as stated fails.  The first dump of the run fails.  [update]
    raises, but the document in memory has the new total and date while
    the file keeps the old ones; the run does not halt: [begin] returns
    normally, having fetched two more pages, committed the next window and
    logged one warning. *)
Lemma C2_counterexample :
  let w := Sample.world (Sample.serve (Sample.one_page_of
                           [Sample.article "headline" "body"]))
             stdlib_logger_log (Sample.first_dump_fails OpenFails)
             (Sample.clock_at 737427) in
  let failed := Config.update w 1 (Sample.day 737426) Sample.state0 in
  let run := Scraper.begin w 5 Sample.state0 in
  (fst failed = Raised OSError /\
   Config.total (config (snd failed)) = 1 /\
   Config.last_scraped_date (config (snd failed)) = Sample.day 737426 /\
   config_file (snd failed) = Some Sample.configs0 /\
   config_file (snd failed) <> Some (config (snd failed))) /\
  (fst run = Done tt /\
   dumps (history (snd run)) = [OpenFails; DumpOk] /\
   warnings (history (snd run)) = [(DMY 737425, DMY 737426)] /\
   workings (history (snd run))
     = [(DMY 737425, DMY 737426); (DMY 737426, DMY 737427)] /\
   exists pre post,
     history (snd run) = pre ++ EvDump OpenFails :: post /\
     gets post = [0; 5] /\ dumps post = [DumpOk]).
Proof.
  cbv zeta. split.
  - repeat split. vm_compute. discriminate.
  - split; [vm_compute; reflexivity|]. split; [vm_compute; reflexivity|].
    split; [vm_compute; reflexivity|]. split; [vm_compute; reflexivity|].
    vm_compute. eexists [_; _; _; _], _.
    split; [reflexivity|]. split; reflexivity.
Qed.

(** ** C10: what is stored and what reaches the sink *)

(** C10.  Every item of an [ItemsModel] has a headline and a content that
    are there and not empty: the model starts empty, [add] keeps the
    property whatever item it is given, so it holds of what
    [Processor.__call__] returns and of the rows made from it; and in any
    run of [begin] every row handed to the sink has its headline and
    content columns filled. *)
Theorem C10_only_complete_articles_are_stored w :
  Forall complete (ItemsModel.items ItemsModel.init) /\
  (forall self item self',
      Forall complete (ItemsModel.items self) ->
      ItemsModel.add self item = Ok self' ->
      Forall complete (ItemsModel.items self')) /\
  (forall items out,
      Processor.call w items = Ok out ->
      Forall complete (ItemsModel.items out) /\
      Forall complete_row (ItemsModel.to_list out)) /\
  (forall fuel st,
      exists evs,
        history (snd (Scraper.begin w fuel st)) = history st ++ evs /\
        Forall (Forall complete_row) (csv_rows evs)).
Proof.
  split; [constructor|]. split; [apply add_preserves_complete|]. split.
  - intros items out H. pose proof (processor_call_complete _ _ _ H) as Hc.
    split; [exact Hc | apply to_list_complete, Hc].
  - intros fuel st. unfold Scraper.begin.
    destruct (Scraper.windows w fuel Scraper.Fresh st) as [r st'] eqn:Hrun.
    destruct (windows_summary _ _ _ _ _ _ Hrun) as (evs & Hh & _ & _ & Hrows & _).
    exists evs. split; [exact Hh | exact Hrows].
Qed.

Lemma C10_only_complete_articles_witness :
  let w := Sample.world Sample.api_down stdlib_logger_log Sample.always_ok
             (Sample.clock_at 737427) in
  exists out,
    Processor.call w (PList [Sample.article "" "body";
                             Sample.article "headline" "body";
                             Sample.article "headline" "<p></p>"]) = Ok out /\
    List.length (ItemsModel.items out) = 1%nat /\
    Forall complete (ItemsModel.items out) /\
    Forall complete_row (ItemsModel.to_list out).
Proof.
  intros w. eexists. split; [reflexivity|]. split; [reflexivity|].
  apply (proj1 (proj2 (proj2 (C10_only_complete_articles_are_stored w)))
           (PList [Sample.article "" "body";
                   Sample.article "headline" "body";
                   Sample.article "headline" "<p></p>"])).
  reflexivity.
Defined.

(** ** C5: the Cursor after committed windows *)

Lemma pages_done_file w f : forall ds de g st st' evs,
  Scraper.pages w f ds de g st = (Done tt, st') ->
  history st' = history st ++ evs ->
  dumps evs <> [] ->
  config_file st' = Some (config st').
Proof.
  induction f as [|f IH]; intros ds de g st st' evs H Hh Hd; [discriminate|].
  apply pages_turn in H.
  destruct H as [e st1 Hrq Hr _ | response st1 Hrq Hex _ ->
                | response st1 e Hrq _ Hr _
                | response st1 items processed Hrq _ _ _ _ _ Hr _
                | response st1 items processed Hrq _ _ Hpr Hcsv Hok Hrest
                | response st1 items processed e written Hrq _ _ _ _ Hr _];
    try discriminate.
  - destruct (call_frame _ _ _ _ _ _ _ Hrq) as (_ & _ & _ & _ & evs1 & Hh1 & Hev).
    rewrite Hh1 in Hh. apply app_inv_head in Hh. subst evs1.
    apply fetch_events_silent in Hev. tauto.
  - destruct (pages_summary _ _ _ _ _ _ _ _ Hrest) as (evs2 & Hh2 & _ & Hc2 & Hf2 & _).
    destruct (dumps evs2) eqn:Hd2.
    + destruct (Hf2 eq_refl) as [Hfile _]. rewrite Hfile, Hc2.
      rewrite (commit_page_file _ _ _ _ _ Hcsv), Hok.
      now rewrite (commit_page_config _ _ _ _ _ Hcsv).
    + eapply IH; [exact Hrest | exact Hh2 | congruence].
Qed.

Lemma window_committed w f g st g1 st1 evs :
  Scraper.window w f g st = (Done (Some g1), st1) ->
  history st1 = history st ++ evs ->
  warnings evs = [] ->
  dumps evs <> [] ->
  g1 = Scraper.Suspended (candidate (config st) g) /\
  config st1 = Config.updated (config st) (accepted_rows evs)
                 (candidate (config st) g + Config.time_delta (config st)) /\
  config_file st1 = Some (config st1) /\
  List.length (workings evs) = 1%nat.
Proof.
  intros H Hh Hwarn Hd. apply window_inv in H.
  destruct H as [_ Hr _ _ | rf st2 ds de Hlt Hrun Hr _ _ | _ Hr _ | _ _ Hr _];
    try discriminate.
  destruct (pages_summary _ _ _ _ _ _ _ _ Hrun)
    as (pevs & Hhp & Hpe & Hc & Hf & _).
  destruct (page_events_silent _ Hpe) as (_ & Hw & Hwn).
  rewrite !history_log_event, <- !app_assoc in Hhp. cbn [app] in Hhp.
  destruct rf as [[]|e|]; destruct Hr as [Hr Hst]; [| |discriminate].
  - inversion Hr; subst g1. subst st2.
    rewrite Hhp in Hh. apply app_inv_head in Hh. subst evs.
    cbn [dumps workings] in *. split; [reflexivity|].
    assert (Hfile : config_file st1 = Some (config st1)).
    { eapply pages_done_file; [exact Hrun | | exact Hd].
      rewrite !history_log_event, <- !app_assoc. exact Hhp. }
    rewrite Hw. repeat split; auto.
    rewrite Hc. destruct (dumps pevs); [congruence|]. reflexivity.
  - exfalso. subst st1. rewrite history_log_event, Hhp, <- app_assoc in Hh.
    apply app_inv_head in Hh. subst evs.
    cbn [app warnings] in Hwarn. rewrite warnings_app in Hwarn.
    apply app_eq_nil in Hwarn. destruct Hwarn as [_ Hwarn]. discriminate.
Qed.

Lemma committed_turns_spec w n g st g' st' :
  committed_turns w n g st g' st' ->
  threshold_value (config st') = threshold_value (config st) /\
  candidate (config st') g'
    = candidate (config st) g + Z.of_nat n * Config.time_delta (config st) /\
  (exists evs,
      history st' = history st ++ evs /\
      Config.total (config st') = Config.total (config st) + accepted_rows evs /\
      List.length (workings evs) = n) /\
  (n <> 0%nat ->
   last_scraped_date_value (config st')
     = Some (date_to_string (candidate (config st') g')) /\
   config_file st' = Some (config st')).
Proof.
  induction 1 as [g st | n fuel g st g1 st1 evs g2 st2 Hw Hh Hwarn Hd Hrest IH].
  - split; [reflexivity|]. split; [lia|]. split; [|congruence].
    exists []. rewrite app_nil_r. repeat split. unfold accepted_rows; cbn; lia.
  - destruct (window_committed _ _ _ _ _ _ _ Hw Hh Hwarn Hd)
      as (-> & Hc & Hfile & Hlen).
    destruct IH as (Hth & Hcand & (evs2 & Hh2 & Htot2 & Hlen2) & Hlast).
    assert (Hth1 : threshold_value (config st1) = threshold_value (config st))
      by (rewrite Hc; reflexivity).
    assert (Hdelta : Config.time_delta (config st1) = Config.time_delta (config st))
      by (apply time_delta_threshold, Hth1).
    split; [congruence|]. split; [|split].
    + rewrite Hcand. cbn [candidate]. rewrite Hdelta. lia.
    + exists (evs ++ evs2). rewrite Hh2, Hh, <- app_assoc.
      split; [reflexivity|]. rewrite accepted_rows_app, workings_app, length_app.
      split; [|lia]. rewrite Htot2, Hc. cbn. unfold Config.total. lia.
    + intros _. destruct n as [|n].
      * inversion Hrest; subst. split; [|exact Hfile].
        rewrite Hc at 1. cbn [Config.updated last_scraped_date_value candidate].
        now rewrite Hdelta.
      * apply Hlast. discriminate.
Qed.

Lemma midnight_string_to_date s : midnight (string_to_date s).
Proof. destruct s. unfold midnight, string_to_date. apply Z.mod_mul. discriminate. Qed.

Lemma midnight_plus_days d n k :
  midnight d -> midnight (d + k * timedelta_days n).
Proof.
  unfold midnight, timedelta_days. intros H.
  replace (d + k * (n * us_per_day)) with (d + (k * n) * us_per_day) by lia.
  rewrite Z.mod_add by discriminate. exact H.
Qed.

(** C5.  Start from a fresh Cursor: no date scraped yet, nothing counted.
    After N turns of the loop of [begin] in a row, each a window walked to
    its end without an exception and with at least one page committed,
    [last_scraped_date] is the start date plus N window widths, [total] is
    the number of rows handed to the sink, and (when N is not 0) the state
    file holds that same Cursor. *)
Theorem C5_cursor_after_committed_windows w N st g' st' :
  last_scraped_date_value (config st) = None ->
  Config.total (config st) = 0 ->
  committed_turns w N Scraper.Fresh st g' st' ->
  Config.last_scraped_date (config st')
    = string_to_date (start_date_value (config st))
      + Z.of_nat N * Config.time_delta (config st) /\
  (exists evs,
      history st' = history st ++ evs /\
      Config.total (config st') = accepted_rows evs /\
      List.length (workings evs) = N) /\
  (N <> 0%nat -> config_file st' = Some (config st')).
Proof.
  intros Hfresh Hzero Hturns.
  destruct (committed_turns_spec _ _ _ _ _ _ Hturns)
    as (Hth & Hcand & (evs & Hh & Htot & Hlen) & Hlast).
  assert (Hstart : candidate (config st) Scraper.Fresh
                   = string_to_date (start_date_value (config st))).
  { cbn. unfold Config.last_scraped_date. now rewrite Hfresh. }
  split; [|split].
  - destruct N as [|N].
    + inversion Hturns; subst. rewrite <- Hstart. cbn. lia.
    + destruct (Hlast ltac:(discriminate)) as [Hval _].
      unfold Config.last_scraped_date at 1. rewrite Hval, Hcand, Hstart.
      apply string_to_date_to_string.
      unfold Config.time_delta. apply midnight_plus_days, midnight_string_to_date.
  - exists evs. split; [exact Hh|]. split; [lia | exact Hlen].
  - intros HN. apply Hlast, HN.
Qed.

Lemma C5_cursor_witness :
  let w := Sample.world (Sample.serve (Sample.one_page_of Sample.seven_articles))
             stdlib_logger_log Sample.always_ok (Sample.clock_at 737428) in
  let st1 := snd (Scraper.window w 2 Scraper.Fresh Sample.state0) in
  Config.last_scraped_date (config st1)
    = string_to_date (start_date_value (config Sample.state0))
      + Z.of_nat 1 * Config.time_delta (config Sample.state0) /\
  (exists evs,
      history st1 = history Sample.state0 ++ evs /\
      Config.total (config st1) = accepted_rows evs /\
      List.length (workings evs) = 1%nat) /\
  (1%nat <> 0%nat -> config_file st1 = Some (config st1)).
Proof.
  intros w st1.
  apply (C5_cursor_after_committed_windows w 1 Sample.state0
           (Scraper.Suspended (Sample.day 737425)) st1).
  - reflexivity.
  - reflexivity.
  - apply (committed_next w 0 2 Scraper.Fresh Sample.state0
             (Scraper.Suspended (Sample.day 737425)) st1 (history st1)).
    + vm_compute. reflexivity.
    + reflexivity.
    + vm_compute. reflexivity.
    + vm_compute. discriminate.
    + apply committed_none.
Defined.

(** ** C8: the Window Walker *)

Lemma pages_fuel_mono w ds de : forall f g st r st',
  Scraper.pages w f ds de g st = (r, st') ->
  r <> OutOfFuel ->
  forall f', (f <= f')%nat -> Scraper.pages w f' ds de g st = (r, st').
Proof.
  induction f as [|f IH]; intros g st r st' H Hr f' Hle.
  { inversion H; congruence. }
  destruct f' as [|f']; [lia|].
  cbn [Scraper.pages] in *. unfold bind in *.
  destruct (Scraper.page w ds de g st) as [[[g1|]|e|] st1]; auto.
  apply IH; auto. lia.
Qed.

Lemma window_fuel_mono w f g st r st' :
  Scraper.window w f g st = (r, st') ->
  r <> OutOfFuel ->
  forall f', (f <= f')%nat -> Scraper.window w f' g st = (r, st').
Proof.
  unfold Scraper.window, Scraper.date_iterable, bind, get_config, Scraper.now.
  destruct (Scraper.date_iterable_current (config st) g) as [ds|e];
    cbn [lift ret raise]; [|auto].
  unfold ret.
  destruct (ds <? datetime_now w (trace st)); [|auto].
  unfold datetime_add.
  destruct (in_range _); cbn [lift ret raise]; [|auto].
  unfold try_except, Scraper.fetch_articles_in_date_range,
    Scraper.logger_info_working, Scraper.logger_warning_no_articles, ret.
  cbn [fst snd].
  intros H Hr f' Hle.
  destruct (Scraper.pages w f ds _ Scraper.Fresh _) as [rf st1] eqn:Hrun.
  assert (Hrf : rf <> OutOfFuel).
  { intros ->. inversion H; subst. congruence. }
  rewrite (pages_fuel_mono _ _ _ _ _ _ _ _ Hrun Hrf f' Hle). exact H.
Qed.

Lemma windows_fuel_mono w : forall f g st r st',
  Scraper.windows w f g st = (r, st') ->
  r <> OutOfFuel ->
  forall f', (f <= f')%nat -> Scraper.windows w f' g st = (r, st').
Proof.
  induction f as [|f IH]; intros g st r st' H Hr f' Hle.
  { inversion H; congruence. }
  destruct f' as [|f']; [lia|].
  cbn [Scraper.windows] in *. unfold bind in *.
  destruct (Scraper.window w f g st) as [rw st1] eqn:Hw.
  assert (Hrw : rw <> OutOfFuel).
  { intros ->. inversion H; subst. congruence. }
  rewrite (window_fuel_mono _ _ _ _ _ _ Hw Hrw f' ltac:(lia)).
  destruct rw as [[g1|]|e|]; auto.
  apply IH; auto. lia.
Qed.

(** The datetimes there are lie between the first midnight of year 1 and
    the last midnight of year 9999 plus a day. *)
Lemma in_range_bounds d :
  in_range d = true <-> us_per_day <= d < (max_ordinal + 1) * us_per_day.
Proof.
  unfold in_range, toordinal, max_ordinal, us_per_day.
  rewrite andb_true_iff, Z.leb_le, Z.leb_le.
  pose proof (Z.div_mod d 86400000000 ltac:(lia)).
  pose proof (Z.mod_pos_bound d 86400000000 ltac:(lia)).
  split; intros [? ?]; split; nia.
Qed.

Lemma pages_limit w f ds de g st r st' :
  Scraper.pages w f ds de g st = (r, st') ->
  limit_value (config st') = limit_value (config st).
Proof.
  intros H. destruct (pages_summary _ _ _ _ _ _ _ _ H) as (evs & _ & _ & Hc & _).
  rewrite Hc. destruct (dumps evs); reflexivity.
Qed.

Lemma window_limit w f g st r st' :
  Scraper.window w f g st = (r, st') ->
  limit_value (config st') = limit_value (config st).
Proof.
  intros H. apply window_inv in H.
  destruct H as [_ _ -> _ | rf st1 ds de _ Hrun Hr _ _ | _ _ -> | _ _ _ ->];
    try reflexivity.
  pose proof (pages_limit _ _ _ _ _ _ _ _ Hrun) as Hl.
  destruct rf as [[]|e|]; destruct Hr as [_ ->]; exact Hl.
Qed.

(** With a window width that is not zero the loop of [begin] stops: the
    dates it walks move by a day or more at every turn, and cannot leave
    the range of datetimes without an [OverflowError]. *)
Lemma windows_stop w :
  page_loops_end w ->
  forall m g st,
    0 < limit_value (config st) ->
    (0 < threshold_value (config st) /\
     (max_ordinal + 1) * us_per_day
     <= candidate (config st) g + Z.of_nat m * Config.time_delta (config st)) \/
    (threshold_value (config st) < 0 /\
     candidate (config st) g + Z.of_nat m * Config.time_delta (config st)
     < us_per_day) ->
    exists f, fst (Scraper.windows w f g st) <> OutOfFuel.
Proof.
  intros Hpages.
  induction m as [|m IH]; intros g st Hlim Hdir;
    assert (Hsign :
              (0 < Config.time_delta (config st) /\
               (max_ordinal + 1) * us_per_day
               <= candidate (config st) g
                  + Z.of_nat _ * Config.time_delta (config st)) \/
              (Config.time_delta (config st) < 0 /\
               candidate (config st) g
               + Z.of_nat _ * Config.time_delta (config st) < us_per_day))
      by (unfold Config.time_delta, timedelta_days, us_per_day in *;
          destruct Hdir as [[? ?]|[? ?]]; [left | right]; split;
          try eassumption; lia).
  - exists 1%nat. cbn [Scraper.windows]. unfold bind.
    destruct (Scraper.window w 0 g st) as [rw st1] eqn:Hw.
    apply window_inv in Hw.
    destruct Hw as [_ -> _ _ | rf st2 ds de _ _ _ Hin _ | _ -> _ | _ _ -> _];
      try discriminate.
    apply in_range_bounds in Hin. unfold de, ds in Hin. lia.
  - destruct (Scraper.window w 0 g st) as [rw0 st0] eqn:Hw0.
    pose proof Hw0 as Hi. apply window_inv in Hi.
    destruct Hi as [_ -> _ _ | rf st2 ds de Hlt _ _ Hin Hcur | _ -> _ | _ _ -> _].
    1,3,4: exists 1%nat; cbn [Scraper.windows]; unfold bind; rewrite Hw0;
           discriminate.
    destruct (Hpages ds de
                (log_event (EvWorking (date_to_string ds) (date_to_string de))
                   (log_event (EvNow (datetime_now w (trace st))) st)) Hlim)
      as (f1 & Hf1).
    destruct (Scraper.window w f1 g st) as [rw st1] eqn:Hw.
    assert (Hrw : rw = Done (Some (Scraper.Suspended ds))).
    { pose proof Hw as Hw'. apply window_inv in Hw'.
      destruct Hw' as [Hle _ _ _ | rf' st2' ds' de' _ Hrun Hr _ _
                      | Hov _ _ | _ Hov _ _].
      - unfold ds in Hlt. lia.
      - subst ds' de'. fold ds de in Hrun. rewrite Hrun in Hf1. cbn in Hf1.
        destruct rf' as [[]|e|]; [| |congruence]; destruct Hr as [-> _];
          reflexivity.
      - rewrite Hcur in Hov. discriminate.
      - unfold de, ds in Hin. rewrite Hin in Hov. discriminate. }
    subst rw.
    destruct (window_summary _ _ _ _ _ _ Hw) as (evs & _ & Hth1 & _).
    pose proof (window_limit _ _ _ _ _ _ Hw) as Hl1.
    destruct (IH (Scraper.Suspended ds) st1) as (f2 & Hf2).
    + rewrite Hl1. exact Hlim.
    + rewrite Hth1. cbn [candidate]. rewrite (time_delta_threshold _ _ Hth1).
      unfold ds. destruct Hdir as [[? ?]|[? ?]]; [left | right]; split;
        try assumption; lia.
    + exists (S (Nat.max f1 f2)). cbn [Scraper.windows]. unfold bind.
      rewrite (window_fuel_mono _ _ _ _ _ _ Hw ltac:(discriminate)
                 (Nat.max f1 f2) ltac:(lia)).
      destruct (Scraper.windows w f2 (Scraper.Suspended ds) st1)
        as [r2 st2'] eqn:Hrun2.
      cbn [fst] in Hf2.
      rewrite (windows_fuel_mono _ _ _ _ _ _ Hrun2 Hf2
                 (Nat.max f1 f2) ltac:(lia)).
      exact Hf2.
Qed.

(** Dates that stay a window width below the end of year 9999 never
    overflow. *)
Lemma windows_in_range w T f : forall g st r st',
  0 < threshold_value (config st) ->
  (forall h, datetime_now w h <= T) ->
  in_range (T + Config.time_delta (config st)) = true ->
  us_per_day <= candidate (config st) g ->
  (forall d, g = Scraper.Suspended d ->
             in_range (candidate (config st) g) = true) ->
  Scraper.windows w f g st = (r, st') ->
  forall e, r <> Raised e.
Proof.
  induction f as [|f IH]; intros g st r st' Hth Hclock HT Hlow Hsus H e.
  { inversion H; subst. discriminate. }
  assert (Hd : 0 < Config.time_delta (config st))
    by (unfold Config.time_delta, timedelta_days, us_per_day; lia).
  apply in_range_bounds in HT.
  cbn [Scraper.windows] in H. unfold bind in H.
  destruct (Scraper.window w f g st) as [rw st1] eqn:Hw.
  pose proof (window_summary _ _ _ _ _ _ Hw) as (evs & _ & Hth1 & _).
  apply window_inv in Hw.
  destruct Hw as [_ -> _ _ | rf st2 ds de Hlt Hrun Hr Hin _
                 | Hov -> _ | Hlt Hov -> _].
  - inversion H; subst. discriminate.
  - destruct rf as [[]|e'|]; destruct Hr as [-> ->].
    3:{ inversion H; subst. discriminate. }
    all: eapply IH; [| | | | | exact H];
      [ rewrite Hth1; exact Hth
      | exact Hclock
      | rewrite (time_delta_threshold _ _ Hth1); now apply in_range_bounds
      | cbn [candidate]; rewrite (time_delta_threshold _ _ Hth1);
        apply in_range_bounds in Hin; unfold de, ds in Hin; lia
      | intros d _; cbn [candidate];
        rewrite (time_delta_threshold _ _ Hth1); exact Hin ].
  - exfalso. destruct g as [|d]; [discriminate|].
    cbn [Scraper.date_iterable_current] in Hov. unfold datetime_add in Hov.
    change (d + Config.time_delta (config st))
      with (candidate (config st) (Scraper.Suspended d)) in Hov.
    rewrite (Hsus d eq_refl) in Hov. discriminate.
  - exfalso. specialize (Hclock (trace st)).
    assert (in_range (candidate (config st) g + Config.time_delta (config st))
            = true) by (apply in_range_bounds; lia).
    congruence.
Qed.

(** With a window width of zero the date generator stays where it is: as
    long as the clock is past the Cursor every turn of [begin] walks the
    same window again.  With the endpoint down every window is given up
    at its first fetch, so a run with fuel for [f] turns announces [f]
    windows and is still going. *)
Lemma windows_zero_width w f : forall g st,
  threshold_value (config st) = 0 ->
  in_range (candidate (config st) g) = true ->
  (forall h, candidate (config st) g < datetime_now w h) ->
  (forall ds de off, down_for w ds de off) ->
  fst (Scraper.windows w f g st) = OutOfFuel /\
  exists evs,
    history (snd (Scraper.windows w f g st)) = history st ++ evs /\
    workings evs = repeat (nth_window (config st) g 0) f.
Proof.
  induction f as [|f IH]; intros g st Hth Hin Hpast Hdown.
  { split; [reflexivity|]. exists []. now rewrite app_nil_r. }
  assert (Hd : Config.time_delta (config st) = 0)
    by (unfold Config.time_delta, timedelta_days; rewrite Hth; reflexivity).
  cbn [Scraper.windows]. unfold bind.
  destruct (Scraper.window w f g st) as [rw st1] eqn:Hw.
  destruct (window_summary _ _ _ _ _ _ Hw) as (evs & Hh & Hth1 & _ & _ & _ & Hcase).
  pose proof Hw as Hi. apply window_inv in Hi.
  destruct Hi as [Hge _ _ _ | rf st2 ds de _ Hrun Hr _ _ | Hov _ _ | _ Hov _ _].
  - specialize (Hpast (trace st)). lia.
  - destruct rf as [[]|e|]; destruct Hr as [-> ->].
    + (* the page loop cannot end normally: the endpoint is down *)
      exfalso. destruct f as [|f]; [discriminate|].
      apply pages_turn in Hrun.
      destruct (call_down_raises w ds de
                  (Scraper.offset_iterable
                     (config (log_event (EvWorking (date_to_string ds)
                                           (date_to_string de))
                                (log_event (EvNow (datetime_now w (trace st)))
                                   st))) Scraper.Fresh)
                  (log_event (EvWorking (date_to_string ds) (date_to_string de))
                     (log_event (EvNow (datetime_now w (trace st))) st))
                  (Hdown _ _ _)) as (e' & He').
      destruct Hrun as [e0 st3 Hrq Hr0 _ | response st3 Hrq
                       | response st3 e0 Hrq | response st3 items processed Hrq
                       | response st3 items processed Hrq
                       | response st3 items processed e0 written Hrq];
        rewrite Hrq in He'; discriminate.
    + destruct Hcase as (_ & _ & Hw1 & _).
      assert (Hc1 : config
                      (log_event (EvNoArticles (date_to_string ds)
                                    (date_to_string de)) st2)
                    = config st).
      { destruct f as [|f]; [discriminate|].
        apply pages_turn in Hrun.
        destruct (call_down_raises w ds de
                    (Scraper.offset_iterable
                       (config (log_event (EvWorking (date_to_string ds)
                                             (date_to_string de))
                                  (log_event (EvNow (datetime_now w (trace st)))
                                     st))) Scraper.Fresh)
                    (log_event (EvWorking (date_to_string ds) (date_to_string de))
                       (log_event (EvNow (datetime_now w (trace st))) st))
                    (Hdown _ _ _)) as (e' & He').
        destruct Hrun as [e0 st3 Hrq _ -> | response st3 Hrq
                         | response st3 e0 Hrq | response st3 items processed Hrq
                         | response st3 items processed Hrq
                         | response st3 items processed e0 written Hrq];
          rewrite Hrq in He'; try discriminate.
        destruct (call_frame _ _ _ _ _ _ _ Hrq) as (Hc & _). exact Hc. }
      set (st1 := log_event (EvNoArticles (date_to_string ds) (date_to_string de))
                    st2) in *.
      assert (Hcand : candidate (config st1) (Scraper.Suspended ds)
                      = candidate (config st) g).
      { cbn [candidate]. rewrite Hc1, Hd. unfold ds. lia. }
      destruct (IH (Scraper.Suspended ds) st1) as (Hr2 & evs2 & Hh2 & Hw2).
      * rewrite Hc1. exact Hth.
      * rewrite Hcand. exact Hin.
      * intros h. rewrite Hcand. apply Hpast.
      * exact Hdown.
      * split; [exact Hr2|]. exists (evs ++ evs2).
        rewrite Hh2, Hh, <- app_assoc. split; [reflexivity|].
        rewrite workings_app, Hw1, Hw2. cbn [repeat app]. f_equal. f_equal.
        unfold nth_window. rewrite Hcand, Hc1. reflexivity.
    + destruct Hcase as (_ & Hw1 & _). split; [reflexivity|].
      exists evs. cbn [snd]. split; [exact Hh|]. rewrite Hw1.
      destruct f as [|f]; [reflexivity|].
      (* with fuel left the page loop ends at once: the endpoint is down *)
      exfalso. apply pages_turn in Hrun.
      destruct (call_down_raises w ds de
                  (Scraper.offset_iterable
                     (config (log_event (EvWorking (date_to_string ds)
                                           (date_to_string de))
                                (log_event (EvNow (datetime_now w (trace st)))
                                   st))) Scraper.Fresh)
                  (log_event (EvWorking (date_to_string ds) (date_to_string de))
                     (log_event (EvNow (datetime_now w (trace st))) st))
                  (Hdown _ _ _)) as (e' & He').
      destruct Hrun as [e0 st3 Hrq Hr0 _ | response st3 Hrq
                       | response st3 e0 Hrq | response st3 items processed Hrq
                       | response st3 items processed Hrq
                       | response st3 items processed e0 written Hrq];
        rewrite Hrq in He'; discriminate.
  - exfalso. destruct g as [|d]; [discriminate|].
    cbn [Scraper.date_iterable_current] in Hov. unfold datetime_add in Hov.
    change (d + Config.time_delta (config st))
      with (candidate (config st) (Scraper.Suspended d)) in Hov.
    rewrite Hin in Hov. discriminate.
  - exfalso. rewrite Hd, Z.add_0_r, Hin in Hov. discriminate.
Qed.

Lemma call_no_attempts w ds de off st :
  Config.max_attempts (config st) <= 0 ->
  Requester.call w ds de off st = (Raised AllAttemptsFailed, st).
Proof.
  intros H. unfold Requester.call, bind, get_config, py_range.
  replace (Z.to_nat (Config.max_attempts (config st) + 1 - 1)) with 0%nat by lia.
  reflexivity.
Qed.

(** The page loops of a world that serves records at offset 0 only end at
    their second fetch. *)
Lemma page_loops_end_served w api :
  (forall ds de, served_by w ds de api) ->
  page_with_records w (api 0) ->
  (forall offset, offset <> 0 -> Scraper.exhausted w (api offset) = Ok true) ->
  page_loops_end w.
Proof.
  intros Hserved Hrec Hend ds de st Hlim.
  destruct (Z_lt_le_dec (Config.max_attempts (config st)) 1) as [Hno|Hmax].
  - exists 1%nat.
    destruct (Scraper.pages w 1 ds de Scraper.Fresh st) as [r st'] eqn:Hrun.
    apply pages_turn in Hrun.
    pose proof (call_no_attempts w ds de
                  (Scraper.offset_iterable (config st) Scraper.Fresh) st
                  ltac:(lia)) as Hcall.
    destruct Hrun as [e0 st1 Hrq -> _ | response st1 Hrq
                     | response st1 e0 Hrq | response st1 items processed Hrq
                     | response st1 items processed Hrq
                     | response st1 items processed e0 written Hrq];
      rewrite Hrq in Hcall; discriminate.
  - destruct (pages_drain w ds de api (Config.limit (config st)) (Hserved ds de)
                1%nat 2%nat Scraper.Fresh st eq_refl Hmax)
      as (evs & st' & Hrun & _).
    + intros i Hi. replace i with 0%nat by lia. exact Hrec.
    + apply Hend. cbn [Scraper.offset_iterable]. unfold Config.limit. lia.
    + lia.
    + exists 2%nat. rewrite Hrun. discriminate.
Qed.

(** C8, as amended.  In any run of [begin], the windows announced are,
    in order, the one that starts at the Cursor's [last_scraped_date] and
    then each one starting where the one before ended, every window one
    window width long.  The clock is read anew at every turn of the loop:
    the i-th window is only walked because its start was before the i-th
    reading, and when the run ends normally it is because the start of
    the next window was not before the reading taken at that turn.  The
    only exception that ends the run is the [OverflowError] of a date
    outside the years 1 to 9999.

    The sequence is finite when the window width is at least one day: the
    number of windows is bounded by the days left until the end of year
    9999, and by the days left until T for a clock that never passes T;
    and when the page loops end there is a fuel with which [begin] stops,
    and returns normally when the dates stay in range. *)
Theorem C8_window_walker w :
  (forall fuel st,
      exists evs,
        history (snd (Scraper.begin w fuel st)) = history st ++ evs /\
        workings evs
          = map (nth_window (config st) Scraper.Fresh)
                (seq 0 (List.length (workings evs))) /\
        (forall i, (i < List.length (workings evs))%nat ->
           Config.last_scraped_date (config st)
             + Z.of_nat i * Config.time_delta (config st)
           < nth i (nows evs) 0) /\
        (fst (Scraper.begin w fuel st) = Done tt ->
         List.length (nows evs) = S (List.length (workings evs)) /\
         nth (List.length (workings evs)) (nows evs) 0
         <= Config.last_scraped_date (config st)
            + Z.of_nat (List.length (workings evs))
              * Config.time_delta (config st)) /\
        (forall e, fst (Scraper.begin w fuel st) = Raised e ->
                   e = OverflowError) /\
        (0 < threshold_value (config st) ->
         Z.of_nat (List.length (workings evs))
         <= Z.max 0 (((max_ordinal + 1) * us_per_day
                      - Config.last_scraped_date (config st))
                     / Config.time_delta (config st))) /\
        (forall T,
            0 < threshold_value (config st) ->
            (forall h, datetime_now w h <= T) ->
            Z.of_nat (List.length (workings evs))
            <= Z.max 0 ((T - Config.last_scraped_date (config st))
                        / Config.time_delta (config st) + 1))) /\
  (forall st,
      0 < threshold_value (config st) ->
      0 < limit_value (config st) ->
      page_loops_end w ->
      exists fuel, fst (Scraper.begin w fuel st) <> OutOfFuel) /\
  (forall T st,
      0 < threshold_value (config st) ->
      0 < limit_value (config st) ->
      page_loops_end w ->
      in_range (Config.last_scraped_date (config st)) = true ->
      (forall h, datetime_now w h <= T) ->
      in_range (T + Config.time_delta (config st)) = true ->
      exists fuel, fst (Scraper.begin w fuel st) = Done tt).
Proof.
  assert (Hstop : forall st,
             0 < threshold_value (config st) ->
             0 < limit_value (config st) ->
             page_loops_end w ->
             exists fuel, fst (Scraper.windows w fuel Scraper.Fresh st)
                          <> OutOfFuel).
  { intros st Hth Hlim Hpages.
    apply (windows_stop w Hpages
             (Z.to_nat ((max_ordinal + 1) * us_per_day
                        - candidate (config st) Scraper.Fresh))
             Scraper.Fresh st Hlim).
    left. split; [exact Hth|].
    assert (Hd : us_per_day <= Config.time_delta (config st)).
    { unfold Config.time_delta, timedelta_days, us_per_day. lia. }
    unfold us_per_day in *.
    destruct (Z.le_gt_cases ((max_ordinal + 1) * 86400000000)
                            (candidate (config st) Scraper.Fresh)) as [Hle|Hgt].
    - nia.
    - rewrite Z2Nat.id by lia. nia. }
  split; [|split].
  - intros fuel st. unfold Scraper.begin.
    destruct (Scraper.windows w fuel Scraper.Fresh st) as [r st'] eqn:Hrun.
    destruct (windows_summary _ _ _ _ _ _ Hrun)
      as (evs & Hh & _ & _ & _ & Hw & Hlen & Hlt & Hend & Hclk & Hin & Hexn).
    exists evs. cbn [fst snd candidate] in *.
    split; [exact Hh|]. split; [exact Hw|]. split; [exact Hlt|].
    split; [exact Hend|]. split; [exact Hexn|].
    split.
    + intros Hth.
      assert (Hd : 0 < Config.time_delta (config st)).
      { unfold Config.time_delta, timedelta_days, us_per_day. lia. }
      destruct (List.length (workings evs)) as [|n] eqn:Hn; [lia|].
      specialize (Hin n ltac:(lia)). apply in_range_bounds in Hin.
      assert (Z.of_nat (S n)
              <= ((max_ordinal + 1) * us_per_day
                  - Config.last_scraped_date (config st))
                 / Config.time_delta (config st)).
      { apply Z.div_le_lower_bound; [exact Hd|]. lia. }
      lia.
    + intros T Hth Hclock.
      assert (Hd : 0 < Config.time_delta (config st)).
      { unfold Config.time_delta, timedelta_days, us_per_day. lia. }
      destruct (List.length (workings evs)) as [|n] eqn:Hn; [lia|].
      specialize (Hlt n ltac:(lia)).
      assert (Hnth : In (nth n (nows evs) 0) (nows evs)) by (apply nth_In; lia).
      destruct (Hclk _ Hnth) as (h & Hnow). specialize (Hclock h).
      assert (Z.of_nat n
              <= (T - Config.last_scraped_date (config st))
                 / Config.time_delta (config st)).
      { apply Z.div_le_lower_bound; [exact Hd|]. lia. }
      lia.
  - intros st Hth Hlim Hpages. unfold Scraper.begin.
    now apply Hstop.
  - intros T st Hth Hlim Hpages Hstart Hclock HT. unfold Scraper.begin.
    destruct (Hstop st Hth Hlim Hpages) as (fuel & Hf).
    exists fuel.
    destruct (Scraper.windows w fuel Scraper.Fresh st) as [r st'] eqn:Hrun.
    cbn [fst] in *.
    pose proof (windows_in_range w T fuel Scraper.Fresh st r st' Hth Hclock HT)
      as Hno.
    apply in_range_bounds in Hstart.
    specialize (Hno ltac:(cbn [candidate]; lia) ltac:(discriminate) Hrun).
    destruct r as [[]|e|]; [reflexivity | | congruence].
    exfalso. now apply (Hno e).
Qed.

(** Seven articles a day, the clock stopped at 03-01-2020: the windows
    of 01-01 and 02-01 are walked and [begin] returns. *)
Lemma C8_window_walker_witness :
  let w := Sample.world (Sample.serve (Sample.one_page_of Sample.seven_articles))
             stdlib_logger_log Sample.always_ok (Sample.clock_at 737427) in
  (exists evs,
      history (snd (Scraper.begin w 5 Sample.state0))
        = history Sample.state0 ++ evs /\
      workings evs = [(DMY 737425, DMY 737426); (DMY 737426, DMY 737427)] /\
      nows evs = [Sample.day 737427; Sample.day 737427; Sample.day 737427] /\
      Z.of_nat (List.length (workings evs))
      <= Z.max 0 ((Sample.day 737427
                   - Config.last_scraped_date (config Sample.state0))
                  / Config.time_delta (config Sample.state0) + 1)) /\
  (exists fuel, fst (Scraper.begin w fuel Sample.state0) = Done tt).
Proof.
  intros w. split.
  - destruct (proj1 (C8_window_walker w) 5%nat Sample.state0)
      as (evs & Hh & _ & _ & _ & _ & _ & Hbound).
    exists evs. split; [exact Hh|].
    assert (Hevs : evs = history (snd (Scraper.begin w 5 Sample.state0))).
    { rewrite Hh. reflexivity. }
    split; [rewrite Hevs; vm_compute; reflexivity|].
    split; [rewrite Hevs; vm_compute; reflexivity|].
    apply Hbound.
    + reflexivity.
    + intros h. cbn. lia.
  - apply (proj2 (proj2 (C8_window_walker w)) (Sample.day 737427) Sample.state0).
    + reflexivity.
    + reflexivity.
    + apply (page_loops_end_served w (Sample.one_page_of Sample.seven_articles)).
      * intros ds de. repeat split.
      * split; [reflexivity|]. eexists _, _. split; [reflexivity|].
        vm_compute. reflexivity.
      * intros offset Hoff. unfold Sample.one_page_of.
        destruct (offset =? 0) eqn:E; [apply Z.eqb_eq in E; contradiction|].
        reflexivity.
    + reflexivity.
    + intros h. cbn. lia.
    + reflexivity.
Defined.

(** C8 as stated fails: the sequence of windows need not be finite, nor
    end at the clock.  With a window width of zero days the window from
    01-01-2020 to 01-01-2020 is announced at every turn: a run with fuel
    for [n] turns announces it [n] times and is still going, so no bound
    holds for all runs.  With a window width of 3000000 days the end of
    the first window is past 31-12-9999 and [begin] ends in
    [OverflowError] without a window, the start still before the
    clock. *)
Lemma C8_counterexample :
  let w := Sample.world Sample.api_down stdlib_logger_log Sample.always_ok
             (Sample.clock_at 737427) in
  let stuck := Sample.state_with 3 0 5 in
  let wide := Sample.state_with 3 3000000 5 in
  (threshold_value (config stuck) = 0 /\
   (forall fuel,
       fst (Scraper.begin w fuel stuck) = OutOfFuel /\
       workings (history (snd (Scraper.begin w fuel stuck)))
       = repeat (DMY 737425, DMY 737425) fuel) /\
   ~ (exists n, forall fuel,
         (List.length (workings (history (snd (Scraper.begin w fuel stuck))))
          <= n)%nat)) /\
  (fst (Scraper.begin w 5 wide) = Raised OverflowError /\
   workings (history (snd (Scraper.begin w 5 wide))) = [] /\
   nows (history (snd (Scraper.begin w 5 wide))) = [Sample.day 737427] /\
   Config.last_scraped_date (config wide) < Sample.day 737427).
Proof.
  intros w stuck wide.
  assert (Hrun : forall fuel,
             fst (Scraper.begin w fuel stuck) = OutOfFuel /\
             workings (history (snd (Scraper.begin w fuel stuck)))
             = repeat (DMY 737425, DMY 737425) fuel).
  { intros fuel. unfold Scraper.begin.
    destruct (windows_zero_width w fuel Scraper.Fresh stuck)
      as (Hr & evs & Hh & Hw).
    - reflexivity.
    - reflexivity.
    - intros h. reflexivity.
    - intros ds de off h limit. reflexivity.
    - split; [exact Hr|]. rewrite Hh. exact Hw. }
  split; [split; [reflexivity | split; [exact Hrun|]]|].
  - intros (n & Hn). specialize (Hn (S n)).
    rewrite (proj2 (Hrun (S n))), repeat_length in Hn. lia.
  - repeat split; vm_compute; reflexivity.
Qed.

(* ================================================================= *)
(** * Further properties of the code *)

(** ** [Requester] *)

(** With [max_attempts] at zero or below the loop body never runs: no
    request is sent, whatever the endpoint would answer, and the call
    raises at once, leaving the state as it was. *)
Theorem requester_without_attempts w ds de off st :
  Config.max_attempts (config st) <= 0 ->
  Requester.call w ds de off st = (Raised AllAttemptsFailed, st).
Proof.
  intros H. unfold Requester.call, bind, get_config, py_range.
  replace (Z.to_nat (Config.max_attempts (config st) + 1 - 1)) with 0%nat by lia.
  reflexivity.
Qed.

Lemma requester_without_attempts_witness :
  Requester.call
    (Sample.world (Sample.serve (Sample.one_page_of Sample.seven_articles))
       stdlib_logger_log Sample.always_ok (Sample.clock_at 737427))
    (Sample.day 737425) (Sample.day 737426) 0 (Sample.state_with 0 1 5)
  = (Raised AllAttemptsFailed, Sample.state_with 0 1 5).
Proof.
  apply (requester_without_attempts
           (Sample.world (Sample.serve (Sample.one_page_of Sample.seven_articles))
              stdlib_logger_log Sample.always_ok (Sample.clock_at 737427))
           (Sample.day 737425) (Sample.day 737426) 0 (Sample.state_with 0 1 5)).
  discriminate.
Defined.

(** When the log call of [wait] raises, as the one of the standard library
    does, a fetch is a single request: the response of the first attempt
    is returned, and a first attempt that fails ends the fetch with the
    exception of the log call, without any sleep and without a second
    request. *)
Theorem requester_single_request_when_log_raises w ds de off st e :
  logger_log w = Some e ->
  1 <= Config.max_attempts (config st) ->
  Requester.call w ds de off st =
    (match requests_get_json w (trace st) ds de off (Config.limit (config st)) with
     | Some response => Done response
     | None => Raised e
     end,
     log_event (EvGet ds de off (Config.limit (config st))) st).
Proof.
  intros Hlog Hmax. unfold Requester.call, bind, get_config.
  rewrite py_range_cons by lia. cbn [Requester.attempts].
  unfold bind, Requester.get_json.
  destruct (requests_get_json w (trace st) ds de off (Config.limit (config st)));
    [reflexivity|].
  unfold Requester.wait. rewrite Hlog. reflexivity.
Qed.

Lemma requester_single_request_witness :
  Requester.call
    (Sample.world (Sample.api_of Sample.first_page_only) stdlib_logger_log
       Sample.always_ok (Sample.clock_at 737427))
    (Sample.day 737425) (Sample.day 737426) 5 Sample.state0
  = (Raised TypeError,
     log_event (EvGet (Sample.day 737425) (Sample.day 737426) 5 5) Sample.state0).
Proof.
  apply (requester_single_request_when_log_raises
           (Sample.world (Sample.api_of Sample.first_page_only) stdlib_logger_log
              Sample.always_ok (Sample.clock_at 737427))
           (Sample.day 737425) (Sample.day 737426) 5 Sample.state0 TypeError).
  - reflexivity.
  - discriminate.
Defined.

(** ** [Processor.clean_text] *)

Lemma gt_not_newline : Ascii.eqb ">" Processor.newline = false.
Proof. reflexivity. Qed.

Lemma semi_not_newline : Ascii.eqb ";" Processor.newline = false.
Proof. reflexivity. Qed.

Lemma lazy_until_gt_line s :
  Processor.lazy_until_gt s = None <-> line_has ">" s = false.
Proof.
  induction s as [|x r IH]; cbn [line_has Processor.lazy_until_gt]; [easy|].
  destruct (Ascii.eqb x ">"); [easy|].
  destruct (Ascii.eqb x Processor.newline); [easy|].
  destruct (Processor.lazy_until_gt r); cbn [option_map]; [|tauto].
  split; [discriminate|]. intros H. apply IH in H. discriminate.
Qed.

Lemma greedy_until_semi_line s :
  Processor.greedy_until_semi s = None <-> line_has ";" s = false.
Proof.
  induction s as [|x r IH]; cbn [line_has Processor.greedy_until_semi]; [easy|].
  destruct (Ascii.eqb x Processor.newline) eqn:Hn.
  - destruct (Ascii.eqb x ";") eqn:Hs; [|easy].
    apply Ascii.eqb_eq in Hs. subst x. rewrite semi_not_newline in Hn.
    discriminate.
  - destruct (Processor.greedy_until_semi r).
    + split; [discriminate|]. destruct (Ascii.eqb x ";"); [discriminate|].
      intros H. apply IH in H. discriminate.
    + destruct (Ascii.eqb x ";"); [easy|]. tauto.
Qed.

Lemma lazy_until_gt_no_newline s : forall n,
  Processor.lazy_until_gt s = Some n -> no_newline n s = true.
Proof.
  induction s as [|x r IH]; intros n H; cbn [Processor.lazy_until_gt] in H;
    [discriminate|].
  destruct (Ascii.eqb x ">") eqn:Hg.
  - inversion H; subst. cbn [no_newline]. apply Ascii.eqb_eq in Hg. subst x.
    now rewrite gt_not_newline.
  - destruct (Ascii.eqb x Processor.newline) eqn:Hn; [discriminate|].
    destruct (Processor.lazy_until_gt r) as [m|]; [|discriminate].
    inversion H; subst. cbn [no_newline]. rewrite Hn. cbn [negb andb].
    now apply IH.
Qed.

Lemma greedy_until_semi_no_newline s : forall n,
  Processor.greedy_until_semi s = Some n -> no_newline n s = true.
Proof.
  induction s as [|x r IH]; intros n H; cbn [Processor.greedy_until_semi] in H;
    [discriminate|].
  destruct (Ascii.eqb x Processor.newline) eqn:Hn; [discriminate|].
  destruct (Processor.greedy_until_semi r) as [m|].
  - inversion H; subst. cbn [no_newline]. rewrite Hn. cbn [negb andb].
    now apply IH.
  - destruct (Ascii.eqb x ";"); [|discriminate].
    inversion H; subst. cbn [no_newline]. rewrite Hn. reflexivity.
Qed.

(** Cleaning does not bring a character onto a line that did not have
    it. *)
Lemma line_has_cleaned c s : forall k,
  no_newline k s = true ->
  line_has c s = false ->
  line_has c (Processor.re_sub_cleaner k s) = false.
Proof.
  induction s as [|x r IH]; intros k Hk Hc; [destruct k; reflexivity|].
  cbn [line_has] in Hc.
  destruct (Ascii.eqb x c) eqn:Hxc; [discriminate|].
  destruct k as [|k]; cbn [Processor.re_sub_cleaner no_newline] in *.
  - assert (Hkeep : line_has c (String x (Processor.re_sub_cleaner 0 r)) = false).
    { cbn [line_has]. rewrite Hxc.
      destruct (Ascii.eqb x Processor.newline); [reflexivity|].
      now apply IH. }
    destruct (Ascii.eqb x "<") eqn:Hlt.
    + destruct (Processor.lazy_until_gt r) as [n|] eqn:Hl; [|exact Hkeep].
      apply Ascii.eqb_eq in Hlt. subst x. cbn in Hc.
      apply IH; [eapply lazy_until_gt_no_newline; eauto | exact Hc].
    + destruct (Ascii.eqb x "&") eqn:Ham; [|exact Hkeep].
      destruct (Processor.greedy_until_semi r) as [n|] eqn:Hg; [|exact Hkeep].
      apply Ascii.eqb_eq in Ham. subst x. cbn in Hc.
      apply IH; [eapply greedy_until_semi_no_newline; eauto | exact Hc].
  - apply andb_prop in Hk. destruct Hk as [Hn Hk].
    apply negb_true_iff in Hn. rewrite Hn in Hc. now apply IH.
Qed.

Lemma cleaned_tag_free s : forall k,
  no_newline k s = true -> tag_free (Processor.re_sub_cleaner k s) = true.
Proof.
  induction s as [|x r IH]; intros k Hk; [destruct k; reflexivity|].
  destruct k as [|k]; cbn [Processor.re_sub_cleaner no_newline] in *.
  - destruct (Ascii.eqb x "<") eqn:Hlt.
    + destruct (Processor.lazy_until_gt r) as [n|] eqn:Hl.
      * apply IH. eapply lazy_until_gt_no_newline; eauto.
      * cbn [tag_free]. rewrite Hlt.
        apply lazy_until_gt_line in Hl.
        rewrite (line_has_cleaned ">" r 0 eq_refl Hl).
        apply Ascii.eqb_eq in Hlt. subst x. cbn. now apply IH.
    + destruct (Ascii.eqb x "&") eqn:Ham.
      * destruct (Processor.greedy_until_semi r) as [n|] eqn:Hg.
        -- apply IH. eapply greedy_until_semi_no_newline; eauto.
        -- cbn [tag_free]. rewrite Hlt, Ham.
           apply greedy_until_semi_line in Hg.
           rewrite (line_has_cleaned ";" r 0 eq_refl Hg). cbn. now apply IH.
      * cbn [tag_free]. rewrite Hlt, Ham. cbn. now apply IH.
  - apply andb_prop in Hk. destruct Hk as [_ Hk]. now apply IH.
Qed.

Lemma tag_free_fixed s :
  tag_free s = true -> Processor.re_sub_cleaner 0 s = s.
Proof.
  induction s as [|x r IH]; [reflexivity|].
  cbn [tag_free Processor.re_sub_cleaner]. intros H.
  apply andb_prop in H. destruct H as [H Hr].
  apply andb_prop in H. destruct H as [Hlt Ham].
  rewrite (IH Hr).
  destruct (Ascii.eqb x "<").
  - cbn in Hlt. apply negb_true_iff in Hlt.
    apply lazy_until_gt_line in Hlt. now rewrite Hlt.
  - destruct (Ascii.eqb x "&"); [|reflexivity].
    cbn in Ham. apply negb_true_iff in Ham.
    apply greedy_until_semi_line in Ham. now rewrite Ham.
Qed.

Lemma plain_tag_free s : plain s = true -> tag_free s = true.
Proof.
  induction s as [|x r IH]; [reflexivity|]. cbn. intros H.
  apply andb_prop in H. destruct H as [H Hr].
  apply andb_prop in H. destruct H as [Hlt Ham].
  apply negb_true_iff in Hlt, Ham. rewrite Hlt, Ham. cbn. now apply IH.
Qed.

Lemma cleaned_length s : forall k,
  (String.length (Processor.re_sub_cleaner k s) <= String.length s)%nat.
Proof.
  induction s as [|x r IH]; intros k; [destruct k; cbn; lia|].
  destruct k as [|k]; cbn [Processor.re_sub_cleaner String.length].
  - pose proof (IH 0%nat).
    destruct (Ascii.eqb x "<").
    + destruct (Processor.lazy_until_gt r) as [n|];
        [specialize (IH n); lia | cbn; lia].
    + destruct (Ascii.eqb x "&"); [|cbn; lia].
      destruct (Processor.greedy_until_semi r) as [n|];
        [specialize (IH n); lia | cbn; lia].
  - specialize (IH k). lia.
Qed.

(** What is left after [clean_text] holds no tag and no entity: the
    pattern matches nowhere in it, so cleaning it again changes nothing. *)
Theorem clean_text_removes_every_match s :
  exists cleaned,
    Processor.clean_text (PStr s) = Ok cleaned /\
    tag_free cleaned = true /\
    Processor.clean_text (PStr cleaned) = Ok cleaned.
Proof.
  exists (Processor.re_sub_cleaner 0 s). split; [reflexivity|].
  assert (H : tag_free (Processor.re_sub_cleaner 0 s) = true)
    by (apply cleaned_tag_free; reflexivity).
  split; [exact H|]. cbn. now rewrite (tag_free_fixed _ H).
Qed.

(** [clean_text] only removes: the result is never longer than the text,
    a text with neither [<] nor [&] comes back as it is, and anything
    that is not a string raises [TypeError]. *)
Theorem clean_text_only_removes :
  (forall s, exists cleaned,
      Processor.clean_text (PStr s) = Ok cleaned /\
      (String.length cleaned <= String.length s)%nat) /\
  (forall s, plain s = true -> Processor.clean_text (PStr s) = Ok s) /\
  (forall v, (forall s, v <> PStr s) ->
             Processor.clean_text v = Raise TypeError).
Proof.
  split; [|split].
  - intros s. eexists. split; [reflexivity | apply cleaned_length].
  - intros s H. cbn. now rewrite (tag_free_fixed _ (plain_tag_free _ H)).
  - intros v Hv. destruct v; try reflexivity. now destruct (Hv s).
Qed.

Lemma clean_text_only_removes_witness :
  Processor.clean_text (PStr "plain text") = Ok "plain text"%string /\
  Processor.clean_text PNone = Raise TypeError.
Proof.
  split.
  - apply (proj1 (proj2 clean_text_only_removes)). reflexivity.
  - apply (proj2 (proj2 clean_text_only_removes)). discriminate.
Defined.

(** ** [Processor.parse_data] and [Processor.__call__] *)

Lemma construct_content_text_str item v :
  Processor.construct_content_text item = Ok v -> exists s, v = PStr s.
Proof.
  unfold Processor.construct_content_text. intros H. repeat res_step H.
  inversion H. eauto.
Qed.

Lemma construct_sections_text_str item v :
  Processor.construct_sections_text item = Ok v -> exists s, v = PStr s.
Proof.
  unfold Processor.construct_sections_text. intros H. res_step H.
  match type of H with
  | context [is_none ?x] => destruct (is_none x); cbn [negb] in H
  end; [discriminate|].
  repeat res_step H. inversion H. eauto.
Qed.

Lemma construct_tags_text_str item v :
  Processor.construct_tags_text item = Ok v -> v = PNone \/ exists s, v = PStr s.
Proof.
  unfold Processor.construct_tags_text. intros H. res_step H.
  match type of H with
  | context [is_none ?x] => destruct (is_none x) eqn:Hn; cbn [negb] in H
  end.
  - inversion H; subst. destruct v; try discriminate. now left.
  - repeat res_step H. inversion H. eauto.
Qed.

Lemma to_unix_timestamp_int w v r :
  Processor.to_unix_timestamp w v = Ok r -> exists z, r = PInt z.
Proof.
  unfold Processor.to_unix_timestamp. intros H. res_step H.
  destruct (Z.abs a <? 2 ^ 53); [inversion H; eauto|].
  destruct (int_of_quotient w a); inversion H. eauto.
Qed.

(** What [parse_data] hands on when it returns: the headline is the raw
    [headline] entry, or [None] when there is none; the content and the
    sections are always strings, never [None]; the tags are [None] or a
    string; the read time and the six timestamps are integers. *)
Theorem parse_data_field_types w raw item :
  Processor.parse_data w raw = Ok item ->
  py_get raw "headline" PNone = Ok (ItemModel.headline item) /\
  (exists s, ItemModel.content item = PStr s) /\
  (exists s, ItemModel.sections item = PStr s) /\
  (ItemModel.tags item = PNone \/ exists s, ItemModel.tags item = PStr s) /\
  (exists z, ItemModel.read_time item = PInt z) /\
  (exists z, ItemModel.published_at item = PInt z) /\
  (exists z, ItemModel.created_at item = PInt z) /\
  (exists z, ItemModel.updated_at item = PInt z) /\
  (exists z, ItemModel.last_published_at item = PInt z) /\
  (exists z, ItemModel.first_published_at item = PInt z) /\
  (exists z, ItemModel.content_updated_at item = PInt z).
Proof.
  unfold Processor.parse_data. intros H. repeat res_step H.
  inversion H; subst; clear H. cbn.
  repeat match goal with
  | |- _ /\ _ => split
  end;
  eauto using construct_content_text_str, construct_sections_text_str,
    construct_tags_text_str, to_unix_timestamp_int.
Qed.

Lemma parse_data_field_types_witness :
  let w := Sample.world Sample.api_down stdlib_logger_log Sample.always_ok
             (Sample.clock_at 0) in
  exists item,
    Processor.parse_data w (Sample.article "headline" "<p>body</p>") = Ok item /\
    ItemModel.headline item = PStr "headline" /\
    ItemModel.content item = PStr "body" /\
    (exists s, ItemModel.sections item = PStr s).
Proof.
  intros w. eexists. split; [reflexivity|]. split; [reflexivity|].
  split; [reflexivity|].
  apply (parse_data_field_types w (Sample.article "headline" "<p>body</p>")).
  reflexivity.
Defined.

Lemma add_items self item self' :
  ItemsModel.add self item = Ok self' ->
  ItemsModel.items self'
    = ItemsModel.items self ++ (if acceptable item then [item] else []).
Proof.
  unfold ItemsModel.add, acceptable. intros H.
  destruct (ItemsModel.is_acceptable item) as [ok|]; [|discriminate].
  cbn in H. destruct (py_truthy ok); inversion H; subst; cbn;
    [reflexivity | now rewrite app_nil_r].
Qed.

Lemma add_all_filter w raws : forall acc out,
  Processor.add_all w acc raws = Ok out ->
  exists parsed,
    res_map (Processor.parse_data w) raws = Ok parsed /\
    ItemsModel.items out = ItemsModel.items acc ++ filter acceptable parsed.
Proof.
  induction raws as [|raw rest IH]; intros acc out H; cbn in H.
  - inversion H; subst. exists []. split; [reflexivity|]. cbn.
    now rewrite app_nil_r.
  - destruct (Processor.parse_data w raw) as [item|] eqn:Hp; [|discriminate].
    cbn in H.
    destruct (ItemsModel.add acc item) as [acc'|] eqn:Hadd; [|discriminate].
    cbn in H. destruct (IH _ _ H) as (parsed & Hmap & Hitems).
    exists (item :: parsed). cbn. rewrite Hp. cbn. rewrite Hmap. cbn.
    split; [reflexivity|].
    rewrite Hitems, (add_items _ _ _ Hadd), <- app_assoc.
    destruct (acceptable item); reflexivity.
Qed.

Lemma res_map_length {A B} (f : A -> res B) xs : forall ys,
  res_map f xs = Ok ys ->
  List.length ys = List.length xs /\
  forall x, In x xs -> exists y, f x = Ok y.
Proof.
  induction xs as [|x xs IH]; intros ys H; cbn in H.
  - inversion H; subst. split; [reflexivity|]. intros x [].
  - destruct (f x) as [y|] eqn:Hx; [|discriminate]. cbn in H.
    destruct (res_map f xs) as [ys'|]; [|discriminate]. cbn in H.
    inversion H; subst. destruct (IH _ eq_refl) as [Hlen Hall].
    split; [cbn; lia|]. intros x' [<-|Hin]; eauto.
Qed.

(** [Processor.__call__] on a page of raw records.  When it returns, every
    record of the page could be transformed, and the model holds the
    transformed records that [add] accepts, in the order of the page and
    nothing else; so it never holds more items than the page has
    records.  A single record that cannot be transformed makes the call
    raise: the page yields nothing. *)
Theorem processor_call_keeps_the_accepted w raws :
  (forall out,
      Processor.call w (PList raws) = Ok out ->
      exists parsed,
        res_map (Processor.parse_data w) raws = Ok parsed /\
        ItemsModel.items out = filter acceptable parsed /\
        ItemsModel.len out <= Z.of_nat (List.length raws)) /\
  (forall raw e,
      In raw raws -> Processor.parse_data w raw = Raise e ->
      exists e', Processor.call w (PList raws) = Raise e').
Proof.
  assert (Hok : forall out,
             Processor.call w (PList raws) = Ok out ->
             exists parsed,
               res_map (Processor.parse_data w) raws = Ok parsed /\
               ItemsModel.items out = filter acceptable parsed /\
               ItemsModel.len out <= Z.of_nat (List.length raws)).
  { intros out H. unfold Processor.call in H. cbn in H.
    destruct (add_all_filter _ _ _ _ H) as (parsed & Hmap & Hitems).
    cbn [ItemsModel.items ItemsModel.init app] in Hitems.
    exists parsed. split; [exact Hmap|]. split; [exact Hitems|].
    unfold ItemsModel.len. rewrite Hitems.
    destruct (res_map_length _ _ _ Hmap) as [Hlen _].
    pose proof (filter_length_le acceptable parsed). lia. }
  split; [exact Hok|].
  intros raw e Hin Hraise.
  destruct (Processor.call w (PList raws)) as [out|e'] eqn:Hcall; [|eauto].
  destruct (Hok out eq_refl) as (parsed & Hmap & _).
  destruct (res_map_length _ _ _ Hmap) as [_ Hall].
  destruct (Hall raw Hin) as (y & Hy). congruence.
Qed.

Lemma processor_call_keeps_the_accepted_witness :
  let w := Sample.world Sample.api_down stdlib_logger_log Sample.always_ok
             (Sample.clock_at 0) in
  exists e',
    Processor.call w (PList [Sample.article "headline" "body";
                             Sample.article_without_cards "headline"])
    = Raise e'.
Proof.
  intros w.
  apply (proj2 (processor_call_keeps_the_accepted w
                  [Sample.article "headline" "body";
                   Sample.article_without_cards "headline"])
           (Sample.article_without_cards "headline") KeyError).
  - right. left. reflexivity.
  - reflexivity.
Defined.

(** ** [ItemModel.to_list] and the column names *)

(** Every row has one cell per column name, twenty of them; the headline
    sits under [text_headline] and the content under [text_content]. *)
Theorem rows_line_up_with_the_columns :
  List.length ItemsModel.COLUMN_NAMES = 20%nat /\
  (forall self,
      Forall (fun row => List.length row = List.length ItemsModel.COLUMN_NAMES)
             (ItemsModel.to_list self)) /\
  (forall item,
      nth_error ItemsModel.COLUMN_NAMES 1 = Some "text_headline"%string /\
      nth_error (ItemModel.to_list item) 1 = Some (ItemModel.headline item) /\
      nth_error ItemsModel.COLUMN_NAMES 4 = Some "text_content"%string /\
      nth_error (ItemModel.to_list item) 4 = Some (ItemModel.content item)).
Proof.
  split; [reflexivity|]. split.
  - intros self. unfold ItemsModel.to_list. apply Forall_map, Forall_forall.
    intros item _. reflexivity.
  - intros item. repeat split.
Qed.

(** ** [Saver] *)

Lemma lookup_store_same year rows fs :
  Saver.lookup_file year (Saver.store_file year rows fs) = Some rows.
Proof.
  induction fs as [|[y old] fs IH]; cbn.
  - now rewrite Z.eqb_refl.
  - destruct (y =? year) eqn:Hy; cbn; rewrite Hy; [reflexivity | exact IH].
Qed.

Lemma lookup_store_other year rows fs y :
  y <> year ->
  Saver.lookup_file y (Saver.store_file year rows fs) = Saver.lookup_file y fs.
Proof.
  intros Hne. induction fs as [|[y' old] fs IH]; cbn.
  - destruct (year =? y) eqn:Hy; [apply Z.eqb_eq in Hy; congruence | reflexivity].
  - destruct (y' =? year) eqn:Hy'; cbn.
    + apply Z.eqb_eq in Hy'. subst y'.
      destruct (year =? y) eqn:Hy; [apply Z.eqb_eq in Hy; congruence | reflexivity].
    + destruct (y' =? y); [reflexivity | exact IH].
Qed.

(** The sink is append-only.  A call that goes through leaves in the file
    of the year what was there followed by the new rows, or the header
    followed by the rows when the file is new; the files of the other
    years and the configuration are not touched, and every file still
    begins with the header.  A call in which [to_csv] raises lets the
    exception through as it is; the configuration and the files of the
    other years are not touched then either, and the file of the year is
    as it was when it could not be opened, and otherwise holds what was
    there followed by the lines written before the exception, the first
    of the lines that were to be appended. *)
Theorem saver_appends_to_the_file_of_the_year w items d st :
  (to_csv w (trace st) (year_of d) (ItemsModel.to_list items) = CsvOk ->
   fst (Saver.call w items d st) = Done tt /\
   Saver.lookup_file (year_of d) (csv_files (snd (Saver.call w items d st)))
     = Some (match Saver.lookup_file (year_of d) (csv_files st) with
             | Some old => old ++ ItemsModel.to_list items
             | None => map PStr ItemsModel.COLUMN_NAMES :: ItemsModel.to_list items
             end) /\
   (forall y, y <> year_of d ->
      Saver.lookup_file y (csv_files (snd (Saver.call w items d st)))
        = Saver.lookup_file y (csv_files st)) /\
   config (snd (Saver.call w items d st)) = config st /\
   config_file (snd (Saver.call w items d st)) = config_file st /\
   (headed (csv_files st) ->
    headed (csv_files (snd (Saver.call w items d st))))) /\
  (forall e written,
   to_csv w (trace st) (year_of d) (ItemsModel.to_list items)
     = CsvFails e written ->
   fst (Saver.call w items d st) = Raised e /\
   (forall y, y <> year_of d ->
      Saver.lookup_file y (csv_files (snd (Saver.call w items d st)))
        = Saver.lookup_file y (csv_files st)) /\
   config (snd (Saver.call w items d st)) = config st /\
   config_file (snd (Saver.call w items d st)) = config_file st /\
   match written with
   | None => csv_files (snd (Saver.call w items d st)) = csv_files st
   | Some k =>
       Saver.lookup_file (year_of d) (csv_files (snd (Saver.call w items d st)))
       = Some (match Saver.lookup_file (year_of d) (csv_files st) with
               | Some old => old ++ firstn k (ItemsModel.to_list items)
               | None =>
                   firstn k (map PStr ItemsModel.COLUMN_NAMES
                             :: ItemsModel.to_list items)
               end)
   end).
Proof.
  unfold Saver.call, Saver.construct_output_filepath. split.
  - intros H; rewrite H.
    cbn [fst snd csv_files log_event set_csv_files config config_file].
    split; [reflexivity|]. split.
    { rewrite lookup_store_same.
      now destruct (Saver.lookup_file (year_of d) (csv_files st)). }
    split; [intros y Hy; now apply lookup_store_other|].
    split; [reflexivity|]. split; [reflexivity|].
    intros Hhead year lines Hl.
    destruct (Z.eq_dec year (year_of d)) as [->|Hne].
    + rewrite lookup_store_same in Hl. inversion Hl; subst; clear Hl.
      destruct (Saver.lookup_file (year_of d) (csv_files st)) as [old|] eqn:Hold;
        [|reflexivity].
      specialize (Hhead _ _ Hold). destruct old; [discriminate | exact Hhead].
    + rewrite lookup_store_other in Hl by exact Hne. eapply Hhead, Hl.
  - intros e written H; rewrite H. destruct written as [k|];
      cbn [fst snd csv_files log_event set_csv_files config config_file].
    + split; [reflexivity|].
      split; [intros y Hy; now apply lookup_store_other|].
      split; [reflexivity|]. split; [reflexivity|].
      rewrite lookup_store_same.
      now destruct (Saver.lookup_file (year_of d) (csv_files st)).
    + repeat split; reflexivity.
Qed.

(** A first call for 2020 with no rows creates the file with its header;
    a call whose [to_csv] raises [UnicodeEncodeError] after two lines
    leaves the header and the first of its two rows in the new file. *)
Lemma saver_appends_witness :
  let w := Sample.world Sample.api_down stdlib_logger_log Sample.always_ok
             (Sample.clock_at 0) in
  let w' := Sample.with_sink w
              (fun _ _ _ => CsvFails UnicodeEncodeError (Some 2%nat)) in
  let two := {| ItemsModel.items := [Sample.item "one"; Sample.item "two"] |} in
  (fst (Saver.call w ItemsModel.init (Sample.day 737425) Sample.state0) = Done tt /\
   Saver.lookup_file 2020
     (csv_files (snd (Saver.call w ItemsModel.init (Sample.day 737425)
                        Sample.state0)))
     = Some [map PStr ItemsModel.COLUMN_NAMES] /\
   headed (csv_files (snd (Saver.call w ItemsModel.init (Sample.day 737425)
                             Sample.state0)))) /\
  (fst (Saver.call w' two (Sample.day 737425) Sample.state0)
     = Raised UnicodeEncodeError /\
   Saver.lookup_file 2020
     (csv_files (snd (Saver.call w' two (Sample.day 737425) Sample.state0)))
     = Some [map PStr ItemsModel.COLUMN_NAMES;
             ItemModel.to_list (Sample.item "one")]).
Proof.
  intros w w' two. split.
  - destruct (proj1 (saver_appends_to_the_file_of_the_year w ItemsModel.init
                       (Sample.day 737425) Sample.state0) eq_refl)
      as (Hr & Hl & _ & _ & _ & Hh).
    split; [exact Hr|]. split; [exact Hl|].
    apply Hh. intros year lines Hx. discriminate.
  - destruct (proj2 (saver_appends_to_the_file_of_the_year w' two
                       (Sample.day 737425) Sample.state0)
                UnicodeEncodeError (Some 2%nat) eq_refl)
      as (Hr & _ & _ & _ & Hl).
    split; [exact Hr | exact Hl].
Defined.

(** ** [Config] and the dates of [utils] *)

Lemma string_to_date_floor d :
  string_to_date (date_to_string d) <= d
  < string_to_date (date_to_string d) + timedelta_days 1.
Proof.
  unfold date_to_string, string_to_date, toordinal, timedelta_days, us_per_day.
  pose proof (Z.div_mod d 86400000000 ltac:(lia)).
  pose proof (Z.mod_pos_bound d 86400000000 ltac:(lia)). lia.
Qed.

(** The two date conversions.  Formatting drops the time of day, so
    parsing a formatted date gives the midnight that starts its day, at
    most a day before the date, and gives the date itself exactly when it
    is at midnight. *)
Theorem date_conversions_round_trip :
  (forall d,
      midnight (string_to_date (date_to_string d)) /\
      string_to_date (date_to_string d) <= d
      < string_to_date (date_to_string d) + timedelta_days 1) /\
  (forall d, string_to_date (date_to_string d) = d <-> midnight d).
Proof.
  split.
  - intros d. split; [apply midnight_string_to_date | apply string_to_date_floor].
  - intros d. split.
    + intros <-. apply midnight_string_to_date.
    + apply string_to_date_to_string.
Qed.

Lemma last_dump_app a b :
  last_dump (a ++ b)
  = match dumps b with [] => last_dump a | _ => last_dump b end.
Proof.
  unfold last_dump. rewrite dumps_app, map_app.
  destruct (dumps b) as [|o l]; [now rewrite app_nil_r|].
  induction (map Some (dumps a)) as [|x xs IH]; [reflexivity|].
  cbn [app]. rewrite <- IH. cbn [map].
  destruct (xs ++ Some o :: map Some l) eqn:E; [|reflexivity].
  destruct xs; discriminate.
Qed.

Lemma last_dump_silent evs : dumps evs = [] -> last_dump evs = None.
Proof. unfold last_dump. now intros ->. Qed.

Lemma last_dump_some evs :
  dumps evs <> [] -> exists o, last_dump evs = Some o.
Proof.
  unfold last_dump. induction (dumps evs) as [|o l IH]; [congruence|].
  intros _. destruct l as [|o' l']; [now exists o|].
  cbn [map last] in *. apply IH. discriminate.
Qed.

Lemma all_ok_last_dump evs :
  commit_failed evs = false -> dumps evs <> [] -> last_dump evs = Some DumpOk.
Proof.
  unfold commit_failed, last_dump.
  induction (dumps evs) as [|o l IH]; [congruence|].
  cbn [existsb map]. intros H _. apply orb_false_elim in H. destruct H as [Ho Hl].
  destruct o; try discriminate.
  destruct l as [|o' l']; [reflexivity|].
  cbn [map last] in *. apply IH; [exact Hl | discriminate].
Qed.

Lemma pages_last_dump w f ds de g st r st' evs :
  Scraper.pages w f ds de g st = (r, st') ->
  history st' = history st ++ evs ->
  match last_dump evs with
  | None => config st' = config st /\ config_file st' = config_file st
  | Some DumpOk => config_file st' = Some (config st')
  | Some DumpFails => config_file st' = None
  | Some OpenFails => True
  end.
Proof.
  intros Hrun Hh.
  destruct (pages_summary _ _ _ _ _ _ _ _ Hrun) as (evs' & Hh' & _ & Hc & Hf & _).
  rewrite Hh in Hh'. apply app_inv_head in Hh'. subst evs'.
  destruct (pages_disk _ _ _ _ _ _ _ _ _ Hrun Hh) as [Hok Hfail].
  destruct (commit_failed evs) eqn:Hcf.
  - destruct (Hfail eq_refl) as (_ & pre & y & rows & o & -> & Ho & _ & _ & Hfile).
    rewrite last_dump_app. cbn [dumps]. unfold last_dump. cbn.
    destruct o; [congruence | exact I | exact Hfile].
  - specialize (Hok eq_refl). destruct (dumps evs) eqn:Hd.
    + rewrite (last_dump_silent _ Hd). split; [exact Hc | exact Hok].
    + rewrite (all_ok_last_dump _ Hcf) by congruence. exact Hok.
Qed.

Lemma window_last_dump w f g st r st' evs :
  Scraper.window w f g st = (r, st') ->
  history st' = history st ++ evs ->
  match last_dump evs with
  | None => config st' = config st /\ config_file st' = config_file st
  | Some DumpOk => config_file st' = Some (config st')
  | Some DumpFails => config_file st' = None
  | Some OpenFails => True
  end.
Proof.
  intros H Hh. apply window_inv in H.
  destruct H as [_ _ -> _ | rf st1 ds de _ Hrun Hr _ _ | _ _ -> | _ _ _ ->].
  - rewrite history_log_event in Hh. apply app_inv_head in Hh. subst evs.
    cbn. auto.
  - destruct (pages_summary _ _ _ _ _ _ _ _ Hrun) as (pevs & Hhp & _).
    pose proof (pages_last_dump _ _ _ _ _ _ _ _ _ Hrun Hhp) as Hp.
    cbn [config config_file log_event] in Hp.
    rewrite !history_log_event, <- !app_assoc in Hhp. cbn [app] in Hhp.
    assert (Hl : last_dump evs = last_dump pevs).
    { destruct rf as [[]|e|]; destruct Hr as [_ ->].
      - rewrite Hhp in Hh. apply app_inv_head in Hh. subst evs.
        unfold last_dump. reflexivity.
      - rewrite history_log_event, Hhp, <- app_assoc in Hh.
        apply app_inv_head in Hh. subst evs.
        unfold last_dump. cbn [app dumps]. rewrite dumps_app. cbn.
        now rewrite app_nil_r.
      - rewrite Hhp in Hh. apply app_inv_head in Hh. subst evs.
        unfold last_dump. reflexivity. }
    rewrite Hl.
    destruct rf as [[]|e|]; destruct Hr as [_ ->]; exact Hp.
  - rewrite <- (app_nil_r (history st)) in Hh at 1.
    apply app_inv_head in Hh. subst evs. cbn. auto.
  - rewrite history_log_event in Hh. apply app_inv_head in Hh. subst evs.
    cbn. auto.
Qed.

Lemma windows_last_dump w f : forall g st r st' evs,
  Scraper.windows w f g st = (r, st') ->
  history st' = history st ++ evs ->
  match last_dump evs with
  | None => config st' = config st /\ config_file st' = config_file st
  | Some DumpOk => config_file st' = Some (config st')
  | Some DumpFails => config_file st' = None
  | Some OpenFails => True
  end.
Proof.
  induction f as [|f IH]; intros g st r st' evs H Hh.
  { inversion H; subst. rewrite <- (app_nil_r (history st')) in Hh at 1.
    apply app_inv_head in Hh. subst evs. cbn. auto. }
  cbn [Scraper.windows] in H. unfold bind in H.
  destruct (Scraper.window w f g st) as [rw st1] eqn:Hw.
  destruct (window_summary _ _ _ _ _ _ Hw) as (evs1 & Hh1 & _).
  pose proof (window_last_dump _ _ _ _ _ _ _ Hw Hh1) as H1.
  destruct rw as [[g1|]|e|];
    try (inversion H; subst; rewrite Hh1 in Hh; apply app_inv_head in Hh;
         subst evs; exact H1).
  destruct (windows_summary _ _ _ _ _ _ H) as (evs2 & Hh2 & _).
  pose proof (IH _ _ _ _ _ H Hh2) as H2.
  rewrite Hh2, Hh1, <- app_assoc in Hh. apply app_inv_head in Hh. subst evs.
  rewrite last_dump_app. destruct (dumps evs2) eqn:Hd2.
  - rewrite (last_dump_silent _ Hd2) in H2. destruct H2 as [Hc2 Hf2].
    rewrite Hc2, Hf2. exact H1.
  - destruct (last_dump_some evs2) as (o & Ho); [congruence|].
    rewrite Ho in *. exact H2.
Qed.

Lemma windows_frame w f g st r st' :
  Scraper.windows w f g st = (r, st') ->
  start_date_value (config st') = start_date_value (config st) /\
  threshold_value (config st') = threshold_value (config st) /\
  limit_value (config st') = limit_value (config st) /\
  max_attempts_value (config st') = max_attempts_value (config st) /\
  output_directory_value (config st') = output_directory_value (config st).
Proof.
  revert g st r st'.
  induction f as [|f IH]; intros g st r st' H.
  { inversion H; subst. auto. }
  cbn [Scraper.windows] in H. unfold bind in H.
  destruct (Scraper.window w f g st) as [rw st1] eqn:Hw.
  assert (H1 : start_date_value (config st1) = start_date_value (config st) /\
               threshold_value (config st1) = threshold_value (config st) /\
               limit_value (config st1) = limit_value (config st) /\
               max_attempts_value (config st1) = max_attempts_value (config st) /\
               output_directory_value (config st1)
               = output_directory_value (config st)).
  { apply window_inv in Hw.
    destruct Hw as [_ _ -> _ | rf st2 ds de _ Hrun Hr _ _ | _ _ -> | _ _ _ ->];
      auto.
    destruct (pages_summary _ _ _ _ _ _ _ _ Hrun) as (pevs & _ & _ & Hc & _).
    assert (Hc2 : start_date_value (config st2) = start_date_value (config st) /\
                  threshold_value (config st2) = threshold_value (config st) /\
                  limit_value (config st2) = limit_value (config st) /\
                  max_attempts_value (config st2) = max_attempts_value (config st) /\
                  output_directory_value (config st2)
                  = output_directory_value (config st)).
    { rewrite Hc. destruct (dumps pevs); cbn; auto. }
    destruct rf as [[]|e|]; destruct Hr as [_ ->]; exact Hc2. }
  destruct rw as [[g1|]|e|]; try (inversion H; subst; exact H1).
  destruct (IH _ _ _ _ H) as (A & B & C & D & E).
  destruct H1 as (A1 & B1 & C1 & D1 & E1).
  repeat split; congruence.
Qed.

(** A run can be picked up where it stopped.  Take a process that
    [Config.__init__] started from the state file, and any run of
    [begin], however it ends.  The start date, the window width, the page
    size, the number of attempts and the output directory are what they
    were.  When the last [json.dump] of the run went through, or the run
    made none, the state file holds the configuration the process has in
    memory: [Config.__init__] on the same path succeeds again and yields
    that very configuration, so the next process starts at the
    [last_scraped_date] this one reached.  When the last dump failed
    after [open] had truncated the file, [Config.__init__] raises
    [ValueError]: the state is lost. *)
Theorem restart_resumes_where_the_run_stopped w path st0 st fuel :
  Config.init w path st0 = Ok st ->
  exists evs,
    history (snd (Scraper.begin w fuel st)) = history st ++ evs /\
    (start_date_value (config (snd (Scraper.begin w fuel st)))
       = start_date_value (config st) /\
     threshold_value (config (snd (Scraper.begin w fuel st)))
       = threshold_value (config st) /\
     limit_value (config (snd (Scraper.begin w fuel st)))
       = limit_value (config st) /\
     max_attempts_value (config (snd (Scraper.begin w fuel st)))
       = max_attempts_value (config st) /\
     output_directory_value (config (snd (Scraper.begin w fuel st)))
       = output_directory_value (config st)) /\
    (last_dump evs = None \/ last_dump evs = Some DumpOk ->
     Config.init w path (snd (Scraper.begin w fuel st))
       = Ok (snd (Scraper.begin w fuel st))) /\
    (last_dump evs = Some DumpFails ->
     Config.init w path (snd (Scraper.begin w fuel st)) = Raise ValueError).
Proof.
  intros Hinit. unfold Config.init in Hinit.
  destruct (os_path_exists w path) eqn:Hp; [|discriminate].
  destruct (Config.is_json_file path) eqn:Hj; [|discriminate].
  cbn [negb] in Hinit.
  destruct (config_file st0) as [c|] eqn:Hfile0; [|discriminate].
  destruct (os_path_exists w (Config.output_dir c)) eqn:Ho; [|discriminate].
  destruct (os_path_isdir w (Config.output_dir c)) eqn:Hd; [|discriminate].
  cbn [negb] in Hinit. inversion Hinit; subst st; clear Hinit.
  unfold Scraper.begin.
  destruct (Scraper.windows w fuel Scraper.Fresh (set_config c st0))
    as [r st'] eqn:Hrun.
  destruct (windows_summary _ _ _ _ _ _ Hrun) as (evs & Hh & _).
  pose proof (windows_frame _ _ _ _ _ _ Hrun) as Hframe.
  pose proof (windows_last_dump _ _ _ _ _ _ _ Hrun Hh) as Hdisk.
  cbn [snd config config_file set_config] in *.
  exists evs. split; [exact Hh|]. split; [exact Hframe|].
  destruct Hframe as (_ & _ & _ & _ & Hout).
  unfold Config.init. rewrite Hp, Hj. cbn [negb].
  split.
  - intros Hlast.
    assert (Hf' : config_file st' = Some (config st')).
    { destruct Hlast as [Hl|Hl]; rewrite Hl in Hdisk.
      - destruct Hdisk as [Hc' Hf']. rewrite Hf', Hc'. exact Hfile0.
      - exact Hdisk. }
    rewrite Hf'. unfold Config.output_dir in *. rewrite Hout, Ho, Hd.
    cbn [negb]. destruct st'; reflexivity.
  - intros Hl. rewrite Hl in Hdisk. rewrite Hdisk. reflexivity.
Qed.

(** One window with seven articles is committed: the process can be
    started again and finds the Cursor at the end of that window. *)
Lemma restart_witness :
  let w := Sample.world (Sample.serve (Sample.one_page_of Sample.seven_articles))
             stdlib_logger_log Sample.always_ok (Sample.clock_at 737426) in
  let st' := snd (Scraper.begin w 5 Sample.state0) in
  Config.init w "config.json" st' = Ok st' /\
  Config.last_scraped_date (config st') = Sample.day 737426 /\
  Config.total (config st') = 7.
Proof.
  intros w st'.
  destruct (restart_resumes_where_the_run_stopped w "config.json"
              Sample.state0 Sample.state0 5 eq_refl)
    as (evs & Hh & _ & Hre & _).
  fold st' in Hh, Hre.
  split; [|split; vm_compute; reflexivity].
  apply Hre. right.
  assert (Hevs : evs = history st') by (rewrite Hh; reflexivity).
  rewrite Hevs. vm_compute. reflexivity.
Defined.

(** ** [Scraper]: runs that make no progress *)

Lemma pages_nothing_to_fetch w f ds de g st r st' :
  always_exhausted w ->
  Scraper.pages w f ds de g st = (r, st') ->
  config st' = config st /\ config_file st' = config_file st /\
  csv_files st' = csv_files st.
Proof.
  intros Hex Hrun. destruct f as [|f].
  { inversion Hrun; subst. auto. }
  apply pages_turn in Hrun.
  destruct Hrun as [e st1 Hrq _ -> | response st1 Hrq _ _ ->
                   | response st1 e Hrq _ _ ->
                   | response st1 items processed Hrq Hno
                   | response st1 items processed Hrq Hno
                   | response st1 items processed e written Hrq Hno];
    try (destruct (call_frame _ _ _ _ _ _ _ Hrq) as (Hc & Hf & Hv & _); now auto);
    destruct (call_served _ _ _ _ _ _ _ Hrq) as (h & limit & Hget);
    rewrite (Hex _ _ _ _ _ _ Hget) in Hno; discriminate.
Qed.

Lemma windows_nothing_to_fetch w f : forall g st r st',
  always_exhausted w ->
  Scraper.windows w f g st = (r, st') ->
  config st' = config st /\ config_file st' = config_file st /\
  csv_files st' = csv_files st.
Proof.
  induction f as [|f IH]; intros g st r st' Hex Hrun.
  { inversion Hrun; subst. auto. }
  cbn [Scraper.windows] in Hrun. unfold bind in Hrun.
  destruct (Scraper.window w f g st) as [rw st1] eqn:Hw.
  assert (H1 : config st1 = config st /\ config_file st1 = config_file st /\
               csv_files st1 = csv_files st).
  { apply window_inv in Hw.
    destruct Hw as [_ _ -> _ | rf st2 ds de _ Hp Hr _ _ | _ _ -> | _ _ _ ->];
      auto.
    destruct (pages_nothing_to_fetch _ _ _ _ _ _ _ _ Hex Hp) as (Hc & Hf & Hv).
    destruct rf as [[]|e|]; destruct Hr as [_ ->]; auto. }
  destruct H1 as (Hc1 & Hf1 & Hv1).
  destruct rw as [[g1|]|e|]; try (inversion Hrun; subst; now auto).
  destruct (IH _ _ _ _ Hex Hrun) as (Hc & Hf & Hv).
  repeat split; congruence.
Qed.

(** Windows without articles leave no mark.  When everything the endpoint
    serves shows exhaustion, a run of [begin], however many windows it
    walks, leaves the Cursor in memory, the state file and the sink as it
    found them: a process started afterwards begins at the same date
    again. *)
Theorem empty_windows_do_not_advance_the_cursor w fuel st :
  always_exhausted w ->
  config (snd (Scraper.begin w fuel st)) = config st /\
  config_file (snd (Scraper.begin w fuel st)) = config_file st /\
  csv_files (snd (Scraper.begin w fuel st)) = csv_files st.
Proof.
  intros Hex. unfold Scraper.begin.
  destruct (Scraper.windows w fuel Scraper.Fresh st) as [r st'] eqn:Hrun.
  eapply windows_nothing_to_fetch; eauto.
Qed.

Lemma empty_windows_witness :
  let w := Sample.world (Sample.serve (fun _ => Sample.page 0 []))
             stdlib_logger_log Sample.always_ok (Sample.clock_at 737427) in
  fst (Scraper.begin w 5 Sample.state0) = Done tt /\
  workings (history (snd (Scraper.begin w 5 Sample.state0)))
    = [(DMY 737425, DMY 737426); (DMY 737426, DMY 737427)] /\
  config (snd (Scraper.begin w 5 Sample.state0)) = config Sample.state0 /\
  config_file (snd (Scraper.begin w 5 Sample.state0)) = config_file Sample.state0 /\
  csv_files (snd (Scraper.begin w 5 Sample.state0)) = csv_files Sample.state0.
Proof.
  intros w. split; [vm_compute; reflexivity|]. split; [vm_compute; reflexivity|].
  apply (empty_windows_do_not_advance_the_cursor w 5 Sample.state0).
  intros h ds de offset limit response Hget. inversion Hget; subst. reflexivity.
Defined.

Lemma windows_never_done w f : forall g st,
  threshold_value (config st) <= 0 ->
  (forall h, candidate (config st) g < datetime_now w h) ->
  fst (Scraper.windows w f g st) = OutOfFuel \/
  fst (Scraper.windows w f g st) = Raised OverflowError.
Proof.
  induction f as [|f IH]; intros g st Hth Hpast; [now left|].
  cbn [Scraper.windows]. unfold bind.
  destruct (Scraper.window w f g st) as [rw st1] eqn:Hw.
  destruct (window_summary _ _ _ _ _ _ Hw) as (evs & _ & Hth1 & _ & _ & _ & Hcase).
  destruct rw as [[g1|]|e|]; [| | |now left].
  - destruct Hcase as (_ & -> & _). apply IH.
    + now rewrite Hth1.
    + intros h. cbn [candidate]. rewrite (time_delta_threshold _ _ Hth1).
      specialize (Hpast h).
      unfold Config.time_delta, timedelta_days, us_per_day. nia.
  - destruct Hcase as (_ & _ & Hge). specialize (Hpast (trace st)). lia.
  - destruct Hcase as (-> & _). now right.
Qed.

Lemma windows_zero_stuck w f : forall g st,
  threshold_value (config st) = 0 ->
  in_range (candidate (config st) g) = true ->
  (forall h, candidate (config st) g < datetime_now w h) ->
  fst (Scraper.windows w f g st) = OutOfFuel.
Proof.
  induction f as [|f IH]; intros g st Hth Hin Hpast; [reflexivity|].
  assert (Hd : Config.time_delta (config st) = 0)
    by (unfold Config.time_delta, timedelta_days; rewrite Hth; reflexivity).
  cbn [Scraper.windows]. unfold bind.
  destruct (Scraper.window w f g st) as [rw st1] eqn:Hw.
  destruct (window_summary _ _ _ _ _ _ Hw) as (evs & _ & Hth1 & _).
  apply window_inv in Hw.
  destruct Hw as [Hge _ _ _ | rf st2 ds de _ Hrun Hr _ _ | Hov _ _ | _ Hov _ _].
  - specialize (Hpast (trace st)). lia.
  - assert (Hcand : forall c', threshold_value c' = threshold_value (config st) ->
                               candidate c' (Scraper.Suspended ds)
                               = candidate (config st) g).
    { intros c' Hc'. cbn [candidate]. rewrite (time_delta_threshold _ _ Hc'), Hd.
      unfold ds. lia. }
    destruct rf as [[]|e|]; destruct Hr as [-> ->]; [| |reflexivity];
      (apply IH;
       [ rewrite Hth1; exact Hth
       | rewrite (Hcand _ Hth1); exact Hin
       | intros h; rewrite (Hcand _ Hth1); apply Hpast ]).
  - exfalso. destruct g as [|d]; [discriminate|].
    cbn [Scraper.date_iterable_current] in Hov. unfold datetime_add in Hov.
    change (d + Config.time_delta (config st))
      with (candidate (config st) (Scraper.Suspended d)) in Hov.
    rewrite Hin in Hov. discriminate.
  - exfalso. rewrite Hd, Z.add_0_r, Hin in Hov. discriminate.
Qed.

(** The page loops of a world whose endpoint is down end at their first
    fetch. *)
Lemma page_loops_end_down w :
  (forall ds de off, down_for w ds de off) -> page_loops_end w.
Proof.
  intros Hdown ds de st _. exists 1%nat.
  destruct (Scraper.pages w 1 ds de Scraper.Fresh st) as [r st'] eqn:Hrun.
  apply pages_turn in Hrun.
  destruct (call_down_raises w ds de
              (Scraper.offset_iterable (config st) Scraper.Fresh) st
              (Hdown _ _ _)) as (e' & He').
  destruct Hrun as [e0 st1 Hrq -> _ | response st1 Hrq
                   | response st1 e0 Hrq | response st1 items processed Hrq
                   | response st1 items processed Hrq
                   | response st1 items processed e0 written Hrq];
    rewrite Hrq in He'; discriminate.
Qed.

(** A window width of zero days, or less, with a Cursor before the
    clock: [begin] never returns normally.  With a width of zero the date
    generator stays where it is and the run has no end: whatever the
    fuel, it is still going when the fuel is used up.  With a negative
    width the windows walk back in time and the run can only end on the
    [OverflowError] of a date before year 1, which it does when the page
    loops end. *)
Theorem begin_never_returns_without_a_positive_window_width w st :
  threshold_value (config st) <= 0 ->
  (forall h, Config.last_scraped_date (config st) < datetime_now w h) ->
  (forall fuel,
      fst (Scraper.begin w fuel st) = OutOfFuel \/
      fst (Scraper.begin w fuel st) = Raised OverflowError) /\
  (threshold_value (config st) = 0 ->
   in_range (Config.last_scraped_date (config st)) = true ->
   forall fuel, fst (Scraper.begin w fuel st) = OutOfFuel) /\
  (threshold_value (config st) < 0 ->
   0 < limit_value (config st) ->
   page_loops_end w ->
   exists fuel, fst (Scraper.begin w fuel st) = Raised OverflowError).
Proof.
  intros Hth Hpast. unfold Scraper.begin. split; [|split].
  - intros fuel. now apply windows_never_done.
  - intros Hz Hin fuel. now apply windows_zero_stuck.
  - intros Hneg Hlim Hpages.
    destruct (windows_stop w Hpages
                (Z.to_nat (Config.last_scraped_date (config st)))
                Scraper.Fresh st Hlim) as (fuel & Hf).
    + right. split; [exact Hneg|]. cbn [candidate].
      unfold Config.time_delta, timedelta_days, us_per_day.
      destruct (Z.le_gt_cases 0 (Config.last_scraped_date (config st))).
      * rewrite Z2Nat.id by lia. nia.
      * replace (Z.to_nat (Config.last_scraped_date (config st))) with 0%nat
          by lia. lia.
    + exists fuel.
      destruct (windows_never_done w fuel Scraper.Fresh st Hth Hpast)
        as [Ho|Hr]; [contradiction | exact Hr].
Qed.

(** A width of zero days: fifty turns and still going.  A width of minus
    one day from 03-01-0001: the windows 03 to 02 and 02 to 01 are walked,
    the end of the next one would be the day before 01-01-0001. *)
Lemma begin_never_returns_witness :
  let w := Sample.world Sample.api_down stdlib_logger_log Sample.always_ok
             (Sample.clock_at 737427) in
  let back := Sample.state_from (DMY 3) (-1) in
  fst (Scraper.begin w 50 (Sample.state_with 3 0 5)) = OutOfFuel /\
  (exists fuel, fst (Scraper.begin w fuel back) = Raised OverflowError) /\
  fst (Scraper.begin w 5 back) = Raised OverflowError /\
  workings (history (snd (Scraper.begin w 5 back)))
    = [(DMY 3, DMY 2); (DMY 2, DMY 1)].
Proof.
  intros w back.
  assert (Hpast : forall st,
             Config.last_scraped_date (config st) < Sample.day 737427 ->
             forall h, Config.last_scraped_date (config st) < datetime_now w h)
    by (intros st H h; exact H).
  split; [|split; [|split; vm_compute; reflexivity]].
  - apply (proj1 (proj2 (begin_never_returns_without_a_positive_window_width
                           w (Sample.state_with 3 0 5) ltac:(discriminate)
                           (Hpast (Sample.state_with 3 0 5) eq_refl))));
      reflexivity.
  - apply (proj2 (proj2 (begin_never_returns_without_a_positive_window_width
                           w back ltac:(discriminate) (Hpast back eq_refl)))).
    + reflexivity.
    + reflexivity.
    + apply page_loops_end_down. intros ds de off h limit. reflexivity.
Defined.

(** ** [Scraper]: the Cursor only moves forward *)

Lemma accepted_rows_nonneg evs : 0 <= accepted_rows evs.
Proof.
  unfold accepted_rows. induction (csv_rows evs) as [|rows l IH]; cbn; lia.
Qed.

Lemma windows_cursor w f : forall g st r st',
  Scraper.windows w f g st = (r, st') ->
  start_date_value (config st') = start_date_value (config st) /\
  (last_scraped_date_value (config st') = last_scraped_date_value (config st) \/
   exists i : nat,
     last_scraped_date_value (config st')
     = Some (date_to_string
               (candidate (config st) g
                + Z.of_nat (S i) * Config.time_delta (config st)))).
Proof.
  induction f as [|f IH]; intros g st r st' Hrun.
  { inversion Hrun; subst. auto. }
  cbn [Scraper.windows] in Hrun. unfold bind in Hrun.
  destruct (Scraper.window w f g st) as [rw st1] eqn:Hw.
  assert (H1 : start_date_value (config st1) = start_date_value (config st) /\
               threshold_value (config st1) = threshold_value (config st) /\
               (last_scraped_date_value (config st1)
                = last_scraped_date_value (config st) \/
                last_scraped_date_value (config st1)
                = Some (date_to_string
                          (candidate (config st) g
                           + Z.of_nat 1 * Config.time_delta (config st)))) /\
               (forall g1, rw = Done (Some g1) ->
                           g1 = Scraper.Suspended (candidate (config st) g))).
  { apply window_inv in Hw.
    destruct Hw as [_ -> -> _ | rf st2 ds de _ Hp Hr _ _ | _ -> -> | _ _ -> ->].
    3,4: repeat split; auto; discriminate.
    - repeat split; auto. discriminate.
    - destruct (pages_summary _ _ _ _ _ _ _ _ Hp) as (pevs & _ & _ & Hc & _).
      assert (Hc2 : start_date_value (config st2) = start_date_value (config st) /\
                    threshold_value (config st2) = threshold_value (config st) /\
                    (last_scraped_date_value (config st2)
                     = last_scraped_date_value (config st) \/
                     last_scraped_date_value (config st2)
                     = Some (date_to_string de))).
      { rewrite Hc. destruct (dumps pevs); cbn; auto. }
      replace (candidate (config st) g + Z.of_nat 1 * Config.time_delta (config st))
        with de by (unfold de, ds; lia).
      destruct rf as [[]|e|]; destruct Hr as [-> ->]; cbn [config log_event];
        (split; [tauto|]); (split; [tauto|]); (split; [tauto|]);
        intros g1 Hg; inversion Hg; reflexivity. }
  destruct H1 as (Hs1 & Hth1 & Hl1 & Hg1).
  destruct rw as [[g1|]|e|]; try (inversion Hrun; subst; split; [exact Hs1|]);
    try (destruct Hl1 as [Hl1|Hl1]; [now left | right; exists 0%nat; exact Hl1]).
  rewrite (Hg1 _ eq_refl) in Hrun.
  destruct (IH _ _ _ _ Hrun) as (Hs & Hl).
  split; [congruence|].
  destruct Hl as [Hl|(i & Hl)].
  - rewrite Hl. destruct Hl1 as [Hl1|Hl1]; [now left | right; exists 0%nat; exact Hl1].
  - right. exists (S i). rewrite Hl. cbn [candidate].
    rewrite (time_delta_threshold _ _ Hth1). do 2 f_equal. lia.
Qed.

(** The Cursor never goes back.  With a window width that is not
    negative, a run of [begin], however it ends, leaves a [total] and a
    [last_scraped_date] that are at least what they were. *)
Theorem cursor_never_goes_back w fuel st :
  0 <= threshold_value (config st) ->
  Config.total (config st) <= Config.total (config (snd (Scraper.begin w fuel st))) /\
  Config.last_scraped_date (config st)
  <= Config.last_scraped_date (config (snd (Scraper.begin w fuel st))).
Proof.
  intros Hth. unfold Scraper.begin.
  destruct (Scraper.windows w fuel Scraper.Fresh st) as [r st'] eqn:Hrun.
  cbn [snd]. split.
  - destruct (windows_summary _ _ _ _ _ _ Hrun) as (evs & _ & _ & Htot & _).
    pose proof (accepted_rows_nonneg evs). lia.
  - destruct (windows_cursor _ _ _ _ _ _ Hrun) as (Hs & [Hl|(i & Hl)]).
    + unfold Config.last_scraped_date. rewrite Hl, Hs. lia.
    + unfold Config.last_scraped_date at 2. rewrite Hl.
      rewrite string_to_date_to_string.
      * cbn [candidate].
        unfold Config.time_delta, timedelta_days, us_per_day. nia.
      * cbn [candidate]. unfold Config.time_delta.
        apply midnight_plus_days. unfold Config.last_scraped_date.
        destruct (last_scraped_date_value (config st));
          apply midnight_string_to_date.
Qed.

Lemma cursor_never_goes_back_witness :
  let w := Sample.world (Sample.serve (Sample.one_page_of Sample.seven_articles))
             stdlib_logger_log Sample.always_ok (Sample.clock_at 737427) in
  Config.total (config Sample.state0)
  <= Config.total (config (snd (Scraper.begin w 5 Sample.state0))) /\
  Config.last_scraped_date (config Sample.state0)
  <= Config.last_scraped_date (config (snd (Scraper.begin w 5 Sample.state0))).
Proof.
  intros w. apply (cursor_never_goes_back w 5 Sample.state0). discriminate.
Defined.

(** ** [Scraper]: a page size of zero *)

Lemma pages_limit_zero w ds de api processed items :
  served_by w ds de api ->
  Scraper.exhausted w (api 0) = Ok false ->
  py_getitem (api 0) "items" = Ok items ->
  Processor.call w items = Ok processed ->
  forall fuel g st,
    Config.limit (config st) = 0 ->
    1 <= Config.max_attempts (config st) ->
    Scraper.offset_iterable (config st) g = 0 ->
    exists evs,
      fst (Scraper.pages w fuel ds de g st) = OutOfFuel /\
      history (snd (Scraper.pages w fuel ds de g st)) = history st ++ evs /\
      gets evs = repeat 0 fuel /\
      csv_rows evs = repeat (ItemsModel.to_list processed) fuel.
Proof.
  intros (Hapi & Hcsv & Hdump) Hex Hit Hpr.
  induction fuel as [|fuel IH]; intros g st HL Hmax Hoff.
  { exists []. cbn. now rewrite app_nil_r. }
  cbn [Scraper.pages]. unfold bind.
  pose proof (call_answered w ds de (Scraper.offset_iterable (config st) g)
                st _ Hmax (Hapi _ _ _)) as Hrq.
  rewrite Hoff in *.
  assert (Hpage := page_committed w ds de g st (api 0)
                     (log_event (EvGet ds de 0 (Config.limit (config st))) st)
                     items processed).
  rewrite Hoff in Hpage. rewrite (Hpage Hrq Hex Hit Hpr (Hcsv _ _ _) (Hdump _)).
  clear Hpage. cbv beta iota.
  set (st1 := log_event (EvGet ds de 0 (Config.limit (config st))) st) in *.
  destruct (IH (Scraper.Suspended 0) (commit_page w processed ds de st1))
    as (evs & Hr & Hh & Hg & Hc).
  - rewrite commit_page_config by apply Hcsv. exact HL.
  - rewrite commit_page_config by apply Hcsv. exact Hmax.
  - cbn [Scraper.offset_iterable].
    rewrite commit_page_config by apply Hcsv. rewrite limit_updated.
    change (config st1) with (config st). lia.
  - exists (EvGet ds de 0 (Config.limit (config st))
            :: EvCsv (year_of ds) (ItemsModel.to_list processed)
            :: EvDump (json_dump w (EvCsv (year_of ds)
                                      (ItemsModel.to_list processed)
                                      :: trace st1))
            :: evs).
    split; [exact Hr|]. rewrite Hh, (commit_page_history _ _ _ _ _ (Hcsv _ _ _)).
    unfold st1 at 1. rewrite history_log_event, <- !app_assoc.
    split; [reflexivity|]. cbn [gets csv_rows repeat]. now rewrite Hg, Hc.
Qed.

(** A page size of zero.  The offset never leaves 0: when the endpoint
    serves a page with records there, the page loop fetches that page and
    appends its rows again and again and never ends - with fuel [n] it has
    made [n] requests at offset 0 and handed the same rows to the sink [n]
    times when the fuel is used up. *)
Theorem page_loop_never_ends_with_limit_zero
        w ds de api fuel st items processed :
  served_by w ds de api ->
  Scraper.exhausted w (api 0) = Ok false ->
  py_getitem (api 0) "items" = Ok items ->
  Processor.call w items = Ok processed ->
  Config.limit (config st) = 0 ->
  1 <= Config.max_attempts (config st) ->
  exists evs,
    fst (Scraper.fetch_articles_in_date_range w fuel ds de st) = OutOfFuel /\
    history (snd (Scraper.fetch_articles_in_date_range w fuel ds de st))
      = history st ++ evs /\
    gets evs = repeat 0 fuel /\
    csv_rows evs = repeat (ItemsModel.to_list processed) fuel.
Proof.
  intros Hserved Hex Hit Hpr HL Hmax. unfold Scraper.fetch_articles_in_date_range.
  eapply pages_limit_zero; eauto.
Qed.

Lemma page_loop_limit_zero_witness :
  let w := Sample.world (Sample.serve (Sample.one_page_of Sample.seven_articles))
             stdlib_logger_log Sample.always_ok (Sample.clock_at 737427) in
  exists evs,
    fst (Scraper.fetch_articles_in_date_range w 4 (Sample.day 737425)
           (Sample.day 737426) (Sample.state_with 3 1 0)) = OutOfFuel /\
    history (snd (Scraper.fetch_articles_in_date_range w 4 (Sample.day 737425)
                    (Sample.day 737426) (Sample.state_with 3 1 0)))
      = history (Sample.state_with 3 1 0) ++ evs /\
    gets evs = repeat 0 4 /\
    List.length (csv_rows evs) = 4%nat.
Proof.
  intros w.
  destruct (page_loop_never_ends_with_limit_zero w (Sample.day 737425)
              (Sample.day 737426) (Sample.one_page_of Sample.seven_articles)
              4 (Sample.state_with 3 1 0) (PList Sample.seven_articles)
              (match Processor.call w (PList Sample.seven_articles) with
               | Ok out => out
               | Raise _ => ItemsModel.init
               end))
    as (evs & Hr & Hh & Hg & Hc).
  - repeat split.
  - reflexivity.
  - reflexivity.
  - vm_compute. reflexivity.
  - reflexivity.
  - discriminate.
  - exists evs. split; [exact Hr|]. split; [exact Hh|]. split; [exact Hg|].
    rewrite Hc. apply repeat_length.
Defined.

(** ** [Config.is_json_file] *)

Lemma py_split_cons sep s : exists piece pieces, py_split sep s = piece :: pieces.
Proof.
  destruct s as [|c r]; cbn; [eauto|].
  destruct (Ascii.eqb c sep); [eauto|].
  destruct (py_split sep r); eauto.
Qed.

(** Joining the pieces of a split with the separator gives the string
    back. *)
Lemma concat_py_split sep s :
  String.concat (String sep EmptyString) (py_split sep s) = s.
Proof.
  induction s as [|c r IH]; [reflexivity|].
  cbn [py_split]. destruct (py_split_cons sep r) as (piece & pieces & Hr).
  rewrite Hr in *. destruct (Ascii.eqb c sep) eqn:Hc.
  - apply Ascii.eqb_eq in Hc. subst c.
    change (String.concat (String sep "") ("" :: piece :: pieces))%string
      with (String sep (String.concat (String sep "") (piece :: pieces))).
    now rewrite IH.
  - destruct pieces as [|p ps]; cbn in *; now rewrite IH.
Qed.

Lemma string_append_assoc (a b c : string) :
  ((a ++ b) ++ c = a ++ (b ++ c))%string.
Proof. induction a as [|x a IH]; cbn; [reflexivity | now rewrite IH]. Qed.

Lemma concat_last sep (l : list string) :
  l <> [] ->
  String.concat sep l = last l EmptyString \/
  exists pre, String.concat sep l = (pre ++ sep ++ last l EmptyString)%string.
Proof.
  induction l as [|x l IH]; [congruence|]. intros _.
  destruct l as [|y l]; [now left|]. right.
  destruct (IH ltac:(discriminate)) as [Heq|(pre & Heq)].
  - exists x. change (String.concat sep (x :: y :: l))
      with (x ++ sep ++ String.concat sep (y :: l))%string.
    rewrite Heq. reflexivity.
  - exists (x ++ sep ++ pre)%string.
    change (String.concat sep (x :: y :: l))
      with (x ++ sep ++ String.concat sep (y :: l))%string.
    rewrite Heq.
    change (last (x :: y :: l) "")%string with (last (y :: l) "")%string.
    now rewrite !string_append_assoc.
Qed.

Lemma py_split_app sep a b :
  py_split sep (a ++ String sep b) = py_split sep a ++ py_split sep b.
Proof.
  induction a as [|c a IH]; cbn [String.append py_split].
  - now rewrite Ascii.eqb_refl.
  - rewrite IH. destruct (Ascii.eqb c sep); [reflexivity|].
    destruct (py_split_cons sep a) as (piece & pieces & ->). reflexivity.
Qed.

Lemma last_app_nonempty {A} (l1 l2 : list A) d :
  l2 <> [] -> last (l1 ++ l2) d = last l2 d.
Proof.
  intros H. induction l1 as [|x l1 IH]; [reflexivity|].
  cbn [app]. destruct (l1 ++ l2) eqn:E.
  - apply app_eq_nil in E. tauto.
  - exact IH.
Qed.

Lemma lower_char_dot c : lower_char c = "."%char -> c = "."%char.
Proof.
  unfold lower_char.
  destruct ((65 <=? nat_of_ascii c)%nat && (nat_of_ascii c <=? 90)%nat) eqn:Hc;
    [|easy].
  apply andb_prop in Hc. destruct Hc as [H1 H2].
  apply Nat.leb_le in H1, H2. intros H.
  apply (f_equal nat_of_ascii) in H.
  rewrite nat_ascii_embedding in H by lia. cbn in H. lia.
Qed.

Lemma lower_json_no_dot ext :
  py_lower ext = "json"%string -> py_split "." ext = [ext].
Proof.
  destruct ext as [|a [|b [|c [|d [|e r]]]]]; cbn [py_lower]; try discriminate.
  intros H. inversion H as [[Ha Hb Hc Hd]].
  assert (Hn : forall x y, lower_char x = y -> y <> "."%char ->
                           Ascii.eqb x "." = false).
  { intros x y Hx Hy. apply Ascii.eqb_neq. intros ->. now apply Hy. }
  cbn [py_split].
  rewrite (Hn a _ Ha), (Hn b _ Hb), (Hn c _ Hc), (Hn d _ Hd) by discriminate.
  reflexivity.
Qed.

(** Which paths pass for a JSON file.  Exactly those whose part after the
    last dot, letter case aside, is [json] - the whole path when it has no
    dot, so that a file called [json] passes.  [config.json] and
    [CONFIG.JSON] pass; [config.json.bak], [config.yaml] and a file inside
    a directory called [conf.json] do not. *)
Theorem is_json_file_spec :
  (forall path,
      Config.is_json_file path = true <->
      exists ext,
        py_lower ext = "json"%string /\
        (path = ext \/ exists pre, path = (pre ++ "." ++ ext)%string)) /\
  Config.is_json_file "config.json" = true /\
  Config.is_json_file "CONFIG.JSON" = true /\
  Config.is_json_file "json" = true /\
  Config.is_json_file "config.json.bak" = false /\
  Config.is_json_file "config.yaml" = false /\
  Config.is_json_file "conf.json/settings" = false.
Proof.
  split; [|repeat split].
  intros path. unfold Config.is_json_file. split.
  - intros H. apply String.eqb_eq in H.
    exists (last (py_split "." path) EmptyString). split; [exact H|].
    destruct (py_split_cons "." path) as (piece & pieces & Hs).
    destruct (concat_last "." (py_split "." path)) as [Heq|(pre & Heq)].
    + rewrite Hs. discriminate.
    + left. now rewrite <- Heq, concat_py_split.
    + right. exists pre. now rewrite <- Heq, concat_py_split.
  - intros (ext & Hext & [->|(pre & ->)]).
    + rewrite (lower_json_no_dot _ Hext). cbn [last]. rewrite Hext. reflexivity.
    + change (pre ++ "." ++ ext)%string with (pre ++ String "." ext)%string.
      rewrite py_split_app, last_app_nonempty, (lower_json_no_dot _ Hext).
      * cbn [last]. rewrite Hext. reflexivity.
      * rewrite (lower_json_no_dot _ Hext). discriminate.
Qed.

Lemma is_json_file_witness :
  Config.is_json_file "path/to/file.Json" = true.
Proof.
  apply (proj2 (proj1 is_json_file_spec "path/to/file.Json"%string)).
  exists "Json"%string. split; [reflexivity|].
  right. exists "path/to/file"%string. reflexivity.
Defined.

(** ** [Processor.construct_tags_text] *)

Local Open Scope string_scope.

Lemma tags_names objects :
  names_are_strings objects ->
  exists names,
    res_map (fun tag => py_get tag "name" PNone) (map PDict objects) = Ok names /\
    py_join_strs (filter (fun tag => negb (is_none tag)) names)
      = Ok (names_of objects).
Proof.
  induction objects as [|kv rest IH]; intros Hs.
  - exists []. split; reflexivity.
  - destruct IH as (names & Hmap & Hjoin).
    { intros kv' v Hin. apply Hs. now right. }
    cbn [map res_map py_get]. rewrite Hmap. cbn [res_bind].
    eexists. split; [reflexivity|].
    unfold names_of. cbn [flat_map filter]. fold (names_of rest).
    destruct (assoc "name" kv) as [v|] eqn:Hn; cbn [is_none negb].
    + destruct (Hs kv v (or_introl eq_refl) Hn) as [->|(s & ->)];
        cbn [is_none negb py_join_strs app].
      * exact Hjoin.
      * rewrite Hjoin. reflexivity.
    + exact Hjoin.
Qed.

(** The tags of a record.  Without a [tags] entry, or with an empty one
    set to [None], the result is [None].  With a list of tag objects
    whose names are strings (or [None]), it is the names that are there,
    in order, joined by commas: a tag without a name is skipped. *)
Theorem construct_tags_text_joins_the_names kv :
  (assoc "tags" kv = None \/ assoc "tags" kv = Some PNone ->
   Processor.construct_tags_text (PDict kv) = Ok PNone) /\
  (forall objects,
      assoc "tags" kv = Some (PList (map PDict objects)) ->
      names_are_strings objects ->
      Processor.construct_tags_text (PDict kv)
        = Ok (PStr (String.concat "," (names_of objects)))).
Proof.
  unfold Processor.construct_tags_text. cbn [py_get res_bind]. split.
  - intros [-> | ->]; reflexivity.
  - intros objects -> Hs. cbn [is_none negb py_iter res_bind].
    destruct (tags_names objects Hs) as (names & Hmap & Hjoin).
    rewrite Hmap. cbn [res_bind]. unfold py_join. rewrite Hjoin. reflexivity.
Qed.

Lemma construct_tags_text_witness :
  Processor.construct_tags_text
    (PDict [("tags", PList (map PDict [[("name", PStr "sports")];
                                       [("slug", PStr "untitled")];
                                       [("name", PStr "cricket")]]))])
  = Ok (PStr "sports,cricket").
Proof.
  apply (proj2 (construct_tags_text_joins_the_names
                  [("tags", PList (map PDict [[("name", PStr "sports")];
                                              [("slug", PStr "untitled")];
                                              [("name", PStr "cricket")]]))])
           [[("name", PStr "sports")];
            [("slug", PStr "untitled")];
            [("name", PStr "cricket")]]).
  - reflexivity.
  - intros kv v [<-|[<-|[<-|[]]]] Hn; inversion Hn; eauto.
Defined.

Local Close Scope string_scope.

(** ** [Scraper.begin]: a window that was given up *)

(** A window that was given up is not walked again.  When one turn of the
    loop of [begin] ends with the warning, without a commit, and the next
    turn walks its window to the end and commits, the Cursor, in memory
    and in the state file, is two window widths after the start of the
    window that was given up: with a window width of at least a day, that
    window lies before the date a restarted process begins at. *)
Theorem given_up_window_is_left_behind
        w f1 f2 g st g1 st1 g2 st2 evs1 evs2 :
  midnight (candidate (config st) g) ->
  Scraper.window w f1 g st = (Done (Some g1), st1) ->
  history st1 = history st ++ evs1 ->
  dumps evs1 = [] ->
  Scraper.window w f2 g1 st1 = (Done (Some g2), st2) ->
  history st2 = history st1 ++ evs2 ->
  warnings evs2 = [] ->
  dumps evs2 <> [] ->
  Config.last_scraped_date (config st2)
    = candidate (config st) g + 2 * Config.time_delta (config st) /\
  config_file st2 = Some (config st2) /\
  (0 < threshold_value (config st) ->
   candidate (config st) g + Config.time_delta (config st)
   < Config.last_scraped_date (config st2)).
Proof.
  intros Hmid Hw1 Hh1 Hd1 Hw2 Hh2 Hwarn2 Hd2.
  destruct (window_summary _ _ _ _ _ _ Hw1)
    as (_ & _ & Hth1 & _ & _ & _ & (_ & -> & _)).
  destruct (window_committed _ _ _ _ _ _ _ Hw2 Hh2 Hwarn2 Hd2)
    as (_ & Hc & Hfile & _).
  assert (Hdate : Config.last_scraped_date (config st2)
                  = candidate (config st) g + 2 * Config.time_delta (config st)).
  { unfold Config.last_scraped_date at 1. rewrite Hc.
    cbn [Config.updated last_scraped_date_value candidate].
    rewrite (time_delta_threshold _ _ Hth1).
    rewrite string_to_date_to_string.
    - lia.
    - replace (candidate (config st) g + Config.time_delta (config st)
               + Config.time_delta (config st))
        with (candidate (config st) g
              + 2 * timedelta_days (threshold_value (config st)))
        by (unfold Config.time_delta; lia).
      now apply midnight_plus_days. }
  split; [exact Hdate|]. split; [exact Hfile|].
  intros Hth. rewrite Hdate.
  unfold Config.time_delta, timedelta_days, us_per_day. lia.
Qed.

Lemma given_up_window_witness :
  let w := Sample.world
             (Sample.api_down_for (Sample.day 737425)
                (Sample.one_page_of Sample.seven_articles))
             stdlib_logger_log Sample.always_ok (Sample.clock_at 737428) in
  let st1 := snd (Scraper.window w 2 Scraper.Fresh Sample.state0) in
  let st2 := snd (Scraper.window w 2 (Scraper.Suspended (Sample.day 737425)) st1) in
  warnings (history st1) = [(DMY 737425, DMY 737426)] /\
  Config.last_scraped_date (config st2)
    = candidate (config Sample.state0) Scraper.Fresh
      + 2 * Config.time_delta (config Sample.state0) /\
  config_file st2 = Some (config st2) /\
  (0 < threshold_value (config Sample.state0) ->
   candidate (config Sample.state0) Scraper.Fresh
   + Config.time_delta (config Sample.state0)
   < Config.last_scraped_date (config st2)).
Proof.
  intros w st1 st2. split; [vm_compute; reflexivity|].
  apply (given_up_window_is_left_behind w 2 2 Scraper.Fresh Sample.state0
           (Scraper.Suspended (Sample.day 737425)) st1
           (Scraper.Suspended (Sample.day 737426)) st2
           (history st1) (skipn (List.length (history st1)) (history st2))).
  - reflexivity.
  - vm_compute. reflexivity.
  - reflexivity.
  - vm_compute. reflexivity.
  - vm_compute. reflexivity.
  - vm_compute. reflexivity.
  - vm_compute. reflexivity.
  - vm_compute. discriminate.
Defined.
